(** * Alignment scoring, retrieval fusion and evaluation: a shallow embedding

    The development follows the Python sources of the repository:
    [src/config.py], [src/ontology/builder.py], [src/ontology/alignment.py],
    [src/rag/hyde.py], [src/rag/retriever.py], [src/agents/sync_agent.py],
    [src/agents/orchestrator.py], [src/evaluation/ground_truth.py],
    [src/evaluation/metrics.py] and [src/ingestion/pipeline_cache.py].

    Conventions.
    - A Python [float] is read as the rational it denotes: scores live in [Q]
      and are compared with [==]; binary rounding error is not modelled, the
      explicit calls to [round] are.
    - A Python [str] is a [string] of 8-bit characters.
    - A [dict] read only through [get] is a [gmap]; a [dict] whose insertion
      order matters is an association list.
    - Calls that leave the repository (the language model, the vector store,
      the [re] and [json] libraries, the file system) are inputs of the
      function that makes them: their answer, or their failure, is an
      argument. *)

From Stdlib Require Import ZArith QArith Qround Qminmax Qabs Lia Lqa.
From Stdlib Require Import List Ascii Sorting.Sorted Sorting.Permutation.
From stdpp Require Import base option list gmap strings pretty.

Local Open Scope Q_scope.
#[local] Set Warnings "-clear-no-such-hyp".

(** ** Python built-ins *)

Module Py.

(** [d.get(key, default)] once the lookup has been made. *)
Definition get {A} (o : option A) (default : A) : A :=
  match o with Some v => v | None => default end.

(** [len(l)] as an integer. *)
Definition len {A} (l : list A) : Z := Z.of_nat (length l).

(** [sum(l)] on numbers. *)
Definition sum (l : list Q) : Q := foldl Qplus 0 l.

(** Rounding of a rational to the nearest integer, ties to even. *)
Definition round_half_even (x : Q) : Z :=
  let f := Qfloor x in
  match Qcompare (x - inject_Z f) (1 # 2) with
  | Lt => f
  | Gt => (f + 1)%Z
  | Eq => if Z.even f then f else (f + 1)%Z
  end.

(** [round(x, ndigits)]. *)
Definition round (x : Q) (ndigits : nat) : Q :=
  inject_Z (round_half_even (x * inject_Z (10 ^ Z.of_nat ndigits)))
  / inject_Z (10 ^ Z.of_nat ndigits).

(** [x >= y] on numbers, as a boolean. *)
Definition ge (x y : Q) : bool := Qle_bool y x.

(** [x < y] on numbers, as a boolean. *)
Definition lt (x y : Q) : bool := negb (Qle_bool y x).

(** Characters removed by [str.strip()] without argument. *)
Definition is_space (c : ascii) : bool :=
  match c with
  | "009" | "010" | "011" | "012" | "013"
  | "028" | "029" | "030" | "031" | " " => true
  | _ => false
  end%char.

Definition chars : string → list ascii := String.list_ascii_of_string.
Definition text : list ascii → string := String.string_of_list_ascii.

(** [s.lstrip(set)], [s.rstrip(set)] and [s.strip(set)] on characters. *)
Fixpoint lstrip_by (p : ascii → bool) (l : list ascii) : list ascii :=
  match l with
  | c :: l' => if p c then lstrip_by p l' else l
  | [] => []
  end.

Definition rstrip_by (p : ascii → bool) (l : list ascii) : list ascii :=
  rev (lstrip_by p (rev l)).

Definition strip_by (p : ascii → bool) (l : list ascii) : list ascii :=
  rstrip_by p (lstrip_by p l).

Definition strip (s : string) : string := text (strip_by is_space (chars s)).

Definition mem_char (set : string) (c : ascii) : bool :=
  bool_decide (c ∈ chars set).

Definition lstrip_chars (set s : string) : string :=
  text (lstrip_by (mem_char set) (chars s)).

Definition strip_chars (set s : string) : string :=
  text (strip_by (mem_char set) (chars s)).

(** [s.split(sep)] for a separator of one character: the pieces between
    the occurrences of [sep], always at least one piece. *)
Fixpoint split_go (sep : ascii) (cur : list ascii) (l : list ascii)
  : list (list ascii) :=
  match l with
  | [] => [rev cur]
  | c :: l' =>
      if bool_decide (c = sep) then rev cur :: split_go sep [] l'
      else split_go sep (c :: cur) l'
  end.

Definition split (sep : ascii) (s : string) : list string :=
  text <$> split_go sep [] (chars s).

(** [s.split(sep, 1)]. *)
Fixpoint split_once_go (sep : ascii) (cur : list ascii) (l : list ascii)
  : list (list ascii) :=
  match l with
  | [] => [rev cur]
  | c :: l' =>
      if bool_decide (c = sep) then [rev cur; l']
      else split_once_go sep (c :: cur) l'
  end.

Definition split_once (sep : ascii) (s : string) : list string :=
  text <$> split_once_go sep [] (chars s).

(** [s.replace(a, b)] for single characters. *)
Definition replace_char (a b : ascii) (s : string) : string :=
  text ((λ c, if bool_decide (c = a) then b else c) <$> chars s).

(** [s.startswith(p)]. *)
Fixpoint prefixb (p l : list ascii) : bool :=
  match p, l with
  | [], _ => true
  | a :: p', b :: l' => bool_decide (a = b) && prefixb p' l'
  | _ :: _, [] => false
  end.

Definition startswith (s p : string) : bool := prefixb (chars p) (chars s).

(** [s.replace(a, empty)] for a single character [a]. *)
Definition remove_char (a : ascii) (s : string) : string :=
  text (filter (λ c, c ≠ a) (chars s)).

(** [s.split(sep)[0]] for a non-empty [sep]: the text before the first
    occurrence of [sep], all of [s] when there is none. *)
Fixpoint before_sep (sep l : list ascii) {struct l} : list ascii :=
  match l with
  | [] => []
  | c :: l' => if prefixb sep l then [] else c :: before_sep sep l'
  end.

Definition split_head (sep s : string) : string :=
  text (before_sep (chars sep) (chars s)).

(** [p in s] on strings: [p] occurs in [s] as a run of consecutive
    characters. *)
Fixpoint infixb (p l : list ascii) : bool :=
  prefixb p l ||
  match l with
  | [] => false
  | _ :: l' => infixb p l'
  end.

Definition contains (s p : string) : bool := infixb (chars p) (chars s).

(** [s[:n]] for [n >= 0]. *)
Definition take_str (n : nat) (s : string) : string := text (take n (chars s)).

(** [l[:k]] on a list, for any integer [k]: the first [k] items when
    [k >= 0], all but the last [-k] items otherwise. *)
Definition slice_to {A} (k : Z) (l : list A) : list A :=
  if (0 <=? k)%Z then take (Z.to_nat k) l
  else take (length l - Z.to_nat (- k)) l.

(** [l[i]] with a non-negative index; [None] is [IndexError]. *)
Definition index {A} (l : list A) (i : nat) : option A := l !! i.

(** [s.rstrip()] without argument. *)
Definition rstrip (s : string) : string :=
  text (rstrip_by is_space (chars s)).

(** [sep.join(l)]. *)
Fixpoint join (sep : string) (l : list string) : string :=
  match l with
  | [] => EmptyString
  | s :: l' =>
      match l' with
      | [] => s
      | _ :: _ => s +:+ sep +:+ join sep l'
      end
  end.

(** [s.lower()] on the letters A to Z. *)
Definition lower_char (c : ascii) : ascii :=
  let n := nat_of_ascii c in
  if ((65 <=? n) && (n <=? 90))%nat then ascii_of_nat (n + 32) else c.

Definition lower (s : string) : string := text (lower_char <$> chars s).

(** [x > y] on numbers, as a boolean. *)
Definition gt (x y : Q) : bool := negb (Qle_bool x y).

(** [min(l)] and [max(l)] on a list of integers with first item [x]. *)
Definition min_of (x : Z) (l : list Z) : Z := foldl Z.min x l.
Definition max_of (x : Z) (l : list Z) : Z := foldl Z.max x l.

(** [numpy.mean(l)] on a non-empty list. *)
Definition mean (l : list Q) : Q := sum l / inject_Z (len l).

(** [range(start, stop, step)] for a positive [step]; [fuel] bounds the
    number of items. *)
Fixpoint range_from (fuel start stop step : nat) : list nat :=
  match fuel with
  | O => []
  | S fuel' =>
      if (start <? stop)%nat
      then start :: range_from fuel' (start + step) stop step
      else []
  end.

Definition range (start stop step : nat) : list nat :=
  range_from stop start stop step.

(** [l[start:stop]] for [0 <= start <= stop]. *)
Definition slice {A} (start stop : nat) (l : list A) : list A :=
  take (stop - start) (drop start l).

End Py.

(** ** [src/config.py] *)

Module Config.

Definition RETRIEVAL_TOP_K : Z := 10.
Definition RERANK_TOP_K : Z := 5.

(** The dictionaries keep their insertion order: they are iterated. *)
Definition STRATEGIC_OBJECTIVES : list (string * string) :=
  [ ("SO1", "Digital Learning Transformation");
    ("SO2", "Research Excellence and Innovation");
    ("SO3", "Student Experience and Wellbeing");
    ("SO4", "Industry Partnerships and Employability");
    ("SO5", "Operational Efficiency and Sustainability") ]%string.

Definition OBJECTIVE_KPIS : list (string * list string) :=
  [ ("SO1", ["D1"; "D2"; "D3"; "D4"; "D5"; "D6"]);
    ("SO2", ["R1"; "R2"; "R3"; "R4"; "R5"; "R6"]);
    ("SO3", ["S1"; "S2"; "S3"; "S4"; "S5"; "S6"]);
    ("SO4", ["I1"; "I2"; "I3"; "I4"; "I5"; "I6"]);
    ("SO5", ["O1"; "O2"; "O3"; "O4"; "O5"; "O6"]) ]%string.

Definition ONTOLOGY_NAMESPACE : string :=
  "http://isps.greenfield.ac.uk/ontology#".

(** [d.get(key)] on an insertion-ordered dictionary. *)
Fixpoint lookup {V} (key : string) (d : list (string * V)) : option V :=
  match d with
  | [] => None
  | (k, v) :: d' => if bool_decide (k = key) then Some v else lookup key d'
  end.

End Config.

(** ** [src/ontology/schema.py]: the graph *)

Module Schema.

(** A node of the RDF graph.  [IntLiteral z] is a literal whose text is the
    integer [z]; [Literal s] is any other literal, so [int()] fails on it. *)
Inductive node : Type :=
| URIRef (iri : string)
| Literal (lexical : string)
| IntLiteral (value : Z).

#[global] Instance node_eq_dec : EqDecision node.
Proof. solve_decision. Defined.

#[global] Instance node_countable : Countable node.
Proof.
  refine (inj_countable'
    (λ n, match n with
          | URIRef s => inl s
          | Literal s => inr (inl s)
          | IntLiteral z => inr (inr z)
          end)
    (λ x, match x with
          | inl s => URIRef s
          | inr (inl s) => Literal s
          | inr (inr z) => IntLiteral z
          end) _).
  intros []; reflexivity.
Defined.

Abbreviation triple := (node * node * node)%type.
(** An [rdflib.Graph] is a set of triples. *)
Abbreviation Graph := (gset triple).

Definition subject (t : triple) : node := t.1.1.
Definition predicate (t : triple) : node := t.1.2.
Definition object (t : triple) : node := t.2.

(** [g.add((s, p, o))]. *)
Definition add (t : triple) (g : Graph) : Graph := {[ t ]} ∪ g.

(** [g.subjects(p, o)] and [g.objects(s, p)], in the order the store
    yields them. *)
Definition subjects (g : Graph) (p o : node) : list node :=
  subject <$> elements (filter (λ t, predicate t = p ∧ object t = o) g).

Definition objects (g : Graph) (s p : node) : list node :=
  object <$> elements (filter (λ t, subject t = s ∧ predicate t = p) g).

(** [str(n)]. *)
Definition node_str (n : node) : string :=
  match n with
  | URIRef s => s
  | Literal s => s
  | IntLiteral z => pretty z
  end.

(** [int(n)]; [None] is [ValueError]. *)
Definition node_int (n : node) : option Z :=
  match n with
  | IntLiteral z => Some z
  | _ => None
  end.

Definition ISPS (name : string) : node :=
  URIRef (Config.ONTOLOGY_NAMESPACE +:+ name).

Definition RDF (name : string) : node :=
  URIRef ("http://www.w3.org/1999/02/22-rdf-syntax-ns#" +:+ name).





End Schema.

(** ** [src/ontology/builder.py] *)

Module Builder.
Import Schema.


Record ActionMatch := {
  am_action_id : string;  (* group 1, [A\d+\.\d+] *)
  am_desc : string;       (* group 2 *)
  am_owner : string;      (* group 3 *)
  am_deadline : string;   (* group 4 *)
  am_progress : N         (* the number written by group 5, [\d+] *)
}.

Record AddendumMatch := {
  ad_kpi_id : string;     (* group 1, [SO\d+_[A-Z]\d+] *)
  ad_desc : string        (* group 2 *)
}.




Definition _progress_to_status (progress : Z) : string :=
  if (100 <=? progress)%Z then "Completed"
  else if (50 <=? progress)%Z then "In Progress"
  else if (0 <? progress)%Z then "Started"
  else "Not Started".

Definition is_alnum (c : ascii) : bool :=
  let n := nat_of_ascii c in
  ((48 <=? n) && (n <=? 57) || (65 <=? n) && (n <=? 90)
   || (97 <=? n) && (n <=? 122))%nat.

(** [re.sub(r'[^a-zA-Z0-9]', '_', text).strip('_')]. *)
Definition _uri_safe (text : string) : string :=
  Py.strip_chars "_"
    (Py.text ((λ c, if is_alnum c then c else "_"%char) <$> Py.chars text)).




(** One turn of the loop of [_extract_actions]; the state is the graph and
    [current_obj]. *)
Definition extract_action_row (action_plan_uri : node)
    (st : Graph * string) (m : ActionMatch) : Graph * string :=
  let '(g, current_obj) := st in
  let action_id := Py.strip (am_action_id m) in
  let action_desc := Py.strip (am_desc m) in
  let owner := Py.strip (am_owner m) in
  let deadline := Py.strip (am_deadline m) in
  let progress := Z.of_N (am_progress m) in
  let obj_num := Py.remove_char "A" (Py.split_head "." action_id) in
  let current_obj :=
    if Py.contains "123456" obj_num then "SO" +:+ obj_num else current_obj in
  let action_uri := ISPS (Py.replace_char "." "_" action_id) in
  let g := add (action_uri, RDF "type", ISPS "Action") g in
  let g := add (action_uri, ISPS "hasTitle", Literal (Py.take_str 200 action_desc)) g in
  let g := add (action_uri, ISPS "hasDeadline", Literal deadline) g in
  let g := add (action_uri, ISPS "hasProgress", IntLiteral progress) g in
  let g := add (action_uri, ISPS "hasStatus",
                Literal (_progress_to_status progress)) g in
  let g := add (action_plan_uri, ISPS "hasAction", action_uri) g in
  let g := add (action_uri, ISPS "supportsObjective", ISPS current_obj) g in
  let g :=
    foldl (λ g kpi_id,
             add (action_uri, ISPS "supportsKPI",
                  ISPS (current_obj +:+ "_" +:+ kpi_id)) g)
          g (Py.get (Config.lookup current_obj Config.OBJECTIVE_KPIS) []) in
  let g :=
    if bool_decide (owner = EmptyString) then g
    else add (action_uri, ISPS "ownedBy", ISPS (_uri_safe owner)) g in
  (g, current_obj).

Definition _extract_actions
    (g : Graph) (matches : list ActionMatch) (action_plan_uri : node) : Graph :=
  (foldl (extract_action_row action_plan_uri) (g, "SO1"%string) matches).1.

(** One turn of the loop of [_extract_addendum_actions], at index [i] of
    [enumerate(matches)]. *)
Definition extract_addendum_line (action_plan_uri : node)
    (g : Graph) (im : nat * AddendumMatch) : Graph :=
  let '(i, m) := im in
  let kpi_id := Py.strip (ad_kpi_id m) in
  let action_desc := Py.strip (ad_desc m) in
  let obj_id := Py.split_head "_" kpi_id in
  let action_id := obj_id +:+ "_ADD_" +:+ pretty (i + 1)%nat in
  let action_uri := ISPS action_id in
  let g := add (action_uri, RDF "type", ISPS "Action") g in
  let g := add (action_uri, ISPS "hasTitle", Literal (Py.take_str 300 action_desc)) g in
  let g := add (action_uri, ISPS "hasDeadline", Literal "2029") g in
  let g := add (action_uri, ISPS "hasProgress", IntLiteral 20) g in
  let g := add (action_uri, ISPS "hasStatus", Literal "In Progress") g in
  let g := add (action_plan_uri, ISPS "hasAction", action_uri) g in
  let g := add (action_uri, ISPS "supportsObjective", ISPS obj_id) g in
  let full_kpi_id := kpi_id in
  let kpi_uri := ISPS full_kpi_id in
  let g := add (action_uri, ISPS "supportsKPI", kpi_uri) g in
  let owner_uri := ISPS "Strategic_Planning_Team" in
  add (action_uri, ISPS "ownedBy", owner_uri) g.

Definition _extract_addendum_actions
    (g : Graph) (matches : list AddendumMatch) (action_plan_uri : node) : Graph :=
  foldl (extract_addendum_line action_plan_uri) g
        (imap (λ i m, (i, m)) matches).




End Builder.

(** ** [src/ontology/alignment.py] *)

Module Alignment.
Import Schema.

Record ActionDetail := {
  det_id : string;
  det_title : option string;
  det_progress : option Z
}.

(** The dictionary stored under an objective id by
    [compute_ontology_alignment]. *)
Record OntologyRecord := {
  r_objective : string;
  r_alignment_score : Q;
  r_alignment_level : string;
  r_total_actions : Z;
  r_total_kpis : Z;
  r_kpis_covered : Z;
  r_kpi_coverage : Q;
  r_avg_progress : Q;
  r_action_details : list ActionDetail
}.

(** [str(uri).split("#")[-1]]. *)
Definition local_name (n : node) : string :=
  List.last (Py.split "#" (node_str n)) EmptyString.

(** [_get_action_details]; [int(prog)] is not guarded here, so a progress
    value that is not an integer raises [ValueError]: [None]. *)
Definition _get_action_details
    (g : Graph) (action_uris : list node) : option (list ActionDetail) :=
  mapM (λ action_uri,
          progress ← mapM node_int (objects g action_uri (ISPS "hasProgress"));
          Some {| det_id := local_name action_uri;
                  det_title :=
                    last (node_str <$> objects g action_uri (ISPS "hasTitle"));
                  det_progress := last progress |})
       action_uris.

(** The local variables of one turn of the loop of
    [compute_ontology_alignment], as functions of the graph and of the
    objective id. *)
Definition supporting_actions (g : Graph) (obj_id : string) : list node :=
  subjects g (ISPS "supportsObjective") (ISPS obj_id).

Definition kpis (g : Graph) (obj_id : string) : list node :=
  objects g (ISPS obj_id) (ISPS "hasKPI").

Definition total_kpis (g : Graph) (obj_id : string) : Z :=
  Py.len (kpis g obj_id).

Definition kpis_with_actions (g : Graph) (obj_id : string) : gset string :=
  foldl (λ acc action,
           foldl (λ acc kpi, {[ node_str kpi ]} ∪ acc) acc
                 (objects g action (ISPS "supportsKPI")))
        ∅ (supporting_actions g obj_id).

(** [int(prog)] is guarded in this loop: a value that does not parse is
    skipped. *)
Definition progress_values (g : Graph) (obj_id : string) : list Z :=
  supporting_actions g obj_id ≫=
    (λ action, omap node_int (objects g action (ISPS "hasProgress"))).

Definition avg_progress (g : Graph) (obj_id : string) : Q :=
  let values := progress_values g obj_id in
  match values with
  | [] => 0
  | _ :: _ => inject_Z (foldl Z.add 0%Z values) / inject_Z (Py.len values)
  end.

Definition action_count (g : Graph) (obj_id : string) : Z :=
  Py.len (supporting_actions g obj_id).

Definition kpi_coverage (g : Graph) (obj_id : string) : Q :=
  if (0 <? total_kpis g obj_id)%Z
  then inject_Z (Z.of_nat (size (kpis_with_actions g obj_id)))
       / inject_Z (total_kpis g obj_id)
  else 0.

Definition action_density (g : Graph) (obj_id : string) : Q :=
  if (0 <? total_kpis g obj_id)%Z
  then Qmin (inject_Z (action_count g obj_id)
             / (inject_Z (total_kpis g obj_id) * 1)) 1
  else 0.

Definition alignment_score (g : Graph) (obj_id : string) : Q :=
  (0.4 * action_density g obj_id) + (0.4 * kpi_coverage g obj_id)
  + (0.2 * avg_progress g obj_id / 100).

(** The [if]/[elif] chain on [alignment_score]. *)
Definition level (alignment_score : Q) : string :=
  if Py.ge alignment_score 0.75 then "Full"
  else if Py.ge alignment_score 0.50 then "Partial"
  else if Py.ge alignment_score 0.25 then "Weak"
  else "Missing".

(** One turn of the loop: the entry [results[obj_id]]. *)
Definition score_objective
    (g : Graph) (obj_id obj_title : string) : option OntologyRecord :=
  details ← _get_action_details g (supporting_actions g obj_id);
  Some {| r_objective := obj_title;
          r_alignment_score := Py.round (alignment_score g obj_id) 3;
          r_alignment_level := level (alignment_score g obj_id);
          r_total_actions := action_count g obj_id;
          r_total_kpis := total_kpis g obj_id;
          r_kpis_covered := Z.of_nat (size (kpis_with_actions g obj_id));
          r_kpi_coverage := Py.round (kpi_coverage g obj_id) 3;
          r_avg_progress := Py.round (avg_progress g obj_id) 1;
          r_action_details := details |}.

(** [compute_ontology_alignment]: [None] when a turn of the loop raises. *)
Definition compute_ontology_alignment
    (g : Graph) : option (gmap string OntologyRecord) :=
  foldl (λ results '(obj_id, obj_title),
           results ← results;
           record ← score_objective g obj_id obj_title;
           Some (<[obj_id := record]> results))
        (Some ∅) Config.STRATEGIC_OBJECTIVES.

(** An item of the list ["actions"] of [get_ontology_mapping]; a key that
    was not set is [None]. *)
Record ActionInfo := {
  ai_id : string;
  ai_title : option string;
  ai_progress : option Z;
  ai_status : option string;
  ai_owner : option string
}.

Record KpiInfo := {
  ki_id : string;
  ki_title : option string;
  ki_target : option string;
  ki_baseline : option string
}.

(** The dictionary returned by [get_ontology_mapping]. *)
Record Mapping := {
  m_objective_id : string;
  m_objective_name : string;
  m_actions : list ActionInfo;
  m_kpis : list KpiInfo;
  m_action_count : Z;
  m_kpi_count : Z
}.

(** [get_ontology_mapping]; [int(progress)] is not guarded: [None] is its
    [ValueError]. *)
Definition get_ontology_mapping
    (g : Graph) (objective_id : string) : option Mapping :=
  let obj_uri := ISPS objective_id in
  actions ←
    mapM (λ action_uri,
            progress ←
              mapM node_int (objects g action_uri (ISPS "hasProgress"));
            Some {| ai_id := local_name action_uri;
                    ai_title :=
                      last (node_str
                              <$> objects g action_uri (ISPS "hasTitle"));
                    ai_progress := last progress;
                    ai_status :=
                      last (node_str
                              <$> objects g action_uri (ISPS "hasStatus"));
                    ai_owner :=
                      last (objects g action_uri (ISPS "ownedBy") ≫=
                              (λ owner,
                                 node_str
                                   <$> objects g owner (ISPS "hasTitle"))) |})
         (subjects g (ISPS "supportsObjective") obj_uri);
  let kpis :=
    (λ kpi_uri,
       {| ki_id := local_name kpi_uri;
          ki_title := last (node_str <$> objects g kpi_uri (ISPS "hasTitle"));
          ki_target :=
            last (node_str <$> objects g kpi_uri (ISPS "hasTarget"));
          ki_baseline :=
            last (node_str <$> objects g kpi_uri (ISPS "hasBaseline")) |})
    <$> objects g obj_uri (ISPS "hasKPI") in
  Some {| m_objective_id := objective_id;
          m_objective_name :=
            Py.get (Config.lookup objective_id Config.STRATEGIC_OBJECTIVES)
                   "Unknown";
          m_actions := actions;
          m_kpis := kpis;
          m_action_count := Py.len actions;
          m_kpi_count := Py.len kpis |}.

(** An item of the list returned by [identify_gaps]: a KPI without
    supporting action, or an action whose progress is low. *)
Inductive GapEntry : Type :=
| NoSupportingActions (kpi_id kpi_title : string)
| LowProgress (action_id action_title : string) (progress : Z).

Definition gap_type (gap : GapEntry) : string :=
  match gap with
  | NoSupportingActions _ _ => "No supporting actions"
  | LowProgress _ _ _ => "Low progress"
  end.

Definition severity (gap : GapEntry) : string :=
  match gap with
  | NoSupportingActions _ _ => "High"
  | LowProgress _ _ _ => "Medium"
  end.

(** [identify_gaps]; [int(prog)] is not guarded: [None] is its
    [ValueError]. *)
Definition identify_gaps
    (g : Graph) (objective_id : string) : option (list GapEntry) :=
  let obj_uri := ISPS objective_id in
  let kpis := objects g obj_uri (ISPS "hasKPI") in
  let actions := subjects g (ISPS "supportsObjective") obj_uri in
  let supported_kpis : gset string :=
    foldl (λ acc action,
             foldl (λ acc kpi, {[ node_str kpi ]} ∪ acc) acc
                   (objects g action (ISPS "supportsKPI")))
          ∅ actions in
  let gaps :=
    kpis ≫=
      (λ kpi_uri,
         if bool_decide (node_str kpi_uri ∉ supported_kpis)
         then [ NoSupportingActions
                  (local_name kpi_uri)
                  (Py.get (last (node_str
                                   <$> objects g kpi_uri (ISPS "hasTitle")))
                          EmptyString) ]
         else []) in
  low ←
    mapM (λ action,
            values ← mapM node_int (objects g action (ISPS "hasProgress"));
            Some (values ≫=
                    (λ progress,
                       if (progress <? 25)%Z
                       then [ LowProgress
                                (local_name action)
                                (Py.get (last (node_str
                                                 <$> objects g action
                                                       (ISPS "hasTitle")))
                                        EmptyString)
                                progress ]
                       else [])))
         actions;
  Some (gaps ++ concat low).

End Alignment.

(** ** [src/agents/orchestrator.py] *)

Module Orchestrator.
Import Schema.

(** The dictionary returned by [run_sync_assessment], with the keys that
    [run_full_analysis] reads or writes; a key that is absent is [None]. *)
Record SyncResult := {
  s_alignment_score : option Q;
  s_alignment_level : option string;
  s_covered_kpis : option (list string);
  s_uncovered_kpis : option (list string);
  s_combined_score : option Q;
  s_ontology_score : option Q
}.

(** The entry [results["objectives"][obj_id]]. *)
Record ObjectiveEntry := {
  e_sync_assessment : SyncResult;
  e_improvements : bool;   (* whether the improvement agent was run *)
  e_combined_score : Q;
  e_ontology_score : Q;
  e_ontology_data : option Alignment.OntologyRecord
}.

Record Results := {
  objectives : gmap string ObjectiveEntry;
  overall_score : Q;
  overall_level : string
}.

Definition total_kpis (sync_result : SyncResult) : Z :=
  Py.len (Py.get (s_covered_kpis sync_result) [])
  + Py.len (Py.get (s_uncovered_kpis sync_result) []).

(** The score of the agent after the recalculation from its KPI lists. *)
Definition agent_score (sync_result : SyncResult) : Q :=
  let covered_kpis := Py.get (s_covered_kpis sync_result) [] in
  if (0 <? total_kpis sync_result)%Z then
    let kpi_ratio :=
      inject_Z (Py.len covered_kpis) / inject_Z (total_kpis sync_result) in
    let raw_llm_score := Py.get (s_alignment_score sync_result) 0.5 in
    let agent_score := (0.8 * kpi_ratio) + (0.2 * raw_llm_score) in
    Py.round (Qmin 1 (Qmax 0 agent_score)) 3
  else Py.get (s_alignment_score sync_result) 0.5.

Definition ontology_score
    (ontology_alignment : gmap string Alignment.OntologyRecord)
    (obj_id : string) : Q :=
  Py.get (Alignment.r_alignment_score <$> ontology_alignment !! obj_id) 0.5.

Definition combined_score
    (ontology_alignment : gmap string Alignment.OntologyRecord)
    (obj_id : string) (sync_result : SyncResult) : Q :=
  (0.8 * agent_score sync_result)
  + (0.2 * ontology_score ontology_alignment obj_id).

(** The [if]/[elif] chain on [combined_score]. *)
Definition alignment_level (combined_score : Q) : string :=
  if Py.ge combined_score 0.8 then "Full"
  else if Py.ge combined_score 0.6 then "Partial"
  else if Py.ge combined_score 0.4 then "Weak"
  else "Missing".

(** The [if]/[elif] chain on [results["overall_score"]]. *)
Definition overall_level_of (overall_score : Q) : string :=
  if Py.ge overall_score 0.75 then "Full"
  else if Py.ge overall_score 0.50 then "Partial"
  else if Py.ge overall_score 0.25 then "Weak"
  else "Missing".

(** One turn of the loop over the objectives, after the agent has
    answered. *)
Definition assess_objective
    (ontology_alignment : gmap string Alignment.OntologyRecord)
    (obj_id : string) (sync_result : SyncResult) : ObjectiveEntry :=
  let agent := agent_score sync_result in
  let onto := ontology_score ontology_alignment obj_id in
  let combined := combined_score ontology_alignment obj_id sync_result in
  let sync_result :=
    {| s_alignment_score :=
         if (0 <? total_kpis sync_result)%Z then Some agent
         else s_alignment_score sync_result;
       s_alignment_level := Some (alignment_level combined);
       s_covered_kpis := s_covered_kpis sync_result;
       s_uncovered_kpis := s_uncovered_kpis sync_result;
       s_combined_score := Some (Py.round combined 3);
       s_ontology_score := Some onto |} in
  {| e_sync_assessment := sync_result;
     e_improvements := Py.lt combined 0.7;
     e_combined_score := combined;
     e_ontology_score := onto;
     e_ontology_data := ontology_alignment !! obj_id |}.

(** [run_full_analysis]; [run_sync_assessment] gives the answer of the
    agent for an objective id.  [None] when the ontology scorer raises. *)
Definition run_full_analysis
    (knowledge_graph : Graph) (run_sync_assessment : string → SyncResult)
    : option Results :=
  ontology_alignment ← Alignment.compute_ontology_alignment knowledge_graph;
  let '(objs, total_score) :=
    foldl (λ '(objs, total_score) '(obj_id, obj_name),
             let entry :=
               assess_objective ontology_alignment obj_id
                                (run_sync_assessment obj_id) in
             (<[obj_id := entry]> objs, total_score + e_combined_score entry))
          (∅, 0) Config.STRATEGIC_OBJECTIVES in
  let n_objectives := Py.len Config.STRATEGIC_OBJECTIVES in
  let overall :=
    if (0 <? n_objectives)%Z
    then Py.round (total_score / inject_Z n_objectives) 3 else 0 in
  Some {| objectives := objs;
          overall_score := overall;
          overall_level := overall_level_of overall |}.

End Orchestrator.

(** ** [src/rag/hyde.py] *)

Module Hyde.

(** The loop of [generate_multi_queries] over the lines of the answer. *)
Definition parse_variants (query content : string) : list string :=
  foldl (λ variants line,
           let line := Py.strip line in
           if negb (bool_decide (line = EmptyString))
              && (5 <? String.length line)%nat
           then
             let cleaned := Py.strip (Py.lstrip_chars "0123456789.-) " line) in
             if bool_decide (cleaned = EmptyString) then variants
             else variants ++ [cleaned]
           else variants)
        [query] (Py.split "010" (Py.strip content)).

(** [generate_multi_queries]; [llm] is the chain of the reformulation
    prompt, [None] when the call raises. *)
Definition generate_multi_queries
    (llm : string → option string) (query : string) : option (list string) :=
  content ← llm query;
  Some (Py.slice_to 4 (parse_variants query content)).

(** [generate_hyde_document]; [llm] is the chain of the HyDE prompt. *)
Definition generate_hyde_document
    (llm : string → option string) (query : string) : option string :=
  llm query.

End Hyde.

(** ** [src/rag/retriever.py] *)

Module Retriever.

Record Document := {
  page_content : string;
  doc_metadata : list (string * string)
}.

(** An entry of [all_results] and of the returned list. *)
Record Item := {
  text : string;
  metadata : list (string * string);
  score : Q;
  retrieval_count : Z
}.

(** What [retrieve_chunks] calls outside the repository. *)
Record Services := {
  multi_query_llm : string → option string;
  hyde_llm : string → option string;
  (* [similarity_search_with_relevance_scores(q, k=.., filter=..)] on the
     store of a collection; [None] when it raises *)
  similarity_search :
    string → string → Z → option (list (string * string))
    → option (list (Document * Q))
}.

(** Steps 1 and 2: the list [queries]; [None] when the reformulation call
    raises, which [retrieve_chunks] does not catch. *)
Definition queries (sv : Services) (query : string)
    (use_hyde use_multi_query : bool) : option (list string) :=
  queries ← (if use_multi_query
             then Hyde.generate_multi_queries (multi_query_llm sv) query
             else Some [query]);
  Some (if use_hyde
        then match Hyde.generate_hyde_document (hyde_llm sv) query with
             | Some hyde_doc => queries ++ [hyde_doc]
             | None => queries
             end
        else queries).

(** The searches of step 3, one per query text, each with its [k]. *)
Definition search_calls (queries : list string) : list (string * Z) :=
  (λ q, (q, Config.RETRIEVAL_TOP_K)) <$> queries.

(** [all_results[doc_id]] updated in place, or appended. *)
Fixpoint record_hit (doc_id : string) (doc : Document) (sc : Q)
    (all_results : list (string * Item)) : list (string * Item) :=
  match all_results with
  | [] => [(doc_id, {| text := page_content doc;
                       metadata := doc_metadata doc;
                       score := sc;
                       retrieval_count := 1 |})]
  | (k, it) :: rest =>
      if bool_decide (k = doc_id)
      then (k, {| text := text it;
                  metadata := metadata it;
                  score := score it + sc;
                  retrieval_count := retrieval_count it + 1 |}) :: rest
      else (k, it) :: record_hit doc_id doc sc rest
  end.

Definition doc_id_of (doc : Document) : string :=
  Py.take_str 100 (page_content doc).

(** Step 3: the dictionary [all_results] after the loop over the queries. *)
Definition fuse (sv : Services) (collection_name : string)
    (filter_dict : option (list (string * string)))
    (calls : list (string * Z)) : list (string * Item) :=
  foldl (λ all_results '(q, k),
           let filter :=
             match filter_dict with
             | Some (_ :: _) => filter_dict
             | _ => None
             end in
           match similarity_search sv collection_name q k filter with
           | Some results =>
               foldl (λ all_results '(doc, sc),
                        record_hit (doc_id_of doc) doc sc all_results)
                     all_results results
           | None => all_results
           end)
        [] calls.

(** [sorted(items, key=lambda x: x["score"], reverse=True)]: stable, the
    items of equal score keep their order. *)
Fixpoint insert_desc (x : Item) (l : list Item) : list Item :=
  match l with
  | [] => [x]
  | y :: l' =>
      if Py.lt (score x) (score y) then y :: insert_desc x l'
      else x :: l
  end.

Definition sorted_desc (l : list Item) : list Item :=
  foldr insert_desc [] l.

(** Step 5: the boost of an item retrieved by several queries. *)
Definition boost (item : Item) : Item :=
  {| text := text item;
     metadata := metadata item;
     score := score item * (1 + 0.1 * (inject_Z (retrieval_count item) - 1));
     retrieval_count := retrieval_count item |}.

Definition rank (all_results : list (string * Item)) : list Item :=
  let ranked := sorted_desc (snd <$> all_results) in
  let ranked := boost <$> ranked in
  sorted_desc ranked.

Definition retrieve_chunks (sv : Services) (query : string)
    (collection_name : option string) (top_k : option Z)
    (filter_dict : option (list (string * string)))
    (use_hyde use_multi_query : bool) : option (list Item) :=
  let top_k := Py.get top_k Config.RERANK_TOP_K in
  let collection_name := Py.get collection_name "combined" in
  queries ← queries sv query use_hyde use_multi_query;
  let all_results :=
    fuse sv collection_name filter_dict (search_calls queries) in
  Some (Py.slice_to top_k (rank all_results)).

Definition retrieve_for_objective (sv : Services)
    (objective_id objective_description : string)
    (collection_name : option string) : option (list Item) :=
  let collection_name := Py.get collection_name "action_plan" in
  let query := "Actions and KPIs supporting " +:+ objective_description in
  retrieve_chunks sv query (Some collection_name) None
                  (Some [("doc_type", "action_plan")]%string) true true.

End Retriever.

(** ** [src/chunking/]: the metadata of a chunk *)

Module Chunking.

(** A value of the metadata of a chunk. *)
Inductive meta : Type :=
| MStr (s : string)
| MInt (z : Z).

#[global] Instance meta_eq_dec : EqDecision meta.
Proof. solve_decision. Defined.

(** [str(v)]. *)
Definition meta_str (v : meta) : string :=
  match v with
  | MStr s => s
  | MInt z => pretty z
  end.

(** A chunk: the dictionary with the keys ["text"] and ["metadata"]. *)
Record Chunk := {
  chunk_text : string;
  chunk_metadata : list (string * meta)
}.

(** [\d] on the characters of the model. *)
Definition is_digit (c : ascii) : bool :=
  let n := nat_of_ascii c in ((48 <=? n) && (n <=? 57))%nat.

(** [re.search(lit + r"(\d)", text)] for a literal [lit]: group 1 of the
    leftmost match. *)
Fixpoint search_digit_after (lit l : list ascii) {struct l} : option ascii :=
  match l with
  | [] => None
  | c :: l' =>
      match (if Py.prefixb lit l then head (drop (length lit) l) else None) with
      | Some d => if is_digit d then Some d else search_digit_after lit l'
      | None => search_digit_after lit l'
      end
  end.

(** The same search when the match may not leave the current line: what
    follows [.*?], which does not cross a line break. *)
Fixpoint search_digit_on_line (lit l : list ascii) {struct l} : option ascii :=
  match l with
  | [] => None
  | c :: l' =>
      match (if Py.prefixb lit l then head (drop (length lit) l) else None) with
      | Some d =>
          if is_digit d then Some d
          else if bool_decide (c = "010"%char) then None
          else search_digit_on_line lit l'
      | None =>
          if bool_decide (c = "010"%char) then None
          else search_digit_on_line lit l'
      end
  end.

(** [re.search(first + ".*?" + lit + r"(\d)", text)]. *)
Fixpoint search_digit_between (first lit l : list ascii) {struct l}
    : option ascii :=
  match l with
  | [] => None
  | c :: l' =>
      match (if Py.prefixb first l
             then search_digit_on_line lit (drop (length first) l)
             else None) with
      | Some d => Some d
      | None => search_digit_between first lit l'
      end
  end.

(** [re.search(r"[DRISOE](\d)", text)]. *)
Fixpoint search_digit_after_any (set l : list ascii) {struct l}
    : option ascii :=
  match l with
  | [] => None
  | c :: l' =>
      match (if bool_decide (c ∈ set) then head l' else None) with
      | Some d => if is_digit d then Some d else search_digit_after_any set l'
      | None => search_digit_after_any set l'
      end
  end.

(** The patterns of [_extract_objective_id], each with its search. *)
Inductive pattern : Type :=
| After (lit : string)             (* lit(\d) *)
| Between (first lit : string)     (* first.*?lit(\d) *)
| AfterAny (set : string).         (* [set](\d) *)

Definition re_search (p : pattern) (text : string) : option ascii :=
  match p with
  | After lit => search_digit_after (Py.chars lit) (Py.chars text)
  | Between first lit =>
      search_digit_between (Py.chars first) (Py.chars lit) (Py.chars text)
  | AfterAny set => search_digit_after_any (Py.chars set) (Py.chars text)
  end.

Definition SO (digit : ascii) : string := "SO" +:+ String digit EmptyString.

(** [_extract_objective_id] of the fixed and of the semantic chunker. *)
Definition _extract_objective_id (text : string) : string :=
  let patterns :=
    [ After "STRATEGIC OBJECTIVE ";
      After "Strategic Objective ";
      After "SO";
      Between "Action Plan:" "Objective " ] in
  Py.get (head (omap (λ p, re_search p text) patterns) ≫= (λ d, Some (SO d)))
         "GENERAL".

(** [_extract_objective_id] of the agentic chunker: a digit outside 1 to 6
    sends the search on to the next pattern. *)
Definition _extract_objective_id_agentic (text : string) : string :=
  let patterns :=
    [ After "SO"; After "STRATEGIC OBJECTIVE "; After "Strategic Objective ";
      After "Objective "; AfterAny "DRISOE" ] in
  Py.get (head (omap (λ p,
                        match re_search p text with
                        | Some digit =>
                            if Py.contains "123456" (String digit EmptyString)
                            then Some (SO digit) else None
                        | None => None
                        end) patterns))
         "GENERAL".

(** [_extract_section_type], the same in both chunkers. *)
Definition _extract_section_type (text : string) : string :=
  let text_lower := Py.lower text in
  if Py.contains text_lower "key performance indicator"
     || Py.contains text_lower "| kpi" then "kpi_table"
  else if Py.contains text_lower "timeline"
          || Py.contains text_lower "milestone" then "timeline"
  else if Py.contains text_lower "action id"
          || Py.contains text_lower "| action" then "action_table"
  else if Py.contains text_lower "risk" && Py.contains text "|"
       then "risk_table"
  else if Py.contains text_lower "budget" then "budget"
  else if Py.contains text_lower "alignment" then "alignment"
  else if Py.contains text_lower "executive summary"
          || Py.contains text_lower "vision" then "executive_summary"
  else if Py.contains text_lower "governance" then "governance"
  else if Py.contains text_lower "description" then "description"
  else "general".

(** The loop shared by [fixed_chunk] and [semantic_chunk] over the pieces
    that the splitter of the library returns. *)
Definition label_chunks (chunk_strategy : string) (pieces : list string)
    (doc_type source_file : string) : list Chunk :=
  imap (λ i chunk_text,
          {| chunk_text := chunk_text;
             chunk_metadata :=
               [ ("source", MStr source_file);
                 ("doc_type", MStr doc_type);
                 ("objective_id", MStr (_extract_objective_id chunk_text));
                 ("section_type", MStr (_extract_section_type chunk_text));
                 ("chunk_strategy", MStr chunk_strategy);
                 ("chunk_index", MInt (Z.of_nat i)) ]%string |})
       pieces.

(** [fixed_chunk]; [split_text] is the splitter of the library. *)
Definition fixed_chunk (split_text : string → list string)
    (text doc_type source_file : string) : list Chunk :=
  label_chunks "fixed_recursive" (split_text text) doc_type source_file.

(** [semantic_chunk]; [create_documents] gives the page contents of the
    documents that the chunker of the library returns. *)
Definition semantic_chunk (create_documents : string → list string)
    (text doc_type source_file : string) : list Chunk :=
  label_chunks "semantic" (create_documents text) doc_type source_file.

End Chunking.

(** ** [src/ingestion/document_loader.py] *)

Module DocumentLoader.

(** One turn of the loop of [preprocess_text]; the state is [cleaned] and
    [prev_blank]. *)
Definition preprocess_line (st : list string * bool) (line : string)
    : list string * bool :=
  let '(cleaned, prev_blank) := st in
  let stripped := Py.rstrip line in
  let is_blank := bool_decide (String.length stripped = 0%nat) in
  if is_blank && prev_blank then (cleaned, prev_blank)
  else (cleaned ++ [stripped], is_blank).

Definition preprocess_text (text : string) : string :=
  let lines := Py.split "010" text in
  let cleaned := (foldl preprocess_line ([], false) lines).1 in
  Py.join (String "010" EmptyString) cleaned.

End DocumentLoader.

(** ** [src/evaluation/ground_truth.py] *)

Module GroundTruth.

Record Expected := { level : string; min_score : Q }.

Definition EXPECTED_ALIGNMENT : list (string * Expected) :=
  [ ("SO1", {| level := "Full"; min_score := 0.85 |});
    ("SO2", {| level := "Full"; min_score := 0.80 |});
    ("SO3", {| level := "Full"; min_score := 0.80 |});
    ("SO4", {| level := "Partial"; min_score := 0.60 |});
    ("SO5", {| level := "Partial"; min_score := 0.50 |});
    ("SO6", {| level := "Full"; min_score := 0.80 |}) ]%string.

Record Gap := { kpi : string; type : string; description : string }.

Definition EXPECTED_GAPS : list Gap :=
  [ {| kpi := "SO4_I4"; type := "Missing";
       description := "Employer satisfaction - no supporting actions" |};
    {| kpi := "SO5_O3"; type := "Missing";
       description := "International student recruitment revenue - no actions" |};
    {| kpi := "SO5_O4"; type := "Missing";
       description := "Executive education income - no actions" |};
    {| kpi := "SO5_O5"; type := "Weak";
       description := "Staff satisfaction - only one supporting action" |};
    {| kpi := "SO2_R1"; type := "Partial";
       description := "Research income - limited action coverage" |} ]%string.

(** The ground truth of a KPI: the actions that should support it. *)
Record GroundTruthEntry := { gt_actions : list string; gt_coverage : string }.

Definition GROUND_TRUTH : list (string * GroundTruthEntry) :=
  [
    ("SO1_D1", {| gt_actions := ["A1.3"; "A1.8"; "A1.10"; "A1.12"]; gt_coverage := "Full" |});
    ("SO1_D2", {| gt_actions := ["A1.3"; "A1.5"; "A1.6"; "A1.8"]; gt_coverage := "Full" |});
    ("SO1_D3", {| gt_actions := ["A1.1"; "A1.2"; "A1.4"; "A1.7"]; gt_coverage := "Full" |});
    ("SO1_D4", {| gt_actions := ["A1.4"; "A1.9"; "A1.11"]; gt_coverage := "Full" |});
    ("SO1_D5", {| gt_actions := ["A1.5"; "A1.6"; "A1.10"]; gt_coverage := "Full" |});
    ("SO1_D6", {| gt_actions := ["A1.1"; "A1.2"; "A1.7"; "A1.9"; "A1.11"; "A1.12"]; gt_coverage := "Full" |});
    ("SO2_R1", {| gt_actions := ["A2.1"; "A2.3"]; gt_coverage := "Partial" |});
    ("SO2_R2", {| gt_actions := ["A2.2"; "A2.4"; "A2.6"]; gt_coverage := "Full" |});
    ("SO2_R3", {| gt_actions := ["A2.5"; "A2.7"; "A2.8"]; gt_coverage := "Full" |});
    ("SO2_R4", {| gt_actions := ["A2.9"; "A2.10"]; gt_coverage := "Full" |});
    ("SO2_R5", {| gt_actions := ["A2.4"; "A2.6"; "A2.11"]; gt_coverage := "Full" |});
    ("SO2_R6", {| gt_actions := ["A2.2"; "A2.12"]; gt_coverage := "Full" |});
    ("SO3_S1", {| gt_actions := ["A3.1"; "A3.2"; "A3.5"]; gt_coverage := "Full" |});
    ("SO3_S2", {| gt_actions := ["A3.3"; "A3.6"]; gt_coverage := "Full" |});
    ("SO3_S3", {| gt_actions := ["A3.4"; "A3.7"; "A3.8"]; gt_coverage := "Full" |});
    ("SO3_S4", {| gt_actions := ["A3.9"; "A3.10"]; gt_coverage := "Full" |});
    ("SO3_S5", {| gt_actions := ["A3.7"; "A3.11"]; gt_coverage := "Partial" |});
    ("SO3_S6", {| gt_actions := ["A3.8"; "A3.10"; "A3.12"]; gt_coverage := "Full" |});
    ("SO4_I1", {| gt_actions := ["A4.1"; "A4.4"; "A4.6"]; gt_coverage := "Full" |});
    ("SO4_I2", {| gt_actions := ["A4.2"; "A4.5"]; gt_coverage := "Full" |});
    ("SO4_I3", {| gt_actions := ["A4.3"; "A4.7"; "A4.8"]; gt_coverage := "Full" |});
    ("SO4_I4", {| gt_actions := []; gt_coverage := "Missing" |});
    ("SO4_I5", {| gt_actions := ["A4.9"; "A4.10"]; gt_coverage := "Full" |});
    ("SO4_I6", {| gt_actions := ["A4.11"; "A4.12"]; gt_coverage := "Full" |});
    ("SO5_O1", {| gt_actions := ["A5.1"; "A5.2"; "A5.5"]; gt_coverage := "Full" |});
    ("SO5_O2", {| gt_actions := ["A5.3"; "A5.6"; "A5.7"]; gt_coverage := "Full" |});
    ("SO5_O3", {| gt_actions := []; gt_coverage := "Missing" |});
    ("SO5_O4", {| gt_actions := []; gt_coverage := "Missing" |});
    ("SO5_O5", {| gt_actions := ["A5.8"]; gt_coverage := "Weak" |});
    ("SO5_O6", {| gt_actions := ["A5.9"; "A5.10"; "A5.11"; "A5.12"]; gt_coverage := "Full" |});
    ("SO6_E1", {| gt_actions := ["A6.1"; "A6.2"; "A6.4"]; gt_coverage := "Full" |});
    ("SO6_E2", {| gt_actions := ["A6.3"; "A6.5"; "A6.6"]; gt_coverage := "Full" |});
    ("SO6_E3", {| gt_actions := ["A6.7"; "A6.8"]; gt_coverage := "Full" |});
    ("SO6_E4", {| gt_actions := ["A6.9"; "A6.10"]; gt_coverage := "Full" |});
    ("SO6_E5", {| gt_actions := ["A6.5"; "A6.11"]; gt_coverage := "Full" |});
    ("SO6_E6", {| gt_actions := ["A6.12"]; gt_coverage := "Partial" |}) ]%string.

Record ExpectedAction := { ea_id : string; ea_title : string }.

Record KpiDetail := {
  kd_kpi_id : string;
  kd_coverage : string;
  kd_expected_actions : list ExpectedAction
}.

(** The dictionary returned by [get_objective_kpi_coverage]. *)
Record Coverage := {
  cov_objective_id : string;
  cov_total_kpis : Z;
  cov_full : Z;
  cov_partial : Z;
  cov_weak : Z;
  cov_missing : Z;
  cov_coverage_pct : Q;
  cov_kpi_details : list KpiDetail
}.

(** [sum(1 for v in kpis.values() if v["coverage"] == label)]. *)
Definition count_coverage (label : string)
    (kpis : list (string * GroundTruthEntry)) : Z :=
  Py.len (filter (λ kv, gt_coverage kv.2 = label) kpis).

(** [get_objective_kpi_coverage] over a table of ground truth;
    [action_map] is [None] when the argument is left out. *)
Definition get_objective_kpi_coverage_on
    (ground_truth : list (string * GroundTruthEntry))
    (objective_id : string) (action_map : option (gmap string string))
    : Coverage :=
  let prefix := objective_id +:+ "_" in
  let kpis := filter (λ kv, Py.startswith kv.1 prefix = true) ground_truth in
  let total := Py.len kpis in
  let full := count_coverage "Full" kpis in
  let partial := count_coverage "Partial" kpis in
  let weak := count_coverage "Weak" kpis in
  let missing := count_coverage "Missing" kpis in
  let kpi_details :=
    match action_map with
    | Some action_map =>
        if bool_decide (action_map = ∅) then []
        else
          (λ '(kpi_id, data),
             {| kd_kpi_id := kpi_id;
                kd_coverage := gt_coverage data;
                kd_expected_actions :=
                  (λ action_id,
                     {| ea_id := action_id;
                        ea_title := Py.get (action_map !! action_id)
                                           "Description not found" |})
                  <$> gt_actions data |}) <$> kpis
    | None => []
    end in
  {| cov_objective_id := objective_id;
     cov_total_kpis := total;
     cov_full := full;
     cov_partial := partial;
     cov_weak := weak;
     cov_missing := missing;
     cov_coverage_pct :=
       if (0 <? total)%Z
       then (inject_Z full + 0.5 * inject_Z partial + 0.25 * inject_Z weak)
            / inject_Z total
       else 0;
     cov_kpi_details := kpi_details |}.

Definition get_objective_kpi_coverage
    (objective_id : string) (action_map : option (gmap string string))
    : Coverage :=
  get_objective_kpi_coverage_on GROUND_TRUTH objective_id action_map.

End GroundTruth.

(** ** [src/evaluation/metrics.py] *)

Module Metrics.
Import Orchestrator GroundTruth.

(** An entry of [metrics["per_objective"]]. *)
Record PerObjective := {
  system_score : Q;
  expected_min_score : Q;
  system_level : string;
  expected_level : string;
  level_match : bool;
  score_error : Q
}.

(** [metrics["overall"]]. *)
Record Overall := {
  level_accuracy : Q;
  mean_absolute_error : Q;
  correct_levels : Z;
  total_objectives : Z
}.

Record AccuracyMetrics := {
  per_objective : list (string * PerObjective);
  overall : Overall
}.

(** The values read from [system_results] for an objective id. *)
Definition system_score_of
    (system_results : gmap string ObjectiveEntry) (obj_id : string) : Q :=
  Py.get (e_combined_score <$> system_results !! obj_id) 0.5.

Definition system_level_of
    (system_results : gmap string ObjectiveEntry) (obj_id : string) : string :=
  Py.get (system_results !! obj_id ≫=
            (λ e, s_alignment_level (e_sync_assessment e)))
         "Partial".

(** [evaluate_alignment_accuracy] over a table of expected alignments; the
    state of the loop is [(per_objective, correct_levels, total_mae)]. *)
Definition evaluate_alignment_accuracy_on
    (expected_alignment : list (string * Expected))
    (system_results : gmap string ObjectiveEntry) : AccuracyMetrics :=
  let '(per, correct, total_mae) :=
    foldl (λ '(per, correct, total_mae) '(obj_id, expected),
             let system_score := system_score_of system_results obj_id in
             let system_level := system_level_of system_results obj_id in
             let expected_level := level expected in
             let expected_min_score := min_score expected in
             let level_match := bool_decide (system_level = expected_level) in
             let correct := if level_match then (correct + 1)%Z else correct in
             let gt_score := expected_min_score in
             let mae := Qabs (system_score - gt_score) in
             (per ++ [(obj_id,
                       {| system_score := Py.round system_score 3;
                          expected_min_score := expected_min_score;
                          system_level := system_level;
                          expected_level := expected_level;
                          level_match := level_match;
                          score_error := Py.round mae 3 |})],
              correct, total_mae + mae))
          ([], 0%Z, 0) expected_alignment in
  let n := Py.len expected_alignment in
  {| per_objective := per;
     overall :=
       {| level_accuracy :=
            if (0 <? n)%Z then Py.round (inject_Z correct / inject_Z n) 3 else 0;
          mean_absolute_error :=
            if (0 <? n)%Z then Py.round (total_mae / inject_Z n) 3 else 0;
          correct_levels := correct;
          total_objectives := n |} |}.

Definition evaluate_alignment_accuracy
    (system_results : gmap string ObjectiveEntry) : AccuracyMetrics :=
  evaluate_alignment_accuracy_on EXPECTED_ALIGNMENT system_results.

(** One turn of the loop of [evaluate_gap_detection]: whether the gap on
    [kpi_id] counts as detected.  [None] is the [IndexError] of
    [kpi_id.split("_")[1]] on an id without underscore. *)
Definition gap_detected
    (system_results : gmap string ObjectiveEntry) (kpi_id : string)
    : option bool :=
  let obj_id := Py.split_head "_" kpi_id in
  let uncovered :=
    Py.get (system_results !! obj_id ≫=
              (λ e, s_uncovered_kpis (e_sync_assessment e))) [] in
  kpi_suffix ← Py.index (Py.split "_" kpi_id) 1;
  Some (match uncovered with
        | [] => false
        | _ :: _ => existsb (λ u, Py.contains u kpi_suffix) uncovered
        end).

Record GapReport := {
  total_expected_gaps : Z;
  detected : Z;
  missed : Z;
  detection_rate : Q;
  detected_gaps : list Gap;
  missed_gaps : list Gap
}.

(** [evaluate_gap_detection] over a list of expected gaps. *)
Definition evaluate_gap_detection_on (expected_gaps : list Gap)
    (system_results : gmap string ObjectiveEntry) : option GapReport :=
  '(detected_gaps, missed_gaps) ←
    foldl (λ st gap,
             '(detected_gaps, missed_gaps) ← st;
             d ← gap_detected system_results (kpi gap);
             Some (if d : bool then (detected_gaps ++ [gap], missed_gaps)
                   else (detected_gaps, missed_gaps ++ [gap])))
          (Some ([], [])) expected_gaps;
  let total := Py.len expected_gaps in
  Some {| total_expected_gaps := total;
          detected := Py.len detected_gaps;
          missed := Py.len missed_gaps;
          detection_rate :=
            if (0 <? total)%Z
            then Py.round (inject_Z (Py.len detected_gaps) / inject_Z total) 3
            else 0;
          detected_gaps := detected_gaps;
          missed_gaps := missed_gaps |}.

Definition evaluate_gap_detection
    (system_results : gmap string ObjectiveEntry) : option GapReport :=
  evaluate_gap_detection_on EXPECTED_GAPS system_results.

(** The dictionary returned by [compute_retrieval_metrics]. *)
Record RetrievalMetrics := {
  precision_at_k : Q;
  recall_at_k : Q;
  f1_at_k : Q
}.

Definition compute_retrieval_metrics
    (retrieved_actions relevant_actions : list string) (k : Z)
    : RetrievalMetrics :=
  let retrieved_set : gset string :=
    list_to_set (Py.slice_to k retrieved_actions) in
  let relevant_set : gset string := list_to_set relevant_actions in
  if bool_decide (relevant_set = ∅)
  then {| precision_at_k := 0; recall_at_k := 0; f1_at_k := 0 |}
  else
    let true_positives := Z.of_nat (size (retrieved_set ∩ relevant_set)) in
    let precision :=
      if bool_decide (retrieved_set = ∅) then 0
      else inject_Z true_positives / inject_Z (Z.of_nat (size retrieved_set)) in
    let recall :=
      if bool_decide (relevant_set = ∅) then 0
      else inject_Z true_positives / inject_Z (Z.of_nat (size relevant_set)) in
    let f1 :=
      if Py.gt (precision + recall) 0
      then 2 * precision * recall / (precision + recall) else 0 in
    {| precision_at_k := Py.round precision 4;
       recall_at_k := Py.round recall 4;
       f1_at_k := Py.round f1 4 |}.

(** The inner loop of [compute_mrr]: the reciprocal of the rank of the
    first relevant item, counted from [i + 1]; 0 when there is none. *)
Fixpoint reciprocal_rank (relevant_set : gset string) (i : nat)
    (retrieved : list string) : Q :=
  match retrieved with
  | [] => 0
  | item :: rest =>
      if bool_decide (item ∈ relevant_set)
      then 1 / inject_Z (Z.of_nat i + 1)
      else reciprocal_rank relevant_set (S i) rest
  end.

Definition compute_mrr
    (ranked_results relevant_items : list (list string)) : Q :=
  let reciprocal_ranks :=
    zip_with (λ retrieved relevant,
                reciprocal_rank (list_to_set relevant) 0 retrieved)
             ranked_results relevant_items in
  match reciprocal_ranks with
  | [] => 0
  | _ :: _ => Py.round (Py.mean reciprocal_ranks) 4
  end.

(** [strategies[strategy].append(n)], the key created when it is new. *)
Fixpoint add_length (strategy : Chunking.meta) (n : Z)
    (strategies : list (Chunking.meta * list Z))
    : list (Chunking.meta * list Z) :=
  match strategies with
  | [] => [(strategy, [n])]
  | (k, lens) :: rest =>
      if bool_decide (k = strategy) then (k, lens ++ [n]) :: rest
      else (k, lens) :: add_length strategy n rest
  end.

Record StrategyQuality := { sq_count : Z; sq_avg_length : Q }.

(** The dictionary returned by [compute_chunking_quality]. *)
Record ChunkingQuality := {
  total_chunks : Z;
  avg_length : Q;
  min_length : Z;
  max_length : Z;
  std_length : Q;
  per_strategy : list (Chunking.meta * StrategyQuality)
}.

Definition chunk_length (c : Chunking.Chunk) : Z :=
  Z.of_nat (String.length (Chunking.chunk_text c)).

Definition chunk_strategy_of (c : Chunking.Chunk) : Chunking.meta :=
  Py.get (Config.lookup "chunk_strategy" (Chunking.chunk_metadata c))
         (Chunking.MStr "unknown").

(** [compute_chunking_quality]; [np_std] is [numpy.std], whose value is
    not a rational in general. *)
Definition compute_chunking_quality (np_std : list Z → Q)
    (chunks : list Chunking.Chunk) : ChunkingQuality :=
  let lengths := chunk_length <$> chunks in
  let strategies :=
    foldl (λ strategies c,
             add_length (chunk_strategy_of c) (chunk_length c) strategies)
          [] chunks in
  {| total_chunks := Py.len chunks;
     avg_length :=
       match lengths with
       | [] => 0
       | _ :: _ => Py.round (Py.mean (inject_Z <$> lengths)) 1
       end;
     min_length :=
       match lengths with [] => 0%Z | x :: l => Py.min_of x l end;
     max_length :=
       match lengths with [] => 0%Z | x :: l => Py.max_of x l end;
     std_length :=
       match lengths with
       | [] => 0
       | _ :: _ => Py.round (np_std lengths) 1
       end;
     per_strategy :=
       (λ '(strategy, lens),
          (strategy,
           {| sq_count := Py.len lens;
              sq_avg_length := Py.round (Py.mean (inject_Z <$> lens)) 1 |}))
       <$> strategies |}.

End Metrics.

(** ** [src/ingestion/pipeline_cache.py] *)

Module PipelineCache.

(** A value read by [json.load]. *)
#[warnings="-register-all"]
Inductive json : Type :=
| JNull
| JBool (b : bool)
| JNumber (q : Q)
| JString (s : string)
| JArray (items : list json)
| JObject (fields : list (string * json)).

(** The cache file as [load_pipeline_cache] finds it. *)
Inductive cache_file : Type :=
| Absent                 (* [CACHE_FILE.exists()] is false *)
| Unreadable             (* [open] raises [IOError] *)
| Malformed              (* [json.load] raises [JSONDecodeError] *)
| Parsed (data : json).  (* [json.load] returns [data] *)

Inductive exn : Type := TypeError.

Inductive outcome (A : Type) : Type :=
| Returns (a : A)
| Raises (e : exn).
Arguments Returns {A} a.
Arguments Raises {A} e.

Fixpoint has_key (key : string) (fields : list (string * json)) : bool :=
  match fields with
  | [] => false
  | (k, _) :: rest => bool_decide (k = key) || has_key key rest
  end.

(** [key in data]: membership among the keys of an object and among the
    items of an array, occurrence in a string, [TypeError] otherwise. *)
Definition py_in (key : string) (data : json) : outcome bool :=
  match data with
  | JObject fields => Returns (has_key key fields)
  | JArray items =>
      Returns (existsb (λ x, match x with
                             | JString s => bool_decide (s = key)
                             | _ => false
                             end) items)
  | JString s => Returns (Py.contains s key)
  | JNull | JBool _ | JNumber _ => Raises TypeError
  end.

(** [load_pipeline_cache]: [Returns None] is the answer [None]. *)
Definition load_pipeline_cache (file : cache_file) : outcome (option json) :=
  match file with
  | Absent => Returns None
  | Unreadable => Returns None
  | Malformed => Returns None
  | Parsed data =>
      match py_in "analysis_results" data with
      | Raises e => Raises e
      | Returns true =>
          match py_in "chunks" data with
          | Raises e => Raises e
          | Returns true => Returns (Some data)
          | Returns false => Returns None
          end
      | Returns false => Returns None
      end
  end.

End PipelineCache.

(** ** [src/agents/sync_agent.py] *)

Module SyncAgent.
Import Orchestrator.

(** The dictionary built by [_parse_agent_output]. *)
Record Assessment := {
  a_alignment_score : Q;
  a_alignment_level : string;
  a_covered_kpis : list string;
  a_uncovered_kpis : list string;
  a_justification : string;
  a_confidence : Q
}.

(** [[k.strip() for k in field.split(",") if k.strip()]]. *)
Definition kpi_list (field : string) : list string :=
  Py.strip <$> filter (λ k, Py.strip k ≠ EmptyString) (Py.split "," field).

Section Parse.

(** [float(text)]; [None] is its [ValueError]. *)
Variable float : string → option Q.

(** One turn of the loop of [_parse_agent_output].  [None] is an
    [IndexError] outside the two guarded branches. *)
Definition parse_line (result : Assessment) (line : string)
    : option Assessment :=
  let line := Py.strip line in
  if Py.startswith line "ALIGNMENT_SCORE:" then
    match Py.index (Py.split ":" line) 1 ≫= (λ field, float (Py.strip field)) with
    | Some x =>
        Some {| a_alignment_score := x;
                a_alignment_level := a_alignment_level result;
                a_covered_kpis := a_covered_kpis result;
                a_uncovered_kpis := a_uncovered_kpis result;
                a_justification := a_justification result;
                a_confidence := a_confidence result |}
    | None => Some result
    end
  else if Py.startswith line "ALIGNMENT_LEVEL:" then
    field ← Py.index (Py.split ":" line) 1;
    Some {| a_alignment_score := a_alignment_score result;
            a_alignment_level := Py.strip field;
            a_covered_kpis := a_covered_kpis result;
            a_uncovered_kpis := a_uncovered_kpis result;
            a_justification := a_justification result;
            a_confidence := a_confidence result |}
  else if Py.startswith line "COVERED_KPIS:" then
    field ← Py.index (Py.split ":" line) 1;
    Some {| a_alignment_score := a_alignment_score result;
            a_alignment_level := a_alignment_level result;
            a_covered_kpis := kpi_list field;
            a_uncovered_kpis := a_uncovered_kpis result;
            a_justification := a_justification result;
            a_confidence := a_confidence result |}
  else if Py.startswith line "UNCOVERED_KPIS:" then
    field ← Py.index (Py.split ":" line) 1;
    Some {| a_alignment_score := a_alignment_score result;
            a_alignment_level := a_alignment_level result;
            a_covered_kpis := a_covered_kpis result;
            a_uncovered_kpis := kpi_list field;
            a_justification := a_justification result;
            a_confidence := a_confidence result |}
  else if Py.startswith line "JUSTIFICATION:" then
    field ← Py.index (Py.split_once ":" line) 1;
    Some {| a_alignment_score := a_alignment_score result;
            a_alignment_level := a_alignment_level result;
            a_covered_kpis := a_covered_kpis result;
            a_uncovered_kpis := a_uncovered_kpis result;
            a_justification := Py.strip field;
            a_confidence := a_confidence result |}
  else if Py.startswith line "CONFIDENCE:" then
    match Py.index (Py.split ":" line) 1 ≫= (λ field, float (Py.strip field)) with
    | Some x =>
        Some {| a_alignment_score := a_alignment_score result;
                a_alignment_level := a_alignment_level result;
                a_covered_kpis := a_covered_kpis result;
                a_uncovered_kpis := a_uncovered_kpis result;
                a_justification := a_justification result;
                a_confidence := x |}
    | None => Some result
    end
  else Some result.

Definition default_assessment : Assessment :=
  {| a_alignment_score := 0.5;
     a_alignment_level := "Partial";
     a_covered_kpis := [];
     a_uncovered_kpis := [];
     a_justification := EmptyString;
     a_confidence := 0.5 |}.

Definition _parse_agent_output (output : string) : option Assessment :=
  foldl (λ result line, result ← result; parse_line result line)
        (Some default_assessment)
        (Py.split "010" (Py.strip output)).

(** The answer of [run_sync_assessment] when the agent raises. *)
Definition error_answer : SyncResult :=
  {| s_alignment_score := Some 0.5;
     s_alignment_level := Some "Partial"%string;
     s_covered_kpis := None;
     s_uncovered_kpis := None;
     s_combined_score := None;
     s_ontology_score := None |}.

(** [run_sync_assessment], with the keys that [run_full_analysis] reads.
    [invoke] gives the contents of the messages that the agent returns for
    an objective, [None] when it raises; the final answer is the last
    content that is not empty. *)
Definition run_sync_assessment (invoke : string → option (list string))
    (objective_id : string) : SyncResult :=
  match invoke objective_id with
  | Some messages =>
      let output :=
        Py.get (head (filter (λ content, content ≠ EmptyString)
                             (reverse messages)))
               EmptyString in
      match _parse_agent_output output with
      | Some parsed =>
          {| s_alignment_score := Some (a_alignment_score parsed);
             s_alignment_level := Some (a_alignment_level parsed);
             s_covered_kpis := Some (a_covered_kpis parsed);
             s_uncovered_kpis := Some (a_uncovered_kpis parsed);
             s_combined_score := None;
             s_ontology_score := None |}
      | None => error_answer
      end
  | None => error_answer
  end.

End Parse.

End SyncAgent.

(** ** [src/ingestion/vector_store.py] *)

Module VectorStore.
Import Chunking.

(** The id given to the chunk at index [i] of [enumerate(chunks)]. *)
Definition chunk_id (collection_name : string) (i : nat) (chunk : Chunk)
    : string :=
  collection_name +:+ "_"
  +:+ meta_str (Py.get (Config.lookup "chunk_strategy" (chunk_metadata chunk))
                       (MStr "unknown"))
  +:+ "_" +:+ pretty i.

(** The three lists prepared for the collection. *)
Definition ids (chunks : list Chunk) (collection_name : string)
    : list string :=
  imap (chunk_id collection_name) chunks.

Definition documents (chunks : list Chunk) : list string :=
  chunk_text <$> chunks.

Definition metadatas (chunks : list Chunk) : list (list (string * string)) :=
  (λ chunk, (λ '(k, v), (k, meta_str v)) <$> chunk_metadata chunk) <$> chunks.

Definition batch_size : nat := 100.


(** The slices [l[start:end]] of the loop over
    [range(0, len(ids), batch_size)]. *)
Definition batches {A} (n : nat) (l : list A) : list (list A) :=
  (λ start, Py.slice start (start + batch_size) l)
  <$> Py.range 0 n batch_size.

(** A call [collection.add(ids=.., documents=.., metadatas=..)]. *)
Record AddCall := {
  add_ids : list string;
  add_documents : list string;
  add_metadatas : list (list (string * string))
}.

(** The calls of the loop, one per batch. *)
Definition add_calls (chunks : list Chunk) (collection_name : string)
    : list AddCall :=
  let ids := ids chunks collection_name in
  (λ start,
     {| add_ids := Py.slice start (start + batch_size) ids;
        add_documents :=
          Py.slice start (start + batch_size) (documents chunks);
        add_metadatas :=
          Py.slice start (start + batch_size) (metadatas chunks) |})
  <$> Py.range 0 (length ids) batch_size.

(** [ingest_chunks]; [collection_add] is the method of the collection,
    [None] when it raises, which ends the loop and is raised again. *)
Definition ingest_chunks (collection_add : string → AddCall → option unit)
    (chunks : list Chunk) (collection_name : string) : option Z :=
  _ ← mapM (collection_add collection_name) (add_calls chunks collection_name);
  Some (Py.len (ids chunks collection_name)).

Record Counts := {
  count_strategic_plan : Z;
  count_action_plan : Z;
  count_combined : Z
}.

Definition ingest_all_chunks (collection_add : string → AddCall → option unit)
    (strategic_chunks action_chunks : list Chunk) : option Counts :=
  strategic ← ingest_chunks collection_add strategic_chunks "strategic_plan";
  action ← ingest_chunks collection_add action_chunks "action_plan";
  let all_chunks := strategic_chunks ++ action_chunks in
  combined ← ingest_chunks collection_add all_chunks "combined";
  Some {| count_strategic_plan := strategic;
          count_action_plan := action;
          count_combined := combined |}.

End VectorStore.

(** ** [src/evaluation/evaluator.py] *)

Module Evaluator.
Import Orchestrator GroundTruth Metrics.

(** A row of [eval_results["ground_truth_comparison"]]. *)
Record Comparison := {
  cmp_objective : string;
  cmp_ground_truth : Coverage;
  cmp_system_score : Q;
  cmp_system_level : string;
  cmp_covered_kpis : list string
}.

Record EvalResults := {
  alignment_accuracy : AccuracyMetrics;
  gap_detection : GapReport;
  ground_truth_comparison : list (string * Comparison);
  chunking_quality : list (string * ChunkingQuality)
}.

(** The loop that fills [action_map]; [None] is the [KeyError] of
    [action["title"]] on an action without title. *)
Definition build_action_map (details : list Alignment.ActionDetail)
    : option (gmap string string) :=
  foldl (λ action_map action,
           action_map ← action_map;
           let normalized_id :=
             Py.replace_char "_" "." (Alignment.det_id action) in
           title ← Alignment.det_title action;
           Some (<[normalized_id := title]> action_map))
        (Some ∅) details.

(** One turn of the loop over the configured objectives. *)
Definition compare_objective
    (objectives_data : gmap string ObjectiveEntry)
    (obj_id objective : string) : option Comparison :=
  let sys_data := objectives_data !! obj_id in
  action_map ←
    match sys_data ≫= e_ontology_data with
    | Some ontology_data =>
        build_action_map (Alignment.r_action_details ontology_data)
    | None => Some ∅
    end;
  let gt_coverage := get_objective_kpi_coverage obj_id (Some action_map) in
  Some {| cmp_objective := objective;
          cmp_ground_truth := gt_coverage;
          cmp_system_score := Py.get (e_combined_score <$> sys_data) 0;
          cmp_system_level :=
            Py.get (sys_data ≫= (λ e, s_alignment_level (e_sync_assessment e)))
                   "Unknown";
          cmp_covered_kpis :=
            Py.get (sys_data ≫= (λ e, s_covered_kpis (e_sync_assessment e)))
                   [] |}.

(** [run_evaluation]; [chunks] is [None] when the argument is left out. *)
Definition run_evaluation (np_std : list Z → Q)
    (system_results : Results)
    (chunks : option (list (string * list Chunking.Chunk)))
    : option EvalResults :=
  let objectives_data := objectives system_results in
  let accuracy := evaluate_alignment_accuracy objectives_data in
  gaps ← evaluate_gap_detection objectives_data;
  comparison ←
    mapM (λ '(obj_id, objective),
            row ← compare_objective objectives_data obj_id objective;
            Some (obj_id, row))
         Config.STRATEGIC_OBJECTIVES;
  Some {| alignment_accuracy := accuracy;
          gap_detection := gaps;
          ground_truth_comparison := comparison;
          chunking_quality :=
            match chunks with
            | Some chunks =>
                (λ '(doc_type, chunk_list),
                   (doc_type, compute_chunking_quality np_std chunk_list))
                <$> chunks
            | None => []
            end |}.

End Evaluator.

(** ** The statements of the specification, in its own words *)

Module Spec.
Import Schema.

(** [clamp(x, lo, hi)]. *)
Definition clamp (x lo hi : Q) : Q := Qmax lo (Qmin hi x).

(** The order Missing < Weak < Partial < Full on the level labels. *)
Definition level_rank (l : string) : nat :=
  if bool_decide (l = "Full"%string) then 3
  else if bool_decide (l = "Partial"%string) then 2
  else if bool_decide (l = "Weak"%string) then 1
  else 0.

(** A step function with inclusive lower boundaries. *)
Definition classify (full partial weak : Q) (s : Q) : string :=
  if Qle_bool full s then "Full"
  else if Qle_bool partial s then "Partial"
  else if Qle_bool weak s then "Weak"
  else "Missing".

(** The agent score as the specification gives it, without rounding. *)
Definition agent_score (covered uncovered : Z) (raw_score : Q) : Q :=
  if (0 <? covered + uncovered)%Z
  then clamp (0.8 * (inject_Z covered / inject_Z (covered + uncovered))
              + 0.2 * raw_score) 0 1
  else raw_score.

(** [A]: the actions linked to the objective by [supportsObjective]. *)
Definition A (g : Graph) (obj_id : string) : gset node :=
  set_map subject
    (filter (λ t, predicate t = ISPS "supportsObjective"
                  ∧ object t = ISPS obj_id) g).

(** The KPIs under the objective; [K] is their number. *)
Definition kpis (g : Graph) (obj_id : string) : gset node :=
  set_map object
    (filter (λ t, subject t = ISPS obj_id ∧ predicate t = ISPS "hasKPI") g).

Definition K (g : Graph) (obj_id : string) : Z :=
  Z.of_nat (size (kpis g obj_id)).

(** [Kc]: the KPIs supported by some action of [A], named by their text. *)
Definition Kc (g : Graph) (obj_id : string) : gset string :=
  set_map (λ t, node_str (object t))
    (filter (λ t, subject t ∈ A g obj_id
                  ∧ predicate t = ISPS "supportsKPI") g).

(** The integer progress values of the actions of [A], each with its
    action. *)
Definition progress (g : Graph) (obj_id : string) : gset (node * Z) :=
  set_omap (λ t, (λ z, (subject t, z)) <$> node_int (object t))
    (filter (λ t, subject t ∈ A g obj_id
                  ∧ predicate t = ISPS "hasProgress") g).

Definition action_density (g : Graph) (obj_id : string) : Q :=
  if bool_decide (K g obj_id = 0%Z) then 0
  else Qmin (inject_Z (Z.of_nat (size (A g obj_id))) / inject_Z (K g obj_id)) 1.

Definition kpi_coverage (g : Graph) (obj_id : string) : Q :=
  if bool_decide (K g obj_id = 0%Z) then 0
  else inject_Z (Z.of_nat (size (Kc g obj_id))) / inject_Z (K g obj_id).

Definition avg_progress (g : Graph) (obj_id : string) : Q :=
  let values := snd <$> elements (progress g obj_id) in
  if bool_decide (values = []) then 0
  else inject_Z (foldr Z.add 0%Z values) / inject_Z (Z.of_nat (length values)).

Definition ontology_score (g : Graph) (obj_id : string) : Q :=
  0.4 * action_density g obj_id + 0.4 * kpi_coverage g obj_id
  + 0.2 * (avg_progress g obj_id / 100).

(** Every progress value of an action of [A] is an integer. *)
Definition integer_progress (g : Graph) (obj_id : string) : Prop :=
  ∀ a p, a ∈ A g obj_id → (a, ISPS "hasProgress", p) ∈ g →
         is_Some (node_int p).

(** Every progress value of an action of [A] is a percentage. *)
Definition progress_in_range (g : Graph) (obj_id : string) : Prop :=
  ∀ a z, (a, z) ∈ progress g obj_id → (0 <= z <= 100)%Z.

(** The actions of [A] support no KPI outside the objective. *)
Definition supported_kpis_owned (g : Graph) (obj_id : string) : Prop :=
  Kc g obj_id ⊆ set_map node_str (kpis g obj_id).

(** A judgment that lists a KPI, or whose raw score is in the unit
    interval. *)
Definition judgment_in_range (covered uncovered : Z) (raw_score : Q) : Prop :=
  (0 < covered + uncovered)%Z ∨ 0 <= raw_score <= 1.

(** The filter that reaches the vector store: an empty dictionary counts
    as no filter. *)
Definition effective_filter (filter_dict : option (list (string * string)))
    : option (list (string * string)) :=
  match filter_dict with
  | Some (_ :: _) => filter_dict
  | _ => None
  end.

(** The per-variant result sets, one after the other; a search that fails
    contributes nothing. *)
Definition hits (sv : Retriever.Services) (collection_name : string)
    (filter_dict : option (list (string * string)))
    (calls : list (string * Z)) : list (Retriever.Document * Q) :=
  calls ≫= (λ '(q, k),
              Py.get (Retriever.similarity_search sv collection_name q k
                        (effective_filter filter_dict)) []).

(** The relevance of a chunk key summed over the result sets, and the
    number of times it was retrieved. *)
Definition relevance_sum (key : string)
    (hs : list (Retriever.Document * Q)) : Q :=
  foldr Qplus 0
        (snd <$> filter (λ h, Retriever.doc_id_of h.1 = key) hs).

Definition hit_count (key : string)
    (hs : list (Retriever.Document * Q)) : Z :=
  Z.of_nat (length (filter (λ h, Retriever.doc_id_of h.1 = key) hs)).

(** A list of items is ranked when the scores never increase. *)
Definition ranked (l : list Retriever.Item) : Prop :=
  Sorted (λ x y, Retriever.score y <= Retriever.score x) l.

(** One string occurs inside another. *)
Definition substring (p s : string) : Prop :=
  ∃ pre post : list ascii, Py.chars s = pre ++ Py.chars p ++ post.

(** The uncovered-KPI list reported for an objective, empty when there is
    none. *)
Definition uncovered_of
    (system_results : gmap string Orchestrator.ObjectiveEntry)
    (obj_id : string) : list string :=
  Py.get (system_results !! obj_id ≫=
            (λ e, Orchestrator.s_uncovered_kpis
                    (Orchestrator.e_sync_assessment e))) [].

(** The suffix of a KPI id occurs in some string of the uncovered list of
    the objective named by the part of the id before the underscore. *)
Definition suffix_reported
    (system_results : gmap string Orchestrator.ObjectiveEntry)
    (kpi_id suffix : string) : Prop :=
  ∃ u, u ∈ uncovered_of system_results (Py.split_head "_" kpi_id)
       ∧ substring suffix u.

End Spec.

(** ** Shapes used in the statements about the remaining code *)

Module Shape.

(** The lines kept by the loop of [preprocess_text] when it starts with
    the flag [prev_blank]. *)
Fixpoint kept_lines (prev_blank : bool) (lines : list string) : list string :=
  match lines with
  | [] => []
  | line :: rest =>
      let stripped := Py.rstrip line in
      let is_blank := bool_decide (stripped = EmptyString) in
      if is_blank && prev_blank then kept_lines prev_blank rest
      else stripped :: kept_lines is_blank rest
  end.

(** No two consecutive items of the list are empty. *)
Fixpoint no_blank_run (prev_blank : bool) (lines : list string) : Prop :=
  match lines with
  | [] => True
  | line :: rest =>
      ¬ (line = EmptyString ∧ prev_blank = true)
      ∧ no_blank_run (bool_decide (line = EmptyString)) rest
  end.

(** A KPI id as the parser of the agent's answer keeps it. *)
Definition clean_id (k : string) : Prop :=
  k ≠ EmptyString ∧ Py.strip k = k
  ∧ (","%char ∉ Py.chars k) ∧ (":"%char ∉ Py.chars k)
  ∧ ("010"%char ∉ Py.chars k).

Definition clean_lists (result : SyncAgent.Assessment) : Prop :=
  ∀ k, k ∈ SyncAgent.a_covered_kpis result
       ∨ k ∈ SyncAgent.a_uncovered_kpis result → clean_id k.

(** The number of lengths filed under the strategies. *)
Definition entries (strategies : list (Chunking.meta * list Z)) : Z :=
  foldr Z.add 0%Z ((λ kv, Py.len kv.2) <$> strategies).

(** The number of occurrences of a character. *)
Definition seps (sep : ascii) (l : list ascii) : nat :=
  length (filter (λ c, c = sep) l).

(** The title read from the graph for a node, empty when it has none. *)
Definition title_of (g : Schema.Graph) (n : Schema.node) : string :=
  Py.get (last (Schema.node_str
                  <$> Schema.objects g n (Schema.ISPS "hasTitle")))
         EmptyString.

End Shape.

(** ** Concrete inputs *)

Module Examples.
Import Schema Orchestrator.

Definition judgment (raw_score : Q) (covered uncovered : list string)
    : SyncResult :=
  {| s_alignment_score := Some raw_score;
     s_alignment_level := Some "Partial"%string;
     s_covered_kpis := Some covered;
     s_uncovered_kpis := Some uncovered;
     s_combined_score := None;
     s_ontology_score := None |}.

(** Three KPIs covered, one not, raw score 0.9. *)
Definition judged_3_of_4 : SyncResult :=
  judgment 0.9 ["D1"; "D2"; "D3"]%string ["D4"]%string.

(** One KPI covered, two not, raw score 0.5. *)
Definition judged_1_of_3 : SyncResult :=
  judgment 0.5 ["D1"]%string ["D2"; "D3"]%string.

(** No KPI list at all and a raw score above 1. *)
Definition judged_raw_high : SyncResult := judgment 1.5 [] [].

(** The error answer of [run_sync_assessment]. *)
Definition judged_error : SyncResult :=
  {| s_alignment_score := Some 0.5;
     s_alignment_level := Some "Partial"%string;
     s_covered_kpis := None;
     s_uncovered_kpis := None;
     s_combined_score := None;
     s_ontology_score := None |}.

Definition ontology_record (score : Q) : Alignment.OntologyRecord :=
  {| Alignment.r_objective := "Digital Learning Transformation";
     Alignment.r_alignment_score := score;
     Alignment.r_alignment_level := Alignment.level score;
     Alignment.r_total_actions := 0;
     Alignment.r_total_kpis := 0;
     Alignment.r_kpis_covered := 0;
     Alignment.r_kpi_coverage := 0;
     Alignment.r_avg_progress := 0;
     Alignment.r_action_details := [] |}.

(** An ontology alignment whose score for SO1 is 0.5. *)
Definition ontology_half : gmap string Alignment.OntologyRecord :=
  {[ "SO1"%string := ontology_record 0.5 ]}.

(** One objective with two KPIs and one action supporting both, at
    progress 60. *)
Definition graph_two_kpis : Graph :=
  add (ISPS "SO1", ISPS "hasKPI", ISPS "SO1_D1")
 (add (ISPS "SO1", ISPS "hasKPI", ISPS "SO1_D2")
 (add (ISPS "A1_1", ISPS "supportsObjective", ISPS "SO1")
 (add (ISPS "A1_1", ISPS "supportsKPI", ISPS "SO1_D1")
 (add (ISPS "A1_1", ISPS "supportsKPI", ISPS "SO1_D2")
 (add (ISPS "A1_1", ISPS "hasProgress", IntLiteral 60) ∅))))).

(** One objective with three KPIs and one action supporting one of them,
    at progress 0. *)
Definition graph_three_kpis : Graph :=
  add (ISPS "SO1", ISPS "hasKPI", ISPS "SO1_D1")
 (add (ISPS "SO1", ISPS "hasKPI", ISPS "SO1_D2")
 (add (ISPS "SO1", ISPS "hasKPI", ISPS "SO1_D3")
 (add (ISPS "SO1_ADD_1", ISPS "supportsObjective", ISPS "SO1")
 (add (ISPS "SO1_ADD_1", ISPS "supportsKPI", ISPS "SO1_D1")
 (add (ISPS "SO1_ADD_1", ISPS "hasProgress", IntLiteral 0) ∅))))).

(** One objective with one KPI and one action supporting it, at progress
    250. *)
Definition graph_progress_250 : Graph :=
  add (ISPS "SO1", ISPS "hasKPI", ISPS "SO1_D1")
 (add (ISPS "A1_1", ISPS "supportsObjective", ISPS "SO1")
 (add (ISPS "A1_1", ISPS "supportsKPI", ISPS "SO1_D1")
 (add (ISPS "A1_1", ISPS "hasProgress", IntLiteral 250) ∅))).

(** The results of a run in which the judgment of SO1 reports the given
    uncovered KPIs. *)
Definition results_uncovered (uncovered : list string)
    : gmap string ObjectiveEntry :=
  {[ "SO1"%string :=
       assess_objective ∅ "SO1" (judgment 0.5 ["D2"]%string uncovered) ]}.





(** Retrieval: the reformulation call gives three variants and the HyDE
    call fails, so four texts are searched.  Chunk X is found by two of
    them with relevance 0.5 and 0.7, chunk Y by one with relevance 1.2. *)
Definition newline : string := String "010" EmptyString.

Definition three_variants : string :=
  "1. specific variant" +:+ newline +:+ "2. broader variant" +:+ newline
  +:+ "3. metrics variant".

Definition chunk (s : string) : Retriever.Document :=
  {| Retriever.page_content := s; Retriever.doc_metadata := [] |}.

Definition search_two_of_four (collection_name q : string) (k : Z)
    (filter : option (list (string * string)))
    : option (list (Retriever.Document * Q)) :=
  if bool_decide (q = "query"%string) then Some [(chunk "chunk Y", 1.2)]
  else if bool_decide (q = "specific variant"%string)
       then Some [(chunk "chunk X", 0.5)]
  else if bool_decide (q = "broader variant"%string)
       then Some [(chunk "chunk X", 0.7)]
  else Some [].

Definition services_hyde_fails : Retriever.Services :=
  {| Retriever.multi_query_llm := λ _, Some three_variants;
     Retriever.hyde_llm := λ _, None;
     Retriever.similarity_search := search_two_of_four |}.

(** The same, with a HyDE call that answers. *)
Definition services_hyde_answers : Retriever.Services :=
  {| Retriever.multi_query_llm := λ _, Some three_variants;
     Retriever.hyde_llm := λ _, Some "hypothetical excerpt"%string;
     Retriever.similarity_search := search_two_of_four |}.

(** The reformulation call fails. *)
Definition services_reformulation_fails : Retriever.Services :=
  {| Retriever.multi_query_llm := λ _, None;
     Retriever.hyde_llm := λ _, Some "hypothetical excerpt"%string;
     Retriever.similarity_search := search_two_of_four |}.

End Examples.

(** * Properties *)

Module PyFacts.
Import Py.

Lemma round_half_even_floor (x : Q) :
  (Qfloor x <= round_half_even x <= Qfloor x + 1)%Z.
Proof.
  unfold round_half_even; cbv zeta.
  destruct (Qcompare _ _); [destruct (Z.even _)|..]; lia.
Qed.

Ltac floor_facts x :=
  pose proof (Qfloor_le x); pose proof (Qlt_floor x);
  rewrite ?inject_Z_plus in *; change (inject_Z 1) with 1 in *.

Lemma round_half_even_near (x : Q) :
  Qabs (inject_Z (round_half_even x) - x) <= 1 # 2.
Proof.
  unfold round_half_even; cbv zeta.
  destruct (Qcompare_spec (x - inject_Z (Qfloor x)) (1 # 2)) as [He|Hl|Hg];
    try destruct (Z.even _); floor_facts x;
    apply Qabs_Qle_condition; split; lra.
Qed.

Lemma round_half_even_Z (z : Z) : round_half_even (inject_Z z) = z.
Proof.
  unfold round_half_even; cbv zeta. rewrite Qfloor_Z.
  destruct (Qcompare_spec (inject_Z z - inject_Z z) (1 # 2)) as [He|Hl|Hg];
    [lra | reflexivity | lra].
Qed.

Lemma round_half_even_mono (x y : Q) :
  x <= y → (round_half_even x <= round_half_even y)%Z.
Proof.
  intros Hxy.
  pose proof (Qfloor_resp_le _ _ Hxy) as Hf.
  destruct (Z.eq_dec (Qfloor x) (Qfloor y)) as [Heq|Hne].
  - unfold round_half_even; cbv zeta. rewrite Heq.
    destruct (Qcompare_spec (x - inject_Z (Qfloor y)) (1 # 2)) as [He|Hl|Hg];
    destruct (Qcompare_spec (y - inject_Z (Qfloor y)) (1 # 2)) as [He'|Hl'|Hg'];
      try destruct (Z.even _); try lia; lra.
  - pose proof (round_half_even_floor x). pose proof (round_half_even_floor y).
    lia.
Qed.

Lemma pow10_pos (n : nat) : 0 < inject_Z (10 ^ Z.of_nat n).
Proof.
  change 0 with (inject_Z 0). rewrite <- Zlt_Qlt.
  apply Z.pow_pos_nonneg; lia.
Qed.

(** [round] moves a number by at most half a unit of the last digit. *)
Lemma round_near (x : Q) (n : nat) :
  Qabs (round x n - x) <= (1 # 2) / inject_Z (10 ^ Z.of_nat n).
Proof.
  unfold round. pose proof (pow10_pos n) as Hp.
  set (p := inject_Z (10 ^ Z.of_nat n)) in *.
  pose proof (round_half_even_near (x * p)) as Hr.
  set (r := inject_Z (round_half_even (x * p))) in *.
  apply Qabs_Qle_condition in Hr as [Hr1 Hr2].
  assert (Hne : ~ p == 0) by lra.
  assert (E : r / p - x == (r - x * p) / p) by (field; lra).
  rewrite E. unfold Qdiv.
  assert (Hi : 0 <= / p) by (apply Qinv_le_0_compat; lra).
  apply Qabs_Qle_condition; split.
  - assert (E' : - ((1 # 2) * / p) == (- (1 # 2)) * / p) by ring.
    rewrite E'. apply Qmult_le_compat_r; [lra | exact Hi].
  - apply Qmult_le_compat_r; [lra | exact Hi].
Qed.

(** Rounding keeps a number of the unit interval in the unit interval. *)
Lemma round_unit (x : Q) (n : nat) : 0 <= x <= 1 → 0 <= round x n <= 1.
Proof.
  intros [H0 H1]. unfold round. pose proof (pow10_pos n) as Hp.
  set (z := (10 ^ Z.of_nat n)%Z) in *.
  assert (Hlo : (0 <= round_half_even (x * inject_Z z))%Z).
  { rewrite <- (round_half_even_Z 0). apply round_half_even_mono.
    change (inject_Z 0) with 0. apply Qmult_le_0_compat; lra. }
  assert (Hhi : (round_half_even (x * inject_Z z) <= z)%Z).
  { rewrite <- (round_half_even_Z z) at 2. apply round_half_even_mono.
    rewrite <- (Qmult_1_l (inject_Z z)) at 2.
    apply Qmult_le_compat_r; lra. }
  rewrite Zle_Qle in Hlo, Hhi. change (inject_Z 0) with 0 in Hlo.
  set (r := inject_Z (round_half_even (x * inject_Z z))) in *.
  split.
  - apply Qle_shift_div_l; lra.
  - apply Qle_shift_div_r; lra.
Qed.
End PyFacts.

Module CompareFacts.

Lemma ge_true (x y : Q) : Py.ge x y = true ↔ y <= x.
Proof. unfold Py.ge. apply Qle_bool_iff. Qed.

Lemma ge_false (x y : Q) : Py.ge x y = false ↔ x < y.
Proof.
  unfold Py.ge. rewrite <- not_true_iff_false, Qle_bool_iff.
  split; [apply Qnot_le_lt | apply Qlt_not_le].
Qed.

Lemma lt_true (x y : Q) : Py.lt x y = true ↔ x < y.
Proof. unfold Py.lt. rewrite negb_true_iff. apply ge_false. Qed.

Lemma lt_false (x y : Q) : Py.lt x y = false ↔ y <= x.
Proof. unfold Py.lt. rewrite negb_false_iff. apply ge_true. Qed.

Lemma qle_bool_false (x y : Q) : Qle_bool x y = false ↔ y < x.
Proof. apply (ge_false y x). Qed.

(** Case analysis on every comparison of the goal. *)
Ltac case_compare :=
  repeat match goal with
  | |- context [Py.ge ?x ?y] =>
      let E := fresh "E" in
      destruct (Py.ge x y) eqn:E;
      [apply ge_true in E | apply ge_false in E]
  | |- context [Qle_bool ?x ?y] =>
      let E := fresh "E" in
      destruct (Qle_bool x y) eqn:E;
      [apply Qle_bool_iff in E | apply qle_bool_false in E]
  end.

(** [round] does not see which fraction denotes its argument. *)
Lemma round_half_even_proper (x y : Q) :
  x == y → Py.round_half_even x = Py.round_half_even y.
Proof.
  intros H. unfold Py.round_half_even; cbv zeta.
  rewrite (Qfloor_comp _ _ H).
  assert (E : x - inject_Z (Qfloor y) == y - inject_Z (Qfloor y))
    by (rewrite H; reflexivity).
  rewrite (Qcompare_comp _ _ E (1 # 2) (1 # 2) (Qeq_refl _)). reflexivity.
Qed.

Lemma round_proper (x y : Q) (n : nat) : x == y → Py.round x n = Py.round y n.
Proof.
  intros H. unfold Py.round. f_equal. f_equal.
  apply round_half_even_proper. rewrite H. reflexivity.
Qed.

(** The two ways of writing a clamp to the unit interval agree. *)
Lemma clamp_unit (x : Q) : Qmin 1 (Qmax 0 x) == Spec.clamp x 0 1.
Proof.
  unfold Spec.clamp.
  destruct (Q.max_spec 0 x) as [[? E1]|[? E1]];
  destruct (Q.min_spec 1 x) as [[? E2]|[? E2]];
  destruct (Q.min_spec 1 (Qmax 0 x)) as [[? E3]|[? E3]];
  destruct (Q.max_spec 0 (Qmin 1 x)) as [[? E4]|[? E4]];
  rewrite ?E3, ?E4, ?E1, ?E2 in *; lra.
Qed.

Lemma clamp_proper (x y : Q) : x == y → Spec.clamp x 0 1 == Spec.clamp y 0 1.
Proof.
  intros H. unfold Spec.clamp.
  destruct (Q.min_spec 1 x) as [[? E1]|[? E1]];
  destruct (Q.min_spec 1 y) as [[? E2]|[? E2]];
  destruct (Q.max_spec 0 (Qmin 1 x)) as [[? E3]|[? E3]];
  destruct (Q.max_spec 0 (Qmin 1 y)) as [[? E4]|[? E4]];
  rewrite ?E3, ?E4, ?E1, ?E2 in *; lra.
Qed.

Lemma clamp_bounds (x : Q) : 0 <= Spec.clamp x 0 1 <= 1.
Proof.
  unfold Spec.clamp.
  destruct (Q.min_spec 1 x) as [[? E2]|[? E2]];
  destruct (Q.max_spec 0 (Qmin 1 x)) as [[? E4]|[? E4]];
  rewrite ?E4, ?E2 in *; lra.
Qed.

End CompareFacts.

Module OrchestratorFacts.
Import Orchestrator CompareFacts.

Lemma level_rank_values :
  Spec.level_rank "Full" = 3%nat ∧ Spec.level_rank "Partial" = 2%nat
  ∧ Spec.level_rank "Weak" = 1%nat ∧ Spec.level_rank "Missing" = 0%nat.
Proof. split_and!; reflexivity. Qed.



Lemma published_agent_score
    (oa : gmap string Alignment.OntologyRecord) (obj_id : string)
    (sr : SyncResult) :
  Py.get (s_alignment_score
            (e_sync_assessment (assess_objective oa obj_id sr))) 0.5
  = agent_score sr.
Proof.
  unfold assess_objective, agent_score; cbn.
  destruct (0 <? total_kpis sr)%Z; reflexivity.
Qed.

Lemma agent_score_recalculated (sr : SyncResult) :
  (0 < total_kpis sr)%Z →
  agent_score sr
  = Py.round
      (Spec.agent_score (Py.len (Py.get (s_covered_kpis sr) []))
                        (Py.len (Py.get (s_uncovered_kpis sr) []))
                        (Py.get (s_alignment_score sr) 0.5)) 3.
Proof.
  intros Hpos. unfold agent_score, Spec.agent_score.
  fold (total_kpis sr).
  apply Z.ltb_lt in Hpos. rewrite Hpos.
  apply round_proper, clamp_unit.
Qed.

(** C1, as the code has it. When the judgment lists at least one KPI, the
    published agent score is the clamped blend
    [0.8 * ratio + 0.2 * raw_score] rounded to three decimals, hence within
    0.0005 of the unrounded blend; otherwise it is the raw score unchanged.
    The combined score of the objective is
    [0.8 * agent_score + 0.2 * ontology_score].  3 covered and 1 uncovered
    KPI with raw score 0.9 give 0.78, and 0.78 with ontology score 0.5 gives
    0.724. *)
Theorem agent_score_blend
    (oa : gmap string Alignment.OntologyRecord) (obj_id : string)
    (sr : SyncResult) :
  let covered := Py.len (Py.get (s_covered_kpis sr) []) in
  let uncovered := Py.len (Py.get (s_uncovered_kpis sr) []) in
  let raw_score := Py.get (s_alignment_score sr) 0.5 in
  let entry := assess_objective oa obj_id sr in
  Py.get (s_alignment_score (e_sync_assessment entry)) 0.5 = agent_score sr
  ∧ ((0 < covered + uncovered)%Z →
       agent_score sr
       = Py.round (Spec.agent_score covered uncovered raw_score) 3
       ∧ Qabs (agent_score sr - Spec.agent_score covered uncovered raw_score)
         <= 1 # 2000)
  ∧ (¬ (0 < covered + uncovered)%Z → agent_score sr = raw_score)
  ∧ e_combined_score entry
    = 0.8 * agent_score sr + 0.2 * ontology_score oa obj_id
  ∧ (covered = 3%Z → uncovered = 1%Z → raw_score == 0.9 →
       agent_score sr == 0.78)
  ∧ (agent_score sr == 0.78 → ontology_score oa obj_id == 0.5 →
       e_combined_score entry == 0.724).
Proof.
  cbv zeta. split_and!.
  - apply published_agent_score.
  - intros Hpos. split.
    + apply agent_score_recalculated. exact Hpos.
    + rewrite (agent_score_recalculated sr Hpos).
      apply (PyFacts.round_near _ 3).
  - intros Hnot. unfold agent_score. fold (total_kpis sr) in Hnot |- *.
    unfold total_kpis in *.
    destruct (Z.ltb_spec 0 (Py.len (Py.get (s_covered_kpis sr) [])
                            + Py.len (Py.get (s_uncovered_kpis sr) [])));
      [contradiction | reflexivity].
  - reflexivity.
  - intros Hc Hu Hraw.
    assert (Hpos : (0 < total_kpis sr)%Z) by (unfold total_kpis; lia).
    rewrite (agent_score_recalculated sr Hpos), Hc, Hu.
    assert (E : Spec.agent_score 3 1 (Py.get (s_alignment_score sr) 0.5)
                == Spec.agent_score 3 1 0.9).
    { unfold Spec.agent_score; cbn [Z.ltb Z.add Z.compare Pos.add Pos.succ
        Pos.compare Pos.compare_cont].
      apply clamp_proper. rewrite Hraw. reflexivity. }
    rewrite (round_proper _ _ 3 E). reflexivity.
  - intros Ha Ho. unfold assess_objective; cbn. unfold combined_score.
    rewrite Ha, Ho. reflexivity.
Qed.

Lemma agent_score_blend_witness :
  Orchestrator.agent_score Examples.judged_3_of_4 == 0.78
  ∧ e_combined_score
      (assess_objective Examples.ontology_half "SO1" Examples.judged_3_of_4)
    == 0.724.
Proof.
  pose proof (agent_score_blend Examples.ontology_half "SO1"
                Examples.judged_3_of_4) as H.
  cbv zeta in H. destruct H as (_ & _ & _ & _ & H1 & H2).
  assert (Ha : Orchestrator.agent_score Examples.judged_3_of_4 == 0.78).
  { apply H1; reflexivity. }
  split; [exact Ha |].
  apply H2; [exact Ha | reflexivity].
Defined.

(** C1 as stated fails: with one KPI covered out of three and raw score
    0.5 the blend is 11/30, and the published score is 0.367. *)
Lemma agent_score_unrounded_counterexample :
  (0 < Py.len ["D1"]%string + Py.len ["D2"; "D3"]%string)%Z
  ∧ ¬ (Py.get (s_alignment_score
                 (e_sync_assessment
                    (assess_objective Examples.ontology_half "SO1"
                                      Examples.judged_1_of_3))) 0.5
       == Spec.agent_score 1 2 0.5).
Proof.
  split; [reflexivity |].
  vm_compute. intros H. discriminate H.
Qed.

End OrchestratorFacts.

Module GraphFacts.
Import Schema.

Lemma elem_of_subjects (g : Graph) (p o s : node) :
  s ∈ subjects g p o ↔ (s, p, o) ∈ g.
Proof.
  unfold subjects. rewrite list_elem_of_fmap. split.
  - intros ([[s' p'] o'] & -> & Hin).
    apply elem_of_elements, elem_of_filter in Hin as [[Hp Ho] Hin].
    cbn in *. subst. exact Hin.
  - intros Hin. exists (s, p, o). split; [reflexivity |].
    apply elem_of_elements, elem_of_filter. split; [split; reflexivity | exact Hin].
Qed.

Lemma elem_of_objects (g : Graph) (s p o : node) :
  o ∈ objects g s p ↔ (s, p, o) ∈ g.
Proof.
  unfold objects. rewrite list_elem_of_fmap. split.
  - intros ([[s' p'] o'] & -> & Hin).
    apply elem_of_elements, elem_of_filter in Hin as [[Hs Hp] Hin].
    cbn in *. subst. exact Hin.
  - intros Hin. exists (s, p, o). split; [reflexivity |].
    apply elem_of_elements, elem_of_filter. split; [split; reflexivity | exact Hin].
Qed.

Lemma NoDup_subjects (g : Graph) (p o : node) : NoDup (subjects g p o).
Proof.
  unfold subjects. apply NoDup_fmap_2_strong; [| apply NoDup_elements].
  intros [[s1 p1] o1] [[s2 p2] o2] H1 H2 Heq.
  apply elem_of_elements, elem_of_filter in H1 as [[? ?] _].
  apply elem_of_elements, elem_of_filter in H2 as [[? ?] _].
  cbn in *. congruence.
Qed.

Lemma NoDup_objects (g : Graph) (s p : node) : NoDup (objects g s p).
Proof.
  unfold objects. apply NoDup_fmap_2_strong; [| apply NoDup_elements].
  intros [[s1 p1] o1] [[s2 p2] o2] H1 H2 Heq.
  apply elem_of_elements, elem_of_filter in H1 as [[? ?] _].
  apply elem_of_elements, elem_of_filter in H2 as [[? ?] _].
  cbn in *. congruence.
Qed.

(** The number of subjects, and of objects, is the size of the set they
    range over. *)
Lemma length_subjects (g : Graph) (p o : node) :
  length (subjects g p o)
  = size (set_map (D := gset node) subject
            (filter (λ t, predicate t = p ∧ object t = o) g)).
Proof.
  unfold set_map. rewrite size_list_to_set; [reflexivity |].
  apply NoDup_subjects.
Qed.

Lemma length_objects (g : Graph) (s p : node) :
  length (objects g s p)
  = size (set_map (D := gset node) object
            (filter (λ t, subject t = s ∧ predicate t = p) g)).
Proof.
  unfold set_map. rewrite size_list_to_set; [reflexivity |].
  apply NoDup_objects.
Qed.

(** Membership in a set built by a loop of [add]. *)
Lemma elem_of_foldl_insert {B} (h : B → string) (l : list B)
    (X : gset string) (s : string) :
  s ∈ foldl (λ acc k, {[ h k ]} ∪ acc) X l ↔ s ∈ X ∨ ∃ k, k ∈ l ∧ s = h k.
Proof.
  revert X. induction l as [|k l IH]; intros X; cbn.
  - split; [auto | intros [H | (k & Hk & _)]; [exact H | inversion Hk]].
  - rewrite IH. set_solver.
Qed.

Lemma elem_of_foldl_foldl_insert {B C} (h : C → string) (F : B → list C)
    (l : list B) (X : gset string) (s : string) :
  s ∈ foldl (λ acc a, foldl (λ acc k, {[ h k ]} ∪ acc) acc (F a)) X l
  ↔ s ∈ X ∨ ∃ a k, a ∈ l ∧ k ∈ F a ∧ s = h k.
Proof.
  revert X. induction l as [|a l IH]; intros X; cbn.
  - split; [auto | intros [H | (a & k & Ha & _)]; [exact H | inversion Ha]].
  - rewrite IH, elem_of_foldl_insert. set_solver.
Qed.

Lemma foldl_Zadd (l : list Z) (a : Z) :
  foldl Z.add a l = (a + foldr Z.add 0 l)%Z.
Proof.
  revert a. induction l as [|x l IH]; intros a; cbn; [lia |].
  rewrite IH. lia.
Qed.

Lemma foldr_Zadd_perm (l k : list Z) :
  l ≡ₚ k → foldr Z.add 0%Z l = foldr Z.add 0%Z k.
Proof. induction 1; cbn; lia. Qed.

End GraphFacts.

Module AlignmentFacts.
Import Schema Alignment GraphFacts CompareFacts.

Lemma elem_of_A (g : Graph) (obj_id : string) (a : node) :
  a ∈ Spec.A g obj_id ↔ (a, ISPS "supportsObjective", ISPS obj_id) ∈ g.
Proof.
  unfold Spec.A. rewrite elem_of_map. split.
  - intros ([[s p] o] & -> & Hin).
    apply elem_of_filter in Hin as [[Hp Ho] Hin]. cbn in *. subst. exact Hin.
  - intros Hin. exists (a, ISPS "supportsObjective", ISPS obj_id).
    split; [reflexivity |]. apply elem_of_filter.
    split; [split; reflexivity | exact Hin].
Qed.

Lemma supporting_actions_A (g : Graph) (obj_id : string) (a : node) :
  a ∈ supporting_actions g obj_id ↔ a ∈ Spec.A g obj_id.
Proof.
  unfold supporting_actions. rewrite elem_of_subjects, elem_of_A. reflexivity.
Qed.

Lemma action_count_A (g : Graph) (obj_id : string) :
  action_count g obj_id = Z.of_nat (size (Spec.A g obj_id)).
Proof.
  unfold action_count, supporting_actions, Py.len, Spec.A.
  rewrite length_subjects. reflexivity.
Qed.

Lemma total_kpis_K (g : Graph) (obj_id : string) :
  total_kpis g obj_id = Spec.K g obj_id.
Proof.
  unfold total_kpis, kpis, Py.len, Spec.K, Spec.kpis.
  rewrite length_objects. reflexivity.
Qed.

Lemma K_nonneg (g : Graph) (obj_id : string) : (0 <= Spec.K g obj_id)%Z.
Proof. unfold Spec.K. lia. Qed.

Lemma kpis_with_actions_Kc (g : Graph) (obj_id : string) :
  kpis_with_actions g obj_id = Spec.Kc g obj_id.
Proof.
  apply set_eq. intros s. unfold kpis_with_actions.
  rewrite elem_of_foldl_foldl_insert. unfold Spec.Kc. rewrite elem_of_map.
  split.
  - intros [H | (a & k & Ha & Hk & ->)]; [set_solver |].
    exists (a, ISPS "supportsKPI", k). split; [reflexivity |].
    apply elem_of_filter. split.
    + split; [apply supporting_actions_A; exact Ha | reflexivity].
    + apply elem_of_objects. exact Hk.
  - intros ([[a p] k] & -> & Hin).
    apply elem_of_filter in Hin as [[Ha Hp] Hin]. cbn in *. subst p.
    right. exists a, k. split; [apply supporting_actions_A; exact Ha |].
    split; [apply elem_of_objects; exact Hin | reflexivity].
Qed.

Lemma node_int_Some (n : node) (z : Z) : node_int n = Some z ↔ n = IntLiteral z.
Proof. destruct n; cbn; split; congruence. Qed.

Lemma NoDup_omap_node_int (l : list node) : NoDup l → NoDup (omap node_int l).
Proof.
  induction 1 as [|n l Hn Hl IH]; cbn; [constructor |].
  destruct (node_int n) as [z|] eqn:E; [| exact IH].
  constructor; [| exact IH].
  rewrite list_elem_of_omap. intros (n' & Hn' & E').
  apply node_int_Some in E, E'. subst. contradiction.
Qed.

(** The progress values read by the scorer are those of the
    specification, in some order. *)
Lemma progress_values_perm (g : Graph) (obj_id : string) :
  progress_values g obj_id ≡ₚ snd <$> elements (Spec.progress g obj_id).
Proof.
  set (pairs := supporting_actions g obj_id ≫=
                  (λ a, (λ z, (a, z)) <$>
                          omap node_int (objects g a (ISPS "hasProgress")))).
  assert (Hval : progress_values g obj_id = snd <$> pairs).
  { unfold progress_values, pairs.
    induction (supporting_actions g obj_id) as [|a l IH]; csimpl;
      [reflexivity |].
    rewrite fmap_app, <- IH. f_equal.
    rewrite <- list_fmap_compose. symmetry. apply list_fmap_id. }
  rewrite Hval. apply fmap_Permutation.
  apply NoDup_Permutation.
  - unfold pairs. apply NoDup_bind.
    + intros a1 a2 [a z] _ _ H1 H2.
      apply list_elem_of_fmap in H1 as (? & [= -> _] & _).
      apply list_elem_of_fmap in H2 as (? & [= -> _] & _). reflexivity.
    + intros a _. apply NoDup_fmap_2; [intros ?? [= ->]; reflexivity |].
      apply NoDup_omap_node_int, NoDup_objects.
    + apply NoDup_subjects.
  - apply NoDup_elements.
  - intros [a z]. rewrite elem_of_elements. unfold pairs, Spec.progress.
    rewrite list_elem_of_bind, elem_of_set_omap. split.
    + intros (a' & Hz & Ha).
      apply list_elem_of_fmap in Hz as (z' & [= -> ->] & Hz).
      apply list_elem_of_omap in Hz as (n & Hn & E).
      apply node_int_Some in E. subst n.
      exists (a', ISPS "hasProgress", IntLiteral z'). split; [| reflexivity].
      apply elem_of_filter. split.
      * split; [apply supporting_actions_A; exact Ha | reflexivity].
      * apply elem_of_objects. exact Hn.
    + intros ([[a' p] n] & Hin & E).
      apply elem_of_filter in Hin as [[Ha Hp] Hin]. cbn in *. subst p.
      destruct (node_int n) as [z'|] eqn:En; [| discriminate].
      cbn in E. injection E as -> ->.
      apply node_int_Some in En. subst n.
      exists a. split; [| apply supporting_actions_A; exact Ha].
      apply list_elem_of_fmap. exists z. split; [reflexivity |].
      apply list_elem_of_omap. exists (IntLiteral z).
      split; [apply elem_of_objects; exact Hin | reflexivity].
Qed.

Lemma avg_progress_spec (g : Graph) (obj_id : string) :
  avg_progress g obj_id = Spec.avg_progress g obj_id.
Proof.
  unfold avg_progress, Spec.avg_progress; cbv zeta.
  pose proof (progress_values_perm g obj_id) as Hperm.
  set (values := progress_values g obj_id) in *.
  set (values' := snd <$> elements (Spec.progress g obj_id)) in *.
  clearbody values values'.
  destruct values as [|v values], values' as [|v' values'].
  - reflexivity.
  - apply Permutation_nil_l in Hperm. discriminate.
  - apply Permutation_nil_r in Hperm. discriminate.
  - rewrite bool_decide_eq_false_2 by discriminate.
    rewrite foldl_Zadd, Z.add_0_l, (foldr_Zadd_perm _ _ Hperm).
    unfold Py.len. rewrite (Permutation_length Hperm). reflexivity.
Qed.

Lemma kpi_coverage_spec (g : Graph) (obj_id : string) :
  kpi_coverage g obj_id = Spec.kpi_coverage g obj_id.
Proof.
  unfold kpi_coverage, Spec.kpi_coverage.
  rewrite total_kpis_K, kpis_with_actions_Kc.
  pose proof (K_nonneg g obj_id).
  destruct (Z.ltb_spec 0 (Spec.K g obj_id)).
  - rewrite bool_decide_eq_false_2 by lia. reflexivity.
  - rewrite bool_decide_eq_true_2 by lia. reflexivity.
Qed.

Lemma action_density_spec (g : Graph) (obj_id : string) :
  action_density g obj_id == Spec.action_density g obj_id.
Proof.
  unfold action_density, Spec.action_density.
  rewrite total_kpis_K, action_count_A.
  pose proof (K_nonneg g obj_id).
  destruct (Z.ltb_spec 0 (Spec.K g obj_id)).
  - rewrite bool_decide_eq_false_2 by lia.
    rewrite Qmult_1_r. reflexivity.
  - rewrite bool_decide_eq_true_2 by lia. reflexivity.
Qed.

Lemma alignment_score_spec (g : Graph) (obj_id : string) :
  alignment_score g obj_id == Spec.ontology_score g obj_id.
Proof.
  unfold alignment_score, Spec.ontology_score.
  rewrite action_density_spec, kpi_coverage_spec, avg_progress_spec.
  field.
Qed.

Lemma level_spec (s : Q) : level s = Spec.classify 0.75 0.50 0.25 s.
Proof. reflexivity. Qed.

Lemma classify_proper (a b c x y : Q) :
  x == y → Spec.classify a b c x = Spec.classify a b c y.
Proof.
  intros H. unfold Spec.classify. case_compare; try reflexivity; lra.
Qed.

End AlignmentFacts.

Module AlignmentClaims.
Import Schema Alignment GraphFacts CompareFacts AlignmentFacts.

Lemma score_objective_Some (g : Graph) (obj_id title : string)
    (rec : OntologyRecord) :
  score_objective g obj_id title = Some rec →
  r_alignment_score rec = Py.round (alignment_score g obj_id) 3
  ∧ r_alignment_level rec = level (alignment_score g obj_id)
  ∧ r_total_actions rec = action_count g obj_id
  ∧ r_total_kpis rec = total_kpis g obj_id
  ∧ r_kpis_covered rec = Z.of_nat (size (kpis_with_actions g obj_id))
  ∧ r_kpi_coverage rec = Py.round (kpi_coverage g obj_id) 3
  ∧ r_avg_progress rec = Py.round (avg_progress g obj_id) 1.
Proof.
  unfold score_objective. intros H.
  destruct (_get_action_details g (supporting_actions g obj_id)); cbn in H;
    [| discriminate].
  injection H as <-. cbn. split_and!; reflexivity.
Qed.

(** The scorer answers when the progress values it meets are integers. *)
Lemma score_objective_total (g : Graph) (obj_id title : string) :
  Spec.integer_progress g obj_id → is_Some (score_objective g obj_id title).
Proof.
  intros Hint. unfold score_objective.
  assert (Hd : is_Some (_get_action_details g (supporting_actions g obj_id))).
  { unfold _get_action_details. apply mapM_is_Some, Forall_forall.
    intros a Ha. cbn.
    assert (Hp : is_Some (mapM node_int (objects g a (ISPS "hasProgress")))).
    { apply mapM_is_Some, Forall_forall. intros p Hp. cbn.
      apply (Hint a p).
      - apply supporting_actions_A, Ha.
      - apply elem_of_objects, Hp. }
    destruct Hp as [ps ->]. cbn. eauto. }
  destruct Hd as [d ->]. cbn. eauto.
Qed.

(** C3, as the code has it. With [A], [K] and [Kc] as in the
    specification, the scorer computes
    [0.4 * action_density + 0.4 * kpi_coverage + 0.2 * (avg_progress / 100)]
    where [avg_progress] is the mean of the integer progress values of the
    actions of [A]; it classifies this value with the thresholds 0.75, 0.50
    and 0.25, and publishes it rounded to three decimals, with
    [kpi_coverage] rounded to three decimals and [avg_progress] to one.  Two
    KPIs and one action supporting both at progress 60 give 0.72 and the
    level Partial. *)
Theorem ontology_score_published (g : Graph) (obj_id title : string) :
  (Spec.integer_progress g obj_id →
     is_Some (score_objective g obj_id title))
  ∧ (∀ rec, score_objective g obj_id title = Some rec →
       r_alignment_score rec = Py.round (Spec.ontology_score g obj_id) 3
       ∧ Qabs (r_alignment_score rec - Spec.ontology_score g obj_id)
         <= 1 # 2000
       ∧ r_alignment_level rec
         = Spec.classify 0.75 0.50 0.25 (Spec.ontology_score g obj_id)
       ∧ r_total_actions rec = Z.of_nat (size (Spec.A g obj_id))
       ∧ r_total_kpis rec = Spec.K g obj_id
       ∧ r_kpis_covered rec = Z.of_nat (size (Spec.Kc g obj_id))
       ∧ r_kpi_coverage rec = Py.round (Spec.kpi_coverage g obj_id) 3
       ∧ r_avg_progress rec = Py.round (Spec.avg_progress g obj_id) 1)
  ∧ (∃ rec, score_objective Examples.graph_two_kpis "SO1" title = Some rec
            ∧ Spec.ontology_score Examples.graph_two_kpis "SO1" == 0.72
            ∧ r_alignment_score rec == 0.72
            ∧ r_alignment_level rec = "Partial"%string).
Proof.
  split_and!.
  - apply score_objective_total.
  - intros rec Hrec.
    apply score_objective_Some in Hrec
      as (Hs & Hl & Ha & Hk & Hc & Hcov & Havg).
    pose proof (alignment_score_spec g obj_id) as Hspec.
    assert (Hround : r_alignment_score rec
                     = Py.round (Spec.ontology_score g obj_id) 3)
      by (rewrite Hs; apply round_proper, Hspec).
    split_and!.
    + exact Hround.
    + rewrite Hround. apply (PyFacts.round_near _ 3).
    + rewrite Hl, level_spec. apply classify_proper, Hspec.
    + rewrite Ha. apply action_count_A.
    + rewrite Hk. apply total_kpis_K.
    + rewrite Hc, kpis_with_actions_Kc. reflexivity.
    + rewrite Hcov, kpi_coverage_spec. reflexivity.
    + rewrite Havg, avg_progress_spec. reflexivity.
  - assert (Ht : is_Some (score_objective Examples.graph_two_kpis "SO1" title)).
    { unfold score_objective.
      assert (E : _get_action_details Examples.graph_two_kpis
                    (supporting_actions Examples.graph_two_kpis "SO1")
                  = Some [ {| det_id := "A1_1"; det_title := None;
                              det_progress := Some 60%Z |} ])
        by (vm_compute; reflexivity).
      rewrite E. cbn. eauto. }
    destruct Ht as [rec Hrec]. exists rec. split; [exact Hrec |].
    apply score_objective_Some in Hrec as (Hs & Hl & _).
    assert (E : alignment_score Examples.graph_two_kpis "SO1" == 0.72)
      by (vm_compute; reflexivity).
    split_and!.
    + rewrite <- alignment_score_spec. exact E.
    + rewrite Hs, (round_proper _ _ 3 E). vm_compute. reflexivity.
    + rewrite Hl, level_spec, (classify_proper _ _ _ _ _ E). reflexivity.
Qed.

Lemma ontology_score_published_witness :
  Spec.integer_progress Examples.graph_three_kpis "SO1"
  ∧ is_Some (score_objective Examples.graph_three_kpis "SO1" "Digital").
Proof.
  assert (H : Spec.integer_progress Examples.graph_three_kpis "SO1").
  { intros a p _ Hin. unfold Examples.graph_three_kpis, add in Hin.
    set_unfold in Hin. unfold ISPS in Hin.
    destruct_or!; try contradiction; vm_compute in Hin; simplify_eq;
      cbn; eauto. }
  split; [exact H |].
  exact (proj1 (ontology_score_published
                  Examples.graph_three_kpis "SO1" "Digital") H).
Defined.

(** C3 as stated fails: with three KPIs and one action supporting one of
    them at progress 0 the formula gives 4/15, and the published score is
    0.267. *)
Lemma ontology_score_unrounded_counterexample :
  ∃ rec,
    score_objective Examples.graph_three_kpis "SO1" "Digital" = Some rec
    ∧ Spec.ontology_score Examples.graph_three_kpis "SO1" == 4 # 15
    ∧ ¬ (r_alignment_score rec
         == Spec.ontology_score Examples.graph_three_kpis "SO1").
Proof.
  destruct (score_objective Examples.graph_three_kpis "SO1" "Digital")
    as [rec|] eqn:E; [| vm_compute in E; discriminate E].
  exists rec. split; [reflexivity |].
  assert (Hs : Spec.ontology_score Examples.graph_three_kpis "SO1" == 4 # 15)
    by (vm_compute; reflexivity).
  split; [exact Hs |].
  apply score_objective_Some in E as (E & _).
  rewrite E, Hs.
  assert (Ha : alignment_score Examples.graph_three_kpis "SO1" == 4 # 15)
    by (rewrite alignment_score_spec; exact Hs).
  rewrite (round_proper _ _ 3 Ha). vm_compute. intros H. discriminate H.
Qed.

End AlignmentClaims.

Module BoundsClaims.
Import Schema Orchestrator GraphFacts CompareFacts AlignmentFacts.

Lemma size_list_to_set_le {B} `{Countable B} (l : list B) :
  (size (list_to_set (C := gset B) l) <= length l)%nat.
Proof.
  induction l as [|x l IH]; cbn.
  - rewrite size_empty. lia.
  - rewrite size_union_alt, size_singleton.
    assert (Hsub : list_to_set l ∖ {[x]} ⊆ list_to_set (C := gset B) l)
      by set_solver.
    apply subseteq_size in Hsub. lia.
Qed.

Lemma size_set_map_le {B C} `{Countable B, Countable C}
    (f : B → C) (X : gset B) :
  (size (set_map (D := gset C) f X) <= size X)%nat.
Proof.
  unfold set_map. etransitivity; [apply size_list_to_set_le |].
  rewrite length_fmap. reflexivity.
Qed.

Lemma density_unit (g : Graph) (obj_id : string) :
  0 <= Spec.action_density g obj_id <= 1.
Proof.
  unfold Spec.action_density. pose proof (K_nonneg g obj_id) as HK.
  case_bool_decide as E; [lra |].
  assert (HKq : 0 < inject_Z (Spec.K g obj_id))
    by (change 0 with (inject_Z 0); rewrite <- Zlt_Qlt; lia).
  assert (HA : 0 <= inject_Z (Z.of_nat (size (Spec.A g obj_id))))
    by (change 0 with (inject_Z 0); rewrite <- Zle_Qle; lia).
  assert (Hd : 0 <= inject_Z (Z.of_nat (size (Spec.A g obj_id)))
                    / inject_Z (Spec.K g obj_id))
    by (apply Qle_shift_div_l; lra).
  destruct (Q.min_spec
              (inject_Z (Z.of_nat (size (Spec.A g obj_id)))
               / inject_Z (Spec.K g obj_id)) 1) as [[? ->]|[? ->]]; lra.
Qed.

Lemma coverage_unit (g : Graph) (obj_id : string) :
  Spec.supported_kpis_owned g obj_id → 0 <= Spec.kpi_coverage g obj_id <= 1.
Proof.
  intros Hown. unfold Spec.kpi_coverage. pose proof (K_nonneg g obj_id) as HK.
  case_bool_decide as E; [lra |].
  assert (Hle : (Z.of_nat (size (Spec.Kc g obj_id)) <= Spec.K g obj_id)%Z).
  { unfold Spec.K. apply inj_le.
    etransitivity; [apply subseteq_size, Hown | apply size_set_map_le]. }
  assert (HKq : 0 < inject_Z (Spec.K g obj_id))
    by (change 0 with (inject_Z 0); rewrite <- Zlt_Qlt; lia).
  rewrite Zle_Qle in Hle.
  assert (Hc : 0 <= inject_Z (Z.of_nat (size (Spec.Kc g obj_id))))
    by (change 0 with (inject_Z 0); rewrite <- Zle_Qle; lia).
  split; [apply Qle_shift_div_l | apply Qle_shift_div_r]; lra.
Qed.

Lemma sum_range (l : list Z) :
  Forall (λ z, 0 <= z <= 100)%Z l →
  (0 <= foldr Z.add 0 l <= 100 * Z.of_nat (length l))%Z.
Proof. induction 1; cbn [foldr length]; lia. Qed.

Lemma progress_percentage (g : Graph) (obj_id : string) :
  Spec.progress_in_range g obj_id → 0 <= Spec.avg_progress g obj_id <= 100.
Proof.
  intros Hrange. unfold Spec.avg_progress; cbv zeta.
  assert (Hall : Forall (λ z, 0 <= z <= 100)%Z
                   (snd <$> elements (Spec.progress g obj_id))).
  { apply Forall_forall. intros z Hz.
    apply list_elem_of_fmap in Hz as ([a z'] & -> & Hin).
    apply elem_of_elements in Hin. exact (Hrange a z' Hin). }
  set (values := snd <$> elements (Spec.progress g obj_id)) in *.
  clearbody values. case_bool_decide as E; [lra |].
  pose proof (sum_range values Hall) as [Hlo Hhi].
  assert (Hlen : (0 < Z.of_nat (length values))%Z)
    by (destruct values; [contradiction | cbn; lia]).
  rewrite Zle_Qle in Hlo, Hhi. rewrite Zlt_Qlt in Hlen.
  rewrite inject_Z_mult in Hhi.
  change (inject_Z 0) with 0 in *. change (inject_Z 100) with 100 in *.
  split; [apply Qle_shift_div_l | apply Qle_shift_div_r]; lra.
Qed.

Lemma ontology_score_unit (g : Graph) (obj_id : string) :
  Spec.progress_in_range g obj_id → Spec.supported_kpis_owned g obj_id →
  0 <= Spec.ontology_score g obj_id <= 1.
Proof.
  intros Hr Ho. unfold Spec.ontology_score.
  pose proof (density_unit g obj_id).
  pose proof (coverage_unit g obj_id Ho).
  pose proof (progress_percentage g obj_id Hr) as [Hp1 Hp2].
  assert (0 <= Spec.avg_progress g obj_id / 100 <= 1)
    by (split; [apply Qle_shift_div_l | apply Qle_shift_div_r]; lra).
  lra.
Qed.

(** The published ontology score of a graph whose progress values are
    percentages and whose actions support only KPIs of their objective. *)
Lemma published_ontology_unit (g : Graph) (obj_id title : string)
    (rec : Alignment.OntologyRecord) :
  Alignment.score_objective g obj_id title = Some rec →
  Spec.progress_in_range g obj_id → Spec.supported_kpis_owned g obj_id →
  0 <= Alignment.r_alignment_score rec <= 1.
Proof.
  intros Hrec Hr Ho.
  apply AlignmentClaims.score_objective_Some in Hrec as (-> & _).
  rewrite (round_proper _ _ 3 (alignment_score_spec g obj_id)).
  apply PyFacts.round_unit, ontology_score_unit; assumption.
Qed.

Lemma agent_score_unit (sr : SyncResult) :
  Spec.judgment_in_range (Py.len (Py.get (s_covered_kpis sr) []))
                         (Py.len (Py.get (s_uncovered_kpis sr) []))
                         (Py.get (s_alignment_score sr) 0.5) →
  0 <= agent_score sr <= 1.
Proof.
  intros Hj. destruct (Z.ltb_spec 0 (total_kpis sr)) as [Hpos|Hzero].
  - rewrite (OrchestratorFacts.agent_score_recalculated sr Hpos).
    apply PyFacts.round_unit.
    unfold Spec.agent_score. fold (total_kpis sr).
    apply Z.ltb_lt in Hpos. rewrite Hpos. apply clamp_bounds.
  - destruct Hj as [Hj | Hj]; [unfold total_kpis in Hzero; lia |].
    unfold agent_score. apply Z.ltb_ge in Hzero. rewrite Hzero. exact Hj.
Qed.

Lemma fold_None {B} (step : option B → (string * string) → option B)
    (l : list (string * string)) :
  (∀ x, step None x = None) → foldl step None l = None.
Proof. intros H. induction l as [|x l IH]; cbn; [reflexivity |]. rewrite H. exact IH. Qed.

(** Every entry of the ontology alignment was computed by the scorer for
    a configured objective. *)
Lemma compute_ontology_alignment_entries (g : Graph)
    (oa : gmap string Alignment.OntologyRecord) :
  Alignment.compute_ontology_alignment g = Some oa →
  ∀ obj_id rec, oa !! obj_id = Some rec →
    ∃ title, (obj_id, title) ∈ Config.STRATEGIC_OBJECTIVES
             ∧ Alignment.score_objective g obj_id title = Some rec.
Proof.
  unfold Alignment.compute_ontology_alignment.
  assert (Hgen : ∀ l acc,
    foldl (λ results '(obj_id, obj_title),
             results ← results;
             record ← Alignment.score_objective g obj_id obj_title;
             Some (<[obj_id := record]> results)) (Some acc) l = Some oa →
    ∀ obj_id rec, oa !! obj_id = Some rec →
      acc !! obj_id = Some rec
      ∨ ∃ title, (obj_id, title) ∈ l
                 ∧ Alignment.score_objective g obj_id title = Some rec).
  { induction l as [|[id0 t0] l IH]; intros acc Hfold obj_id rec Hlook.
    - cbn in Hfold. injection Hfold as <-. left. exact Hlook.
    - cbn in Hfold.
      destruct (Alignment.score_objective g id0 t0) as [r0|] eqn:E0; cbn in Hfold.
      + destruct (IH _ Hfold obj_id rec Hlook) as [Hacc | (title & Hin & Hs)].
        * apply lookup_insert_Some in Hacc as [[<- <-] | [Hne Hacc]].
          -- right. exists t0. split; [left | exact E0].
          -- left. exact Hacc.
        * right. exists title. split; [right; exact Hin | exact Hs].
      + rewrite fold_None in Hfold; [discriminate |].
        intros [? ?]. reflexivity. }
  intros Hfold obj_id rec Hlook.
  destruct (Hgen _ _ Hfold obj_id rec Hlook) as [Hempty | Hex];
    [rewrite lookup_empty in Hempty; discriminate | exact Hex].
Qed.

Lemma entries_fold (oa : gmap string Alignment.OntologyRecord)
    (sync : string → SyncResult) (l : list (string * string))
    (objs0 objs : gmap string ObjectiveEntry) (t0 total : Q) :
  foldl (λ '(objs, total_score) '(obj_id, obj_name),
           let entry := assess_objective oa obj_id (sync obj_id) in
           (<[obj_id := entry]> objs, total_score + e_combined_score entry))
        (objs0, t0) l = (objs, total) →
  (∀ obj_id e, objs !! obj_id = Some e →
     objs0 !! obj_id = Some e
     ∨ ∃ title, (obj_id, title) ∈ l
                ∧ e = assess_objective oa obj_id (sync obj_id))
  ∧ ((∀ obj_id title, (obj_id, title) ∈ l →
        0 <= e_combined_score (assess_objective oa obj_id (sync obj_id)) <= 1)
     → t0 <= total <= t0 + inject_Z (Z.of_nat (length l))).
Proof.
  revert objs0 t0. induction l as [|[id0 n0] l IH]; intros objs0 t0 Hfold.
  - cbn in Hfold. injection Hfold as <- <-. split; [auto |].
    intros _. cbn [length]. change (inject_Z (Z.of_nat 0)) with 0. lra.
  - cbn in Hfold. destruct (IH _ _ Hfold) as [Hent Hsum]. split.
    + intros obj_id e Hlook.
      destruct (Hent obj_id e Hlook) as [Hacc | (title & Hin & He)].
      * apply lookup_insert_Some in Hacc as [[<- <-] | [Hne Hacc]].
        -- right. exists n0. split; [left | reflexivity].
        -- left. exact Hacc.
      * right. exists title. split; [right; exact Hin | exact He].
    + intros Hall.
      assert (H0 : 0 <= e_combined_score
                          (assess_objective oa id0 (sync id0)) <= 1)
        by (apply (Hall id0 n0); left).
      assert (Hrest : t0 + e_combined_score
                             (assess_objective oa id0 (sync id0))
                      <= total
                      <= t0 + e_combined_score
                                (assess_objective oa id0 (sync id0))
                         + inject_Z (Z.of_nat (length l))).
      { apply Hsum. intros obj_id title Hin. apply (Hall obj_id title).
        right. exact Hin. }
      cbn [length]. rewrite Nat2Z.inj_succ, <- Z.add_1_r, inject_Z_plus.
      change (inject_Z 1) with 1. lra.
Qed.

(** C4, as the code has it. No score is clamped by the ontology scorer;
    when the progress values of a graph are percentages and its actions
    support only KPIs of their own objective, and when every judgment
    lists a KPI or has its raw score in the unit interval, the ontology
    score, the agent score and the combined score of every objective and
    the overall score of the run lie in the unit interval. *)
Theorem scores_in_unit_interval
    (g : Graph) (sync : string → SyncResult) (res : Results)
    (Hrun : run_full_analysis g sync = Some res)
    (Hgraph : ∀ obj_id title,
        (obj_id, title) ∈ Config.STRATEGIC_OBJECTIVES →
        Spec.progress_in_range g obj_id ∧ Spec.supported_kpis_owned g obj_id)
    (Hjudge : ∀ obj_id title,
        (obj_id, title) ∈ Config.STRATEGIC_OBJECTIVES →
        Spec.judgment_in_range
          (Py.len (Py.get (s_covered_kpis (sync obj_id)) []))
          (Py.len (Py.get (s_uncovered_kpis (sync obj_id)) []))
          (Py.get (s_alignment_score (sync obj_id)) 0.5)) :
  (∀ obj_id entry, objectives res !! obj_id = Some entry →
     0 <= e_ontology_score entry <= 1
     ∧ 0 <= Py.get (s_alignment_score (e_sync_assessment entry)) 0.5 <= 1
     ∧ 0 <= e_combined_score entry <= 1)
  ∧ 0 <= overall_score res <= 1.
Proof.
  unfold run_full_analysis in Hrun.
  destruct (Alignment.compute_ontology_alignment g) as [oa|] eqn:Hoa;
    cbn [mbind option_bind] in Hrun; [| discriminate].
  match type of Hrun with
  | context [foldl ?f ?a ?l] => destruct (foldl f a l) as [objs total] eqn:Hfold
  end.
  injection Hrun as <-. cbn [objectives overall_score].
  apply entries_fold in Hfold as [Hent Hsum].
  assert (Honto : ∀ obj_id, 0 <= ontology_score oa obj_id <= 1).
  { intros obj_id. unfold ontology_score.
    destruct (oa !! obj_id) as [rec|] eqn:Hlook; cbn; [| lra].
    destruct (compute_ontology_alignment_entries g oa Hoa obj_id rec Hlook)
      as (title & Hin & Hscore).
    destruct (Hgraph obj_id title Hin) as [Hr Ho].
    exact (published_ontology_unit g obj_id title rec Hscore Hr Ho). }
  assert (Hentry : ∀ obj_id title,
            (obj_id, title) ∈ Config.STRATEGIC_OBJECTIVES →
            0 <= e_combined_score (assess_objective oa obj_id (sync obj_id))
              <= 1).
  { intros obj_id title Hin. cbn. unfold combined_score.
    pose proof (agent_score_unit _ (Hjudge obj_id title Hin)).
    pose proof (Honto obj_id). lra. }
  split.
  - intros obj_id entry Hlook.
    destruct (Hent obj_id entry Hlook) as [Hempty | (title & Hin & ->)];
      [rewrite lookup_empty in Hempty; discriminate |].
    split; [| split].
    + apply Honto.
    + rewrite OrchestratorFacts.published_agent_score.
      apply agent_score_unit, (Hjudge obj_id title Hin).
    + apply (Hentry obj_id title Hin).
  - specialize (Hsum Hentry). cbn in Hsum |- *.
    apply PyFacts.round_unit.
    change (inject_Z (Py.len Config.STRATEGIC_OBJECTIVES)) with 5.
    change (inject_Z (Z.of_nat 5)) with 5 in Hsum.
    split; [apply Qle_shift_div_l | apply Qle_shift_div_r]; lra.
Qed.

End BoundsClaims.

Module BoundsExamples.
Import Schema Orchestrator.

Lemma scores_in_unit_interval_witness :
  ∃ res,
    run_full_analysis Examples.graph_two_kpis (λ _, Examples.judged_3_of_4)
    = Some res
    ∧ 0 <= overall_score res <= 1.
Proof.
  destruct (run_full_analysis Examples.graph_two_kpis
              (λ _, Examples.judged_3_of_4)) as [res|] eqn:Hrun;
    [| vm_compute in Hrun; discriminate Hrun].
  exists res. split; [reflexivity |].
  refine (proj2 (BoundsClaims.scores_in_unit_interval
                   Examples.graph_two_kpis (λ _, Examples.judged_3_of_4)
                   res Hrun _ _)).
  - clear Hrun. intros obj_id title Hin.
    assert (Hid : obj_id ∈ ["SO1"; "SO2"; "SO3"; "SO4"; "SO5"]%string).
    { apply (list_elem_of_fmap_2 fst) in Hin. exact Hin. }
    clear Hin. split.
    + intros a z Hz. apply elem_of_elements in Hz.
      set_unfold in Hid. destruct_or!; subst obj_id; try contradiction;
        vm_compute in Hz; set_unfold in Hz;
        destruct_or?; try contradiction; simplify_eq; lia.
    + set_unfold in Hid. destruct_or!; subst obj_id; try contradiction;
        unfold Spec.supported_kpis_owned; apply (bool_decide_unpack _);
        vm_compute; exact I.
  - clear Hrun. intros obj_id title _. left. vm_compute. reflexivity.
Defined.

(** C4 as stated fails: one action at progress 250 supporting the only
    KPI of SO1 gives the ontology score 1.3, and a judgment without KPI
    list and with raw score 1.5 gives the agent score 1.5; the combined
    score of SO1 and the overall score of the run exceed 1. *)
Lemma scores_unclamped_counterexample :
  ∃ res entry,
    run_full_analysis Examples.graph_progress_250
                      (λ _, Examples.judged_raw_high) = Some res
    ∧ objectives res !! "SO1"%string = Some entry
    ∧ e_ontology_score entry == 1.3
    ∧ Py.get (s_alignment_score (e_sync_assessment entry)) 0.5 == 1.5
    ∧ 1 < e_combined_score entry
    ∧ 1 < overall_score res.
Proof.
  destruct (run_full_analysis Examples.graph_progress_250
              (λ _, Examples.judged_raw_high)) as [res|] eqn:Hrun;
    [| vm_compute in Hrun; discriminate Hrun].
  exists res.
  destruct (objectives res !! "SO1"%string) as [entry|] eqn:Hlook.
  - exists entry. split; [reflexivity |]. split; [reflexivity |].
    vm_compute in Hrun. injection Hrun as <-.
    vm_compute in Hlook. injection Hlook as <-.
    vm_compute. split_and!; reflexivity.
  - exfalso. vm_compute in Hrun. injection Hrun as <-.
    vm_compute in Hlook. discriminate Hlook.
Qed.

End BoundsExamples.

Module RetrieverFacts.
Import Retriever CompareFacts.

(** *** The stable descending sort *)

Lemma insert_desc_perm (x : Item) (l : list Item) : insert_desc x l ≡ₚ x :: l.
Proof.
  induction l as [|y l IH]; cbn; [reflexivity |].
  destruct (Py.lt (score x) (score y)); [| reflexivity].
  rewrite IH. apply Permutation_swap.
Qed.

Lemma sorted_desc_perm (l : list Item) : sorted_desc l ≡ₚ l.
Proof.
  induction l as [|x l IH]; cbn; [reflexivity |].
  rewrite insert_desc_perm, IH. reflexivity.
Qed.

Lemma insert_desc_hd (x a : Item) (l : list Item) :
  score x <= score a →
  HdRel (λ u v, score v <= score u) a l →
  HdRel (λ u v, score v <= score u) a (insert_desc x l).
Proof.
  intros Hxa Hhd. destruct l as [|y l]; cbn.
  - constructor. exact Hxa.
  - destruct (Py.lt (score x) (score y)); constructor;
      [inversion Hhd; assumption | exact Hxa].
Qed.

Lemma insert_desc_ranked (x : Item) (l : list Item) :
  Spec.ranked l → Spec.ranked (insert_desc x l).
Proof.
  unfold Spec.ranked. induction 1 as [|y l Hl IH Hhd]; cbn.
  - repeat constructor.
  - destruct (Py.lt (score x) (score y)) eqn:E.
    + apply lt_true in E. constructor; [exact IH |].
      apply insert_desc_hd; [lra | exact Hhd].
    + apply lt_false in E. constructor; [constructor; assumption |].
      constructor. exact E.
Qed.

Lemma sorted_desc_ranked (l : list Item) : Spec.ranked (sorted_desc l).
Proof.
  induction l as [|x l IH]; cbn; [constructor |].
  apply insert_desc_ranked, IH.
Qed.

Lemma rank_perm (all_results : list (string * Item)) :
  rank all_results ≡ₚ boost <$> (snd <$> all_results).
Proof.
  unfold rank. rewrite sorted_desc_perm.
  apply fmap_Permutation, sorted_desc_perm.
Qed.

Lemma rank_ranked (all_results : list (string * Item)) :
  Spec.ranked (rank all_results).
Proof. apply sorted_desc_ranked. Qed.

(** *** The boost *)

Lemma boost_score (item : Item) :
  score (boost item)
  == score item * (1 + 0.1 * (inject_Z (retrieval_count item) - 1)).
Proof. reflexivity. Qed.

Lemma boost_more_hits (x y : Item) :
  0 < score x → score x == score y →
  (retrieval_count y < retrieval_count x)%Z →
  score (boost y) < score (boost x).
Proof.
  intros Hpos Heq Hcount. cbn. rewrite <- Heq.
  rewrite Zlt_Qlt in Hcount.
  set (cx := inject_Z (retrieval_count x)) in *.
  set (cy := inject_Z (retrieval_count y)) in *.
  assert (H : 0 < score x * (0.1 * (cx - cy))).
  { apply Qmult_lt_0_compat; [exact Hpos | lra]. }
  assert (E : score x * (1 + 0.1 * (cx - 1))
              == score x * (1 + 0.1 * (cy - 1)) + score x * (0.1 * (cx - cy)))
    by ring.
  rewrite E. lra.
Qed.

(** *** The accumulation *)

Lemma fuse_hits (sv : Services) (collection_name : string)
    (filter_dict : option (list (string * string)))
    (calls : list (string * Z)) :
  fuse sv collection_name filter_dict calls
  = foldl (λ all_results '(doc, sc),
             record_hit (doc_id_of doc) doc sc all_results)
          [] (Spec.hits sv collection_name filter_dict calls).
Proof.
  unfold fuse, Spec.hits. generalize (@nil (string * Item)).
  induction calls as [|[q k] calls IH]; intros acc; csimpl; [reflexivity |].
  rewrite foldl_app, <- IH. f_equal.
  fold (Spec.effective_filter filter_dict).
  destruct (similarity_search sv collection_name q k
              (Spec.effective_filter filter_dict)); reflexivity.
Qed.

Lemma record_hit_keys (k : string) (doc : Document) (sc : Q)
    (all_results : list (string * Item)) :
  fst <$> record_hit k doc sc all_results
  = if bool_decide (k ∈ fst <$> all_results)
    then fst <$> all_results
    else (fst <$> all_results) ++ [k].
Proof.
  induction all_results as [|[k0 it] rest IH]; cbn.
  - rewrite bool_decide_eq_false_2; [reflexivity |]. set_solver.
  - destruct (decide (k0 = k)) as [-> | Hne].
    + rewrite (bool_decide_eq_true_2 (k = k)) by reflexivity. cbn.
      rewrite bool_decide_eq_true_2; [reflexivity | left].
    + rewrite (bool_decide_eq_false_2 (k0 = k)) by exact Hne. cbn.
      rewrite IH. destruct (decide (k ∈ fst <$> rest)) as [Hin | Hnot].
      * rewrite !bool_decide_eq_true_2; [reflexivity | right; exact Hin | exact Hin].
      * rewrite !bool_decide_eq_false_2; [reflexivity | | exact Hnot].
        intros Hin. apply elem_of_cons in Hin as [-> | Hin]; contradiction.
Qed.

Lemma record_hit_entries (k : string) (doc : Document) (sc : Q)
    (all_results : list (string * Item)) (key : string) (it : Item) :
  NoDup (fst <$> all_results) →
  (key, it) ∈ record_hit k doc sc all_results →
  (key ≠ k ∧ (key, it) ∈ all_results)
  ∨ (key = k ∧ ∃ it0, (k, it0) ∈ all_results
                      ∧ score it = score it0 + sc
                      ∧ retrieval_count it = (retrieval_count it0 + 1)%Z)
  ∨ (key = k ∧ (k ∉ fst <$> all_results)
     ∧ score it = sc ∧ retrieval_count it = 1%Z).
Proof.
  induction all_results as [|[k0 it0] rest IH]; cbn; intros Hnd Hin.
  - apply list_elem_of_singleton in Hin. injection Hin as -> ->.
    right; right. split_and!; try reflexivity. set_solver.
  - apply NoDup_cons in Hnd as [Hk0 Hnd].
    destruct (decide (k0 = k)) as [E0 | E0];
      [rewrite (bool_decide_eq_true_2 _ E0) in Hin
      | rewrite (bool_decide_eq_false_2 _ E0) in Hin].
    + subst k0. apply elem_of_cons in Hin as [Hin | Hin].
      * injection Hin as -> ->. right; left. split; [reflexivity |].
        exists it0. split_and!; try reflexivity. left.
      * left. split; [| right; exact Hin].
        intros ->. apply Hk0.
        apply list_elem_of_fmap. exists (k, it). split; [reflexivity | exact Hin].
    + apply elem_of_cons in Hin as [Hin | Hin].
      * injection Hin as -> ->. left. split; [congruence | left].
      * destruct (IH Hnd Hin) as [[Hne H] | [[-> (it1 & H1 & H2 & H3)]
                                             | [-> (Hnot & H2 & H3)]]].
        -- left. split; [exact Hne | right; exact H].
        -- right; left. split; [reflexivity |].
           exists it1. split_and!; [right; exact H1 | exact H2 | exact H3].
        -- right; right. split_and!; try assumption; try reflexivity.
           set_solver.
Qed.

Lemma record_hit_NoDup (k : string) (doc : Document) (sc : Q)
    (all_results : list (string * Item)) :
  NoDup (fst <$> all_results) →
  NoDup (fst <$> record_hit k doc sc all_results).
Proof.
  intros Hnd. rewrite record_hit_keys. case_bool_decide as E; [exact Hnd |].
  apply NoDup_app. split_and!; [exact Hnd | | apply NoDup_singleton].
  intros x Hx Hk. apply list_elem_of_singleton in Hk. subst x. contradiction.
Qed.

Lemma relevance_sum_snoc (key : string) (hs : list (Document * Q))
    (doc : Document) (sc : Q) :
  Spec.relevance_sum key (hs ++ [(doc, sc)])
  == Spec.relevance_sum key hs
     + (if bool_decide (doc_id_of doc = key) then sc else 0).
Proof.
  unfold Spec.relevance_sum. rewrite filter_app, fmap_app.
  assert (Htail : snd <$> filter (λ h, doc_id_of h.1 = key) [(doc, sc)]
                  = if bool_decide (doc_id_of doc = key) then [sc] else []).
  { rewrite filter_cons, filter_nil. cbn.
    case_bool_decide; case_decide; try contradiction; reflexivity. }
  rewrite Htail.
  induction (snd <$> filter (λ h, doc_id_of h.1 = key) hs) as [|x l IH]; cbn.
  - case_bool_decide; cbn; ring.
  - rewrite IH. ring.
Qed.

Lemma hit_count_snoc (key : string) (hs : list (Document * Q))
    (doc : Document) (sc : Q) :
  Spec.hit_count key (hs ++ [(doc, sc)])
  = (Spec.hit_count key hs
     + (if bool_decide (doc_id_of doc = key) then 1 else 0))%Z.
Proof.
  unfold Spec.hit_count. rewrite filter_app, length_app.
  rewrite filter_cons, filter_nil. cbn.
  case_bool_decide; case_decide; try contradiction; cbn; lia.
Qed.

(** What the loop of step 3 maintains: the keys are those of the hits,
    each once, and every entry holds the sum and the number of the hits on
    its key. *)
Lemma fuse_invariant (hs : list (Document * Q)) :
  let all_results :=
    foldl (λ all_results '(doc, sc),
             record_hit (doc_id_of doc) doc sc all_results) [] hs in
  NoDup (fst <$> all_results)
  ∧ (∀ key, key ∈ fst <$> all_results ↔ ∃ h, h ∈ hs ∧ doc_id_of h.1 = key)
  ∧ (∀ key it, (key, it) ∈ all_results →
       score it == Spec.relevance_sum key hs
       ∧ retrieval_count it = Spec.hit_count key hs).
Proof.
  cbv zeta. induction hs as [|[doc sc] hs IH] using rev_ind.
  - cbn. split_and!.
    + constructor.
    + intros key. split; [intros H; inversion H | intros (h & H & _); inversion H].
    + intros key it H. inversion H.
  - rewrite foldl_snoc.
    set (all_results := foldl _ [] hs) in *.
    destruct IH as (Hnd & Hkeys & Hent). split_and!.
    + apply record_hit_NoDup, Hnd.
    + intros key. rewrite record_hit_keys. split.
      * intros Hin.
        assert (Hcase : key ∈ fst <$> all_results ∨ key = doc_id_of doc).
        { case_bool_decide; [left; exact Hin |].
          apply elem_of_app in Hin as [Hin | Hin]; [left; exact Hin |].
          right. apply list_elem_of_singleton in Hin. exact Hin. }
        destruct Hcase as [Hin' | ->].
        -- apply Hkeys in Hin' as (h & Hh & E). exists h.
           split; [apply elem_of_app; left; exact Hh | exact E].
        -- exists (doc, sc). split; [| reflexivity].
           apply elem_of_app; right. apply list_elem_of_singleton. reflexivity.
      * intros (h & Hh & E). apply elem_of_app in Hh as [Hh | Hh].
        -- assert (Hin : key ∈ fst <$> all_results)
             by (apply Hkeys; exists h; split; assumption).
           case_bool_decide; [exact Hin | apply elem_of_app; left; exact Hin].
        -- apply list_elem_of_singleton in Hh. subst h. cbn in E. subst key.
           case_bool_decide as Ek; [exact Ek |].
           apply elem_of_app; right. apply list_elem_of_singleton. reflexivity.
    + intros key it Hin.
      rewrite relevance_sum_snoc, hit_count_snoc.
      apply (record_hit_entries _ _ _ _ _ _ Hnd) in Hin
        as [[Hne H] | [[-> (it0 & H0 & Hs & Hc)] | [-> (Hnot & Hs & Hc)]]].
      * destruct (Hent key it H) as [Hs Hc].
        rewrite bool_decide_eq_false_2 by congruence.
        split; [rewrite Hs; ring | lia].
      * destruct (Hent _ it0 H0) as [Hs0 Hc0].
        rewrite bool_decide_eq_true_2 by reflexivity.
        split; [rewrite Hs, Hs0; reflexivity | lia].
      * rewrite bool_decide_eq_true_2 by reflexivity.
        assert (Hnone : filter (λ h, doc_id_of h.1 = doc_id_of doc) hs = []).
        { destruct (filter (λ h, doc_id_of h.1 = doc_id_of doc) hs)
            as [|h l] eqn:E; [reflexivity |].
          assert (Hh : h ∈ filter (λ h, doc_id_of h.1 = doc_id_of doc) hs)
            by (rewrite E; left).
          apply list_elem_of_filter in Hh as [HP Hh].
          exfalso. apply Hnot, Hkeys. exists h. split; assumption. }
        unfold Spec.relevance_sum, Spec.hit_count. rewrite Hnone. cbn.
        split; [rewrite Hs; ring | lia].
Qed.

Lemma ranked_take (n : nat) (l : list Item) :
  Spec.ranked l → Spec.ranked (take n l).
Proof.
  unfold Spec.ranked. intros H. revert n.
  induction H as [|x l Hl IH Hhd]; intros [|n]; cbn; try constructor.
  - apply IH.
  - destruct Hhd as [|y l' Hxy]; destruct n; cbn; constructor. exact Hxy.
Qed.

(** C5. The dictionary of step 3 has one entry per chunk key of the
    result sets; the entry holds the sum of the relevance of the key over
    the result sets and the number of times it was retrieved.  The final
    score of an entry is its sum times [1 + 0.1 * (count - 1)]; the
    returned list is made of the first [top_k] of the boosted entries in
    non-increasing order of final score.  With a positive sum, more hits
    give a strictly greater final score: a sum of 1.2 over two hits gives
    1.32. *)
Theorem fusion_ranked
    (sv : Services) (query : string) (collection_name : option string)
    (top_k : option Z) (filter_dict : option (list (string * string)))
    (use_hyde use_multi_query : bool) (result : list Item)
    (Htop : (0 <= Py.get top_k Config.RERANK_TOP_K)%Z)
    (Hret : retrieve_chunks sv query collection_name top_k filter_dict
                            use_hyde use_multi_query = Some result) :
  ∃ qs,
    queries sv query use_hyde use_multi_query = Some qs
    ∧ let collection := Py.get collection_name "combined"%string in
      let hs := Spec.hits sv collection filter_dict (search_calls qs) in
      let all_results := fuse sv collection filter_dict (search_calls qs) in
      NoDup (fst <$> all_results)
      ∧ (∀ key, key ∈ fst <$> all_results
                ↔ ∃ h, h ∈ hs ∧ doc_id_of h.1 = key)
      ∧ (∀ key it, (key, it) ∈ all_results →
           score it == Spec.relevance_sum key hs
           ∧ retrieval_count it = Spec.hit_count key hs
           ∧ score (boost it)
             == Spec.relevance_sum key hs
                * (1 + 0.1 * (inject_Z (Spec.hit_count key hs) - 1)))
      ∧ rank all_results ≡ₚ boost <$> (snd <$> all_results)
      ∧ Spec.ranked (rank all_results)
      ∧ result = take (Z.to_nat (Py.get top_k Config.RERANK_TOP_K))
                      (rank all_results)
      ∧ Spec.ranked result
      ∧ (∀ x y : Item,
           0 < score x → score x == score y →
           (retrieval_count y < retrieval_count x)%Z →
           score (boost y) < score (boost x))
      ∧ (∀ it : Item,
           score it == 1.2 → retrieval_count it = 2%Z →
           score (boost it) == 1.32).
Proof.
  unfold retrieve_chunks in Hret.
  destruct (queries sv query use_hyde use_multi_query) as [qs|] eqn:Hqs;
    cbn [mbind option_bind] in Hret; [| discriminate].
  injection Hret as <-. exists qs. split; [reflexivity |]. cbv zeta.
  set (collection := Py.get collection_name "combined"%string).
  pose proof (fuse_hits sv collection filter_dict (search_calls qs)) as Hfuse.
  pose proof (fuse_invariant
                (Spec.hits sv collection filter_dict (search_calls qs)))
    as Hinv.
  cbv zeta in Hinv. rewrite <- Hfuse in Hinv.
  destruct Hinv as (Hnd & Hkeys & Hent).
  assert (Hslice : Py.slice_to (Py.get top_k Config.RERANK_TOP_K)
                     (rank (fuse sv collection filter_dict (search_calls qs)))
                   = take (Z.to_nat (Py.get top_k Config.RERANK_TOP_K))
                       (rank (fuse sv collection filter_dict
                                   (search_calls qs)))).
  { unfold Py.slice_to. apply Z.leb_le in Htop. rewrite Htop. reflexivity. }
  split_and!.
  - exact Hnd.
  - exact Hkeys.
  - intros key it Hin. destruct (Hent key it Hin) as [Hs Hc].
    split_and!; [exact Hs | exact Hc |].
    rewrite boost_score, Hs, Hc. reflexivity.
  - apply rank_perm.
  - apply rank_ranked.
  - exact Hslice.
  - rewrite Hslice. apply ranked_take, rank_ranked.
  - apply boost_more_hits.
  - intros it Hs Hc. rewrite boost_score, Hs, Hc. reflexivity.
Qed.

Lemma fusion_ranked_witness :
  (0 <= Py.get None Config.RERANK_TOP_K)%Z
  ∧ retrieve_chunks Examples.services_hyde_fails "query" None None None
                    true true
    = Some [ {| text := "chunk X"; metadata := [];
                score := 1.320; retrieval_count := 2 |};
             {| text := "chunk Y"; metadata := [];
                score := 1.20; retrieval_count := 1 |} ]
  ∧ Spec.ranked [ {| text := "chunk X"; metadata := [];
                     score := 1.320; retrieval_count := 2 |};
                  {| text := "chunk Y"; metadata := [];
                     score := 1.20; retrieval_count := 1 |} ].
Proof.
  assert (Htop : (0 <= Py.get None Config.RERANK_TOP_K)%Z)
    by (vm_compute; discriminate).
  assert (Hret : retrieve_chunks Examples.services_hyde_fails "query"
                   None None None true true
                 = Some [ {| text := "chunk X"; metadata := [];
                             score := 1.320; retrieval_count := 2 |};
                          {| text := "chunk Y"; metadata := [];
                             score := 1.20; retrieval_count := 1 |} ])
    by (vm_compute; reflexivity).
  split; [exact Htop |]. split; [exact Hret |].
  destruct (fusion_ranked _ _ _ _ _ _ _ _ Htop Hret)
    as (qs & _ & _ & _ & _ & _ & _ & _ & Hranked & _).
  exact Hranked.
Defined.

End RetrieverFacts.

Module QueryFacts.
Import Retriever.

Lemma foldl_appends {A B} (f : list A → B → list A) :
  (∀ v x, ∃ t, f v x = v ++ t) →
  ∀ l init, ∃ rest, foldl f init l = init ++ rest.
Proof.
  intros Hf. induction l as [|x l IH]; intros init; cbn [foldl].
  - exists []. rewrite app_nil_r. reflexivity.
  - destruct (Hf init x) as [t ->].
    destruct (IH (init ++ t)) as [rest ->].
    exists (t ++ rest). rewrite app_assoc. reflexivity.
Qed.

(** The loop of [generate_multi_queries] only appends to [variants]. *)
Lemma parse_variants_head (query content : string) :
  ∃ rest, Hyde.parse_variants query content = query :: rest.
Proof.
  unfold Hyde.parse_variants.
  apply (foldl_appends _) with (init := [query]).
  intros v line. cbv zeta.
  destruct (negb _ && _); [case_bool_decide |];
    first [exists []; rewrite app_nil_r; reflexivity | eauto].
Qed.

Lemma multi_queries_shape (llm : string → option string) (query : string)
    (variants : list string) :
  Hyde.generate_multi_queries llm query = Some variants →
  head variants = Some query ∧ (1 <= length variants <= 4)%nat.
Proof.
  unfold Hyde.generate_multi_queries. intros H.
  destruct (llm query) as [content|]; cbn in H; [| discriminate].
  injection H as <-.
  destruct (parse_variants_head query content) as [rest ->].
  unfold Py.slice_to. cbn [Z.leb Z.compare Z.to_nat Pos.to_nat Pos.iter_op
                           Nat.add take].
  split; [reflexivity |]. cbn [length].
  change (Z.to_nat 4) with 4%nat. cbn [take length].
  rewrite length_take. lia.
Qed.

(** C6, as the code has it. With both expansions enabled, when the
    reformulation call returns, the texts searched are the at most four
    texts of [generate_multi_queries], the original query first, followed
    by the HyDE document when its generation succeeds: at most five
    texts, the original query among them, each searched with breadth
    10. *)
Theorem searched_texts_bound
    (sv : Services) (query : string) (qs : list string)
    (Hqs : queries sv query true true = Some qs) :
  ∃ variants,
    Hyde.generate_multi_queries (multi_query_llm sv) query = Some variants
    ∧ head variants = Some query
    ∧ (1 <= length variants <= 4)%nat
    ∧ qs = variants ++ match hyde_llm sv query with
                       | Some hyde_doc => [hyde_doc]
                       | None => []
                       end
    ∧ (length qs <= 5)%nat
    ∧ head qs = Some query
    ∧ query ∈ qs
    ∧ length (search_calls qs) = length qs
    ∧ ∀ call, call ∈ search_calls qs → call.1 ∈ qs ∧ call.2 = 10%Z.
Proof.
  unfold queries in Hqs.
  destruct (Hyde.generate_multi_queries (multi_query_llm sv) query)
    as [variants|] eqn:Hv; cbn [mbind option_bind] in Hqs; [| discriminate].
  injection Hqs as <-. exists variants.
  destruct (multi_queries_shape _ _ _ Hv) as [Hhead Hlen].
  unfold Hyde.generate_hyde_document.
  assert (Hshape : (if true
                    then match hyde_llm sv query with
                         | Some hyde_doc => variants ++ [hyde_doc]
                         | None => variants
                         end
                    else variants)
                   = variants ++ match hyde_llm sv query with
                                 | Some hyde_doc => [hyde_doc]
                                 | None => []
                                 end).
  { destruct (hyde_llm sv query); [reflexivity |].
    rewrite app_nil_r. reflexivity. }
  rewrite Hshape.
  set (tail := match hyde_llm sv query with
               | Some hyde_doc => [hyde_doc]
               | None => []
               end).
  assert (Htail : (length tail <= 1)%nat)
    by (unfold tail; destruct (hyde_llm sv query); cbn; lia).
  destruct variants as [|v variants]; [discriminate |].
  injection Hhead as ->.
  split_and!; try reflexivity; try (rewrite ?length_app; lia).
  - left.
  - unfold search_calls. apply length_fmap.
  - intros call Hcall. unfold search_calls in Hcall.
    apply list_elem_of_fmap in Hcall as (q & -> & Hq).
    split; [exact Hq | reflexivity].
Qed.

Lemma searched_texts_bound_witness :
  queries Examples.services_hyde_fails "query" true true
  = Some ["query"; "specific variant"; "broader variant"; "metrics variant"]%string
  ∧ (length ["query"; "specific variant"; "broader variant";
             "metrics variant"]%string <= 5)%nat.
Proof.
  assert (Hqs : queries Examples.services_hyde_fails "query" true true
                = Some ["query"; "specific variant"; "broader variant";
                        "metrics variant"]%string)
    by (vm_compute; reflexivity).
  split; [exact Hqs |].
  destruct (searched_texts_bound _ _ _ Hqs)
    as (variants & _ & _ & _ & _ & Hlen & _).
  exact Hlen.
Defined.

(** C6 as stated fails: three reformulations and a HyDE document make
    five searched texts. *)
Lemma five_searched_texts_counterexample :
  ∃ qs,
    queries Examples.services_hyde_answers "query" true true = Some qs
    ∧ length (search_calls qs) = 5%nat
    ∧ ¬ (length qs <= 4)%nat.
Proof.
  exists ["query"; "specific variant"; "broader variant"; "metrics variant";
          "hypothetical excerpt"]%string.
  split; [vm_compute; reflexivity |]. split; [reflexivity |].
  cbn. lia.
Qed.

(** When the reformulation call raises, nothing is searched: the call
    raises too. *)
Lemma reformulation_failure_propagates :
  retrieve_chunks Examples.services_reformulation_fails "query"
                  None None None true true = None.
Proof. reflexivity. Qed.

End QueryFacts.

Module BuilderFacts.
Import Schema Builder.

Lemma add_keeps (t t' : triple) (g : Graph) : t ∈ g → t ∈ add t' g.
Proof. unfold add. set_solver. Qed.

Lemma add_has (t : triple) (g : Graph) : t ∈ add t g.
Proof. unfold add. set_solver. Qed.

Create HintDb graph.
#[local] Hint Resolve add_keeps add_has : graph.

(** A loop that only adds triples keeps those it starts with. *)
Lemma foldl_keeps {B} (f : Graph → B → Graph) (t : triple) :
  (∀ g x, t ∈ g → t ∈ f g x) →
  ∀ l g, t ∈ g → t ∈ foldl f g l.
Proof.
  intros Hf. induction l as [|x l IH]; intros g Hg; cbn; [exact Hg |].
  apply IH, Hf, Hg.
Qed.


Lemma addendum_line_keeps (ap : node) (t : triple) (g : Graph)
    (im : nat * AddendumMatch) :
  t ∈ g → t ∈ extract_addendum_line ap g im.
Proof.
  intros Hg. destruct im as [i m]. unfold extract_addendum_line.
  cbv zeta. auto 12 with graph.
Qed.


Lemma action_row_keeps (ap : node) (t : triple) (st : Graph * string)
    (m : ActionMatch) :
  t ∈ st.1 → t ∈ (extract_action_row ap st m).1.
Proof.
  destruct st as [g current_obj]. cbn [fst]. intros Hg.
  unfold extract_action_row. cbv zeta. cbn [fst].
  case_bool_decide; [| apply add_keeps];
    (apply foldl_keeps; [intros; apply add_keeps; assumption |]);
    auto 12 with graph.
Qed.

Lemma action_row_adds (ap : node) (st : Graph * string) (m : ActionMatch) :
  let action_uri := ISPS (Py.replace_char "." "_" (Py.strip (am_action_id m))) in
  let progress := Z.of_N (am_progress m) in
  (action_uri, ISPS "hasProgress", IntLiteral progress)
    ∈ (extract_action_row ap st m).1
  ∧ (action_uri, ISPS "hasStatus", Literal (_progress_to_status progress))
    ∈ (extract_action_row ap st m).1.
Proof.
  destruct st as [g current_obj].
  unfold extract_action_row. cbv zeta. cbn [fst].
  split; (case_bool_decide; [| apply add_keeps]);
    (apply foldl_keeps; [intros; apply add_keeps; assumption |]);
    auto 12 with graph.
Qed.

Lemma fold_rows_keeps (ap : node) (t : triple) (matches : list ActionMatch)
    (g : Graph) (current_obj : string) :
  t ∈ g → t ∈ (foldl (extract_action_row ap) (g, current_obj) matches).1.
Proof.
  revert g current_obj.
  induction matches as [|m matches IH]; intros g current_obj Hg;
    cbn [foldl]; [exact Hg |].
  destruct (extract_action_row ap (g, current_obj) m) as [g' obj'] eqn:E.
  apply IH.
  pose proof (action_row_keeps ap t (g, current_obj) m Hg) as Hrow.
  rewrite E in Hrow. exact Hrow.
Qed.

Lemma extract_actions_keeps (g : Graph) (matches : list ActionMatch)
    (ap : node) (t : triple) :
  t ∈ g → t ∈ _extract_actions g matches ap.
Proof. apply fold_rows_keeps. Qed.

(** Table rows: the status written for a row is the one derived from its
    progress. *)
Lemma extract_actions_adds (g : Graph) (matches : list ActionMatch)
    (ap : node) (m : ActionMatch) :
  m ∈ matches →
  let action_uri := ISPS (Py.replace_char "." "_" (Py.strip (am_action_id m))) in
  let progress := Z.of_N (am_progress m) in
  (action_uri, ISPS "hasProgress", IntLiteral progress)
    ∈ _extract_actions g matches ap
  ∧ (action_uri, ISPS "hasStatus", Literal (_progress_to_status progress))
    ∈ _extract_actions g matches ap.
Proof.
  cbv zeta. unfold _extract_actions. generalize "SO1"%string. revert g.
  induction matches as [|m' matches IH]; intros g current_obj Hin;
    [inversion Hin |].
  cbn [foldl]. apply elem_of_cons in Hin as [<- | Hin].
  - destruct (action_row_adds ap (g, current_obj) m) as [H1 H2].
    cbv zeta in H1, H2.
    destruct (extract_action_row ap (g, current_obj) m) as [g' obj'].
    cbn [fst] in H1, H2.
    split; apply fold_rows_keeps; assumption.
  - destruct (extract_action_row ap (g, current_obj) m') as [g' obj'].
    apply IH, Hin.
Qed.

Lemma extract_addendum_keeps (g : Graph) (matches : list AddendumMatch)
    (ap : node) (t : triple) :
  t ∈ g → t ∈ _extract_addendum_actions g matches ap.
Proof.
  unfold _extract_addendum_actions. apply foldl_keeps.
  intros. apply addendum_line_keeps. assumption.
Qed.







End BuilderFacts.

Module GapFacts.
Import Orchestrator GroundTruth Metrics.

Lemma prefixb_spec (p l : list ascii) :
  Py.prefixb p l = true ↔ ∃ post, l = p ++ post.
Proof.
  revert l. induction p as [|a p IH]; intros l; cbn.
  - split; [intros _; exists l; reflexivity | reflexivity].
  - destruct l as [|b l].
    + split; [discriminate | intros (post & H); discriminate H].
    + rewrite andb_true_iff, bool_decide_eq_true, IH. split.
      * intros [-> (post & ->)]. exists post. reflexivity.
      * intros (post & H). injection H as -> ->. eauto.
Qed.

Lemma infixb_spec (p l : list ascii) :
  Py.infixb p l = true ↔ ∃ pre post, l = pre ++ p ++ post.
Proof.
  induction l as [|b l IH]; cbn; rewrite orb_true_iff, prefixb_spec.
  - split.
    + intros [(post & H) | H]; [| discriminate].
      exists [], post. exact H.
    + intros (pre & post & H). left.
      destruct pre as [|c pre]; [| discriminate]. exists post. exact H.
  - rewrite IH. split.
    + intros [(post & H) | (pre & post & H)].
      * exists [], post. exact H.
      * exists (b :: pre), post. rewrite H. reflexivity.
    + intros (pre & post & H). destruct pre as [|c pre].
      * left. exists post. exact H.
      * right. injection H as -> H. exists pre, post. exact H.
Qed.

(** [p in s] holds exactly when [p] occurs inside [s]. *)
Lemma contains_spec (s p : string) :
  Py.contains s p = true ↔ Spec.substring p s.
Proof. unfold Py.contains, Spec.substring. apply infixb_spec. Qed.

Lemma gap_detected_spec
    (system_results : gmap string ObjectiveEntry) (kpi_id suffix : string) :
  Py.index (Py.split "_" kpi_id) 1 = Some suffix →
  ∃ d, gap_detected system_results kpi_id = Some d
       ∧ (d = true ↔ Spec.suffix_reported system_results kpi_id suffix).
Proof.
  intros Hsuffix. unfold gap_detected. cbv zeta. rewrite Hsuffix.
  cbn [mbind option_bind]. eexists. split; [reflexivity |].
  unfold Spec.suffix_reported. fold (Spec.uncovered_of system_results
                                       (Py.split_head "_" kpi_id)).
  set (uncovered := Spec.uncovered_of system_results
                      (Py.split_head "_" kpi_id)).
  assert (Hany : existsb (λ u, Py.contains u suffix) uncovered = true
                 ↔ ∃ u, u ∈ uncovered ∧ Spec.substring suffix u).
  { rewrite existsb_exists. split.
    - intros (u & Hu & Hc). exists u.
      split; [apply list_elem_of_In, Hu | apply contains_spec, Hc].
    - intros (u & Hu & Hc). exists u.
      split; [apply list_elem_of_In, Hu | apply contains_spec, Hc]. }
  destruct uncovered as [|u0 rest] eqn:E; [| exact Hany].
  split; [discriminate |]. intros (u & Hu & _). inversion Hu.
Qed.

(** The loop of [evaluate_gap_detection] sorts the gaps by the result of
    [gap_detected]. *)
Lemma fold_gaps (system_results : gmap string ObjectiveEntry)
    (gaps d0 m0 : list Gap) :
  (∀ gap, gap ∈ gaps → is_Some (gap_detected system_results (kpi gap))) →
  foldl (λ st gap,
           '(detected_gaps, missed_gaps) ← st;
           d ← gap_detected system_results (kpi gap);
           Some (if d : bool then (detected_gaps ++ [gap], missed_gaps)
                 else (detected_gaps, missed_gaps ++ [gap])))
        (Some (d0, m0)) gaps
  = Some (d0 ++ filter (λ gap, gap_detected system_results (kpi gap)
                               = Some true) gaps,
          m0 ++ filter (λ gap, gap_detected system_results (kpi gap)
                               = Some false) gaps).
Proof.
  revert d0 m0. induction gaps as [|gap gaps IH]; intros d0 m0 Hall.
  - cbn. rewrite !app_nil_r. reflexivity.
  - cbn [foldl]. destruct (Hall gap) as [d Hd]; [left |].
    cbn [mbind option_bind]. rewrite Hd. cbn [mbind option_bind].
    rewrite !filter_cons, Hd.
    assert (Hrest : ∀ gap', gap' ∈ gaps →
                      is_Some (gap_detected system_results (kpi gap')))
      by (intros gap' Hin; apply Hall; right; exact Hin).
    destruct d; rewrite (IH _ _ Hrest);
      repeat case_decide; try congruence; rewrite <- ?app_assoc; reflexivity.
Qed.

Lemma expected_gaps_suffix (gap : Gap) :
  gap ∈ EXPECTED_GAPS →
  ∃ suffix, Py.index (Py.split "_" (kpi gap)) 1 = Some suffix
            ∧ kpi gap = Py.split_head "_" (kpi gap) +:+ "_" +:+ suffix.
Proof.
  intros Hin. unfold EXPECTED_GAPS in Hin.
  repeat (apply elem_of_cons in Hin as [-> | Hin];
          [eexists; split; reflexivity |]).
  inversion Hin.
Qed.

(** C8. A gap on a KPI id is reported detected exactly when the part of
    the id after the underscore occurs inside some string of the
    uncovered list of the objective named by the part before it; this is
    how every gap of the fixed list is sorted.  An uncovered list holding
    "D1" flags the gap "SO1_D1", and so does one holding "D10". *)
Theorem gap_detection_substring
    (system_results : gmap string ObjectiveEntry) :
  (∀ kpi_id suffix,
     Py.index (Py.split "_" kpi_id) 1 = Some suffix →
     ∃ d, gap_detected system_results kpi_id = Some d
          ∧ (d = true ↔ Spec.suffix_reported system_results kpi_id suffix))
  ∧ (∃ report,
       evaluate_gap_detection system_results = Some report
       ∧ total_expected_gaps report = 5%Z
       ∧ ∀ gap, gap ∈ EXPECTED_GAPS →
           ∃ suffix,
             kpi gap = Py.split_head "_" (kpi gap) +:+ "_" +:+ suffix
             ∧ (gap ∈ detected_gaps report
                ↔ Spec.suffix_reported system_results (kpi gap) suffix)
             ∧ (gap ∈ missed_gaps report
                ↔ ¬ Spec.suffix_reported system_results (kpi gap) suffix))
  ∧ gap_detected (Examples.results_uncovered ["D1"]%string) "SO1_D1"
    = Some true
  ∧ gap_detected (Examples.results_uncovered ["D10"]%string) "SO1_D1"
    = Some true
  ∧ gap_detected (Examples.results_uncovered ["D2"]%string) "SO1_D1"
    = Some false.
Proof.
  split_and!.
  - apply gap_detected_spec.
  - unfold evaluate_gap_detection, evaluate_gap_detection_on.
    rewrite (fold_gaps system_results EXPECTED_GAPS [] []).
    + cbn [mbind option_bind app]. eexists. split; [reflexivity |].
      cbn [total_expected_gaps detected_gaps missed_gaps].
      split; [reflexivity |].
      intros gap Hin.
      destruct (expected_gaps_suffix gap Hin) as (suffix & Hsuffix & Hid).
      exists suffix. split; [exact Hid |].
      destruct (gap_detected_spec system_results (kpi gap) suffix Hsuffix)
        as (d & Hd & Hiff).
      rewrite !list_elem_of_filter, Hd. split.
      * rewrite <- Hiff. split; [intros [[= ->] _]; reflexivity |].
        intros ->. split; [reflexivity | exact Hin].
      * rewrite <- Hiff. split.
        -- intros [[= ->] _]. discriminate.
        -- intros Hnot. split; [| exact Hin].
           destruct d; [contradiction Hnot; reflexivity | reflexivity].
    + intros gap Hin.
      destruct (expected_gaps_suffix gap Hin) as (suffix & Hsuffix & _).
      destruct (gap_detected_spec system_results (kpi gap) suffix Hsuffix)
        as (d & Hd & _).
      rewrite Hd. eauto.
  - vm_compute. reflexivity.
  - vm_compute. reflexivity.
  - vm_compute. reflexivity.
Qed.

Lemma gap_detection_substring_witness :
  Py.index (Py.split "_" "SO1_D1") 1 = Some "D1"%string
  ∧ gap_detected (Examples.results_uncovered ["D10"]%string) "SO1_D1"
    = Some true
  ∧ Spec.suffix_reported (Examples.results_uncovered ["D10"]%string)
                         "SO1_D1" "D1".
Proof.
  assert (Hs : Py.index (Py.split "_" "SO1_D1") 1 = Some "D1"%string)
    by reflexivity.
  split; [exact Hs |].
  destruct (proj1 (gap_detection_substring
                     (Examples.results_uncovered ["D10"]%string))
                  "SO1_D1" "D1"%string Hs) as (d & Hd & Hiff).
  assert (Hgap : gap_detected (Examples.results_uncovered ["D10"]%string)
                              "SO1_D1" = Some true)
    by (vm_compute; reflexivity).
  split; [exact Hgap |].
  apply Hiff. rewrite Hgap in Hd. injection Hd as <-. reflexivity.
Defined.

End GapFacts.

Module CacheFacts.
Import PipelineCache.




(** A snapshot that is a JSON number, boolean or null makes the key test
    itself raise. *)
Lemma scalar_snapshot_raises :
  load_pipeline_cache (Parsed JNull) = Raises TypeError
  ∧ load_pipeline_cache (Parsed (JNumber 1)) = Raises TypeError
  ∧ load_pipeline_cache (Parsed (JBool true)) = Raises TypeError.
Proof. split_and!; reflexivity. Qed.

End CacheFacts.

Module StringFacts.

Lemma chars_text (l : list ascii) : Py.chars (Py.text l) = l.
Proof. apply String.list_ascii_of_string_of_list_ascii. Qed.

Lemma text_chars (s : string) : Py.text (Py.chars s) = s.
Proof. apply String.string_of_list_ascii_of_string. Qed.

Lemma chars_app (s1 s2 : string) :
  Py.chars (s1 +:+ s2) = Py.chars s1 ++ Py.chars s2.
Proof.
  unfold Py.chars. induction s1 as [|c s1 IH]; [reflexivity |].
  change (String c s1 +:+ s2) with (String c (s1 +:+ s2)).
  cbn. f_equal. exact IH.
Qed.

Lemma text_app (l1 l2 : list ascii) :
  Py.text (l1 ++ l2) = Py.text l1 +:+ Py.text l2.
Proof.
  rewrite <- (text_chars (Py.text l1 +:+ Py.text l2)), chars_app, !chars_text.
  reflexivity.
Qed.


Lemma text_nil (l : list ascii) : Py.text l = EmptyString ↔ l = [].
Proof.
  split; [| intros ->; reflexivity].
  intros H. rewrite <- (chars_text l), H. reflexivity.
Qed.

Lemma length_chars (s : string) : length (Py.chars s) = String.length s.
Proof. induction s as [|c s IH]; cbn; [reflexivity |]. f_equal. exact IH. Qed.

(** [lstrip] and [rstrip] remove characters only. *)
Lemma lstrip_by_suffix (p : ascii → bool) (l : list ascii) :
  ∃ pre, l = pre ++ Py.lstrip_by p l ∧ Forall (λ c, p c = true) pre.
Proof.
  induction l as [|c l IH]; cbn.
  - exists []. split; [reflexivity | constructor].
  - destruct (p c) eqn:Hc.
    + destruct IH as (pre & Hl & Hpre). exists (c :: pre). split.
      * cbn. rewrite <- Hl. reflexivity.
      * constructor; assumption.
    + exists []. split; [reflexivity | constructor].
Qed.

Lemma lstrip_by_head (p : ascii → bool) (l : list ascii) :
  match Py.lstrip_by p l with
  | [] => True
  | c :: _ => p c = false
  end.
Proof.
  induction l as [|c l IH]; cbn; [exact I |].
  destruct (p c) eqn:Hc; [exact IH | exact Hc].
Qed.

Lemma lstrip_by_fixed (p : ascii → bool) (l : list ascii) :
  match l with [] => True | c :: _ => p c = false end →
  Py.lstrip_by p l = l.
Proof. destruct l as [|c l]; cbn; [reflexivity |]. intros ->. reflexivity. Qed.

Lemma lstrip_by_idemp (p : ascii → bool) (l : list ascii) :
  Py.lstrip_by p (Py.lstrip_by p l) = Py.lstrip_by p l.
Proof. apply lstrip_by_fixed, lstrip_by_head. Qed.

Lemma rstrip_by_idemp (p : ascii → bool) (l : list ascii) :
  Py.rstrip_by p (Py.rstrip_by p l) = Py.rstrip_by p l.
Proof.
  unfold Py.rstrip_by. rewrite rev_involutive, lstrip_by_idemp. reflexivity.
Qed.

Lemma rstrip_by_prefix (p : ascii → bool) (l : list ascii) :
  ∃ post, l = Py.rstrip_by p l ++ post ∧ Forall (λ c, p c = true) post.
Proof.
  unfold Py.rstrip_by.
  destruct (lstrip_by_suffix p (rev l)) as (pre & Hl & Hpre).
  exists (rev pre). split.
  - rewrite <- rev_app_distr, <- Hl, rev_involutive. reflexivity.
  - apply Forall_forall. intros c Hc. apply list_elem_of_In in Hc.
    apply in_rev in Hc. rewrite Forall_forall in Hpre. apply Hpre.
    apply list_elem_of_In. exact Hc.
Qed.

Lemma elem_of_rstrip_by (p : ascii → bool) (l : list ascii) (c : ascii) :
  c ∈ Py.rstrip_by p l → c ∈ l.
Proof.
  intros Hc. destruct (rstrip_by_prefix p l) as (post & Hl & _).
  rewrite Hl. apply elem_of_app. left. exact Hc.
Qed.

Lemma elem_of_lstrip_by (p : ascii → bool) (l : list ascii) (c : ascii) :
  c ∈ Py.lstrip_by p l → c ∈ l.
Proof.
  intros Hc. destruct (lstrip_by_suffix p l) as (pre & Hl & _).
  rewrite Hl. apply elem_of_app. right. exact Hc.
Qed.

Lemma rstrip_idemp (s : string) : Py.rstrip (Py.rstrip s) = Py.rstrip s.
Proof.
  unfold Py.rstrip. rewrite chars_text, rstrip_by_idemp. reflexivity.
Qed.

(** The pieces of a split. *)
Lemma split_go_cur (sep : ascii) (cur l : list ascii) :
  ∃ hd tl, Py.split_go sep [] l = hd :: tl
           ∧ Py.split_go sep cur l = (rev cur ++ hd) :: tl.
Proof.
  revert cur. induction l as [|c l IH]; intros cur; cbn.
  - exists [], []. rewrite app_nil_r. split; reflexivity.
  - case_bool_decide.
    + exists [], (Py.split_go sep [] l). rewrite app_nil_r.
      split; reflexivity.
    + destruct (IH [c]) as (hd & tl & H0 & H1).
      destruct (IH (c :: cur)) as (hd' & tl' & H0' & H1').
      rewrite H0 in H0'. injection H0' as <- <-.
      exists ([c] ++ hd), tl. split.
      * rewrite H1. reflexivity.
      * rewrite H1'. cbn. rewrite <- app_assoc. reflexivity.
Qed.

Lemma split_go_no_sep (sep : ascii) (cur l : list ascii) :
  sep ∉ l → Py.split_go sep cur l = [rev cur ++ l].
Proof.
  revert cur. induction l as [|c l IH]; intros cur Hl; cbn.
  - rewrite app_nil_r. reflexivity.
  - rewrite not_elem_of_cons in Hl. destruct Hl as [Hc Hl].
    rewrite bool_decide_eq_false_2 by congruence.
    rewrite IH by exact Hl. cbn. rewrite <- app_assoc. reflexivity.
Qed.

Lemma split_go_app (sep : ascii) (cur l1 l2 : list ascii) :
  sep ∉ l1 →
  Py.split_go sep cur (l1 ++ sep :: l2)
  = (rev cur ++ l1) :: Py.split_go sep [] l2.
Proof.
  revert cur. induction l1 as [|c l1 IH]; intros cur Hl; cbn.
  - rewrite bool_decide_eq_true_2 by reflexivity. rewrite app_nil_r.
    reflexivity.
  - rewrite not_elem_of_cons in Hl. destruct Hl as [Hc Hl].
    rewrite bool_decide_eq_false_2 by congruence.
    rewrite IH by exact Hl. cbn. rewrite <- app_assoc. reflexivity.
Qed.

Lemma split_go_pieces (sep : ascii) (cur l : list ascii) :
  sep ∉ cur → Forall (λ piece, sep ∉ piece) (Py.split_go sep cur l).
Proof.
  revert cur. induction l as [|c l IH]; intros cur Hcur; cbn.
  - constructor; [| constructor]. rewrite list_elem_of_In, <- in_rev,
      <- list_elem_of_In. exact Hcur.
  - case_bool_decide.
    + constructor.
      * rewrite list_elem_of_In, <- in_rev, <- list_elem_of_In. exact Hcur.
      * apply IH. apply not_elem_of_nil.
    + apply IH. rewrite not_elem_of_cons. split; [congruence | exact Hcur].
Qed.

Lemma split_nonempty (sep : ascii) (s : string) : Py.split sep s ≠ [].
Proof.
  unfold Py.split.
  destruct (split_go_cur sep [] (Py.chars s)) as (hd & tl & -> & _).
  discriminate.
Qed.

Lemma split_pieces (sep : ascii) (s piece : string) :
  piece ∈ Py.split sep s → sep ∉ Py.chars piece.
Proof.
  unfold Py.split. intros Hin.
  apply list_elem_of_fmap in Hin as (l & -> & Hl).
  rewrite chars_text.
  pose proof (split_go_pieces sep [] (Py.chars s) (not_elem_of_nil _)) as H.
  rewrite Forall_forall in H. apply H, Hl.
Qed.

(** Splitting what was joined gives the pieces back. *)
Lemma split_join (sep : ascii) (pieces : list string) :
  pieces ≠ [] →
  Forall (λ piece, sep ∉ Py.chars piece) pieces →
  Py.split sep (Py.join (String sep EmptyString) pieces) = pieces.
Proof.
  intros Hne Hall. unfold Py.split.
  induction pieces as [|piece rest IH]; [congruence |].
  apply Forall_cons in Hall as [Hpiece Hrest].
  destruct rest as [|piece' rest'].
  - cbn [Py.join]. rewrite split_go_no_sep by exact Hpiece.
    cbn. rewrite text_chars. reflexivity.
  - change (Py.join (String sep EmptyString) (piece :: piece' :: rest'))
      with (piece +:+ String sep EmptyString
            +:+ Py.join (String sep EmptyString) (piece' :: rest')).
    rewrite !chars_app. cbn [Py.chars String.list_ascii_of_string app].
    rewrite split_go_app by exact Hpiece.
    rewrite fmap_cons. cbn [rev app]. rewrite text_chars.
    f_equal. apply IH; [discriminate | exact Hrest].
Qed.

End StringFacts.

Module RoundFacts.

Lemma round_mono (x y : Q) (n : nat) :
  x <= y → Py.round x n <= Py.round y n.
Proof.
  intros Hxy. unfold Py.round. pose proof (PyFacts.pow10_pos n) as Hp.
  set (p := inject_Z (10 ^ Z.of_nat n)) in *.
  apply Qmult_le_compat_r; [| apply Qlt_le_weak, Qinv_lt_0_compat, Hp].
  rewrite <- Zle_Qle. apply PyFacts.round_half_even_mono.
  apply Qmult_le_compat_r; [exact Hxy | lra].
Qed.

(** Rounding leaves an integer as it is. *)
Lemma round_Z (z : Z) (n : nat) : Py.round (inject_Z z) n == inject_Z z.
Proof.
  unfold Py.round. pose proof (PyFacts.pow10_pos n) as Hp.
  set (p := (10 ^ Z.of_nat n)%Z) in *.
  assert (E : inject_Z z * inject_Z p == inject_Z (z * p))
    by (rewrite inject_Z_mult; reflexivity).
  rewrite (CompareFacts.round_half_even_proper _ _ E).
  rewrite PyFacts.round_half_even_Z, inject_Z_mult.
  field. lra.
Qed.

Lemma round_between (x : Q) (lo hi : Z) (n : nat) :
  inject_Z lo <= x <= inject_Z hi →
  inject_Z lo <= Py.round x n <= inject_Z hi.
Proof.
  intros [Hlo Hhi]. split.
  - rewrite <- (round_Z lo n). apply round_mono, Hlo.
  - rewrite <- (round_Z hi n). apply round_mono, Hhi.
Qed.

Lemma round_min (x y : Q) (n : nat) :
  Qmin (Py.round x n) (Py.round y n) == Py.round (Qmin x y) n.
Proof.
  destruct (Qlt_le_dec x y) as [H|H].
  - rewrite (CompareFacts.round_proper (Qmin x y) x n)
      by (apply Q.min_l; lra).
    apply Q.min_l, round_mono. lra.
  - rewrite (CompareFacts.round_proper (Qmin x y) y n)
      by (apply Q.min_r; lra).
    apply Q.min_r, round_mono. lra.
Qed.

Lemma round_max (x y : Q) (n : nat) :
  Qmax (Py.round x n) (Py.round y n) == Py.round (Qmax x y) n.
Proof.
  destruct (Qlt_le_dec x y) as [H|H].
  - rewrite (CompareFacts.round_proper (Qmax x y) y n)
      by (apply Q.max_r; lra).
    apply Q.max_r, round_mono. lra.
  - rewrite (CompareFacts.round_proper (Qmax x y) x n)
      by (apply Q.max_l; lra).
    apply Q.max_l, round_mono. lra.
Qed.

(** Sums and means of bounded numbers. *)
Lemma foldl_Qplus_bounds (a b : Q) (l : list Q) (acc : Q) :
  Forall (λ x, a <= x <= b) l →
  acc + a * inject_Z (Py.len l) <= foldl Qplus acc l
  ∧ foldl Qplus acc l <= acc + b * inject_Z (Py.len l).
Proof.
  revert acc. induction l as [|x l IH]; intros acc Hall.
  - cbn. change (inject_Z (Py.len [])) with 0. split; lra.
  - apply Forall_cons in Hall as [Hx Hl]. cbn [foldl].
    destruct (IH (acc + x) Hl) as [IH1 IH2].
    assert (E : inject_Z (Py.len (x :: l)) == inject_Z (Py.len l) + 1).
    { unfold Py.len. cbn [length]. rewrite Nat2Z.inj_succ, <- Z.add_1_r.
      rewrite inject_Z_plus. reflexivity. }
    rewrite E. split; lra.
Qed.

Lemma len_pos {A} (x : A) (l : list A) : 0 < inject_Z (Py.len (x :: l)).
Proof.
  change 0 with (inject_Z 0). rewrite <- Zlt_Qlt. unfold Py.len. cbn. lia.
Qed.

Lemma mean_bounds (a b : Q) (x : Q) (l : list Q) :
  Forall (λ y, a <= y <= b) (x :: l) →
  a <= Py.mean (x :: l) <= b.
Proof.
  intros Hall. unfold Py.mean, Py.sum.
  destruct (foldl_Qplus_bounds a b (x :: l) 0 Hall) as [H1 H2].
  pose proof (len_pos x l) as Hn.
  split.
  - apply Qle_shift_div_l; [exact Hn | lra].
  - apply Qle_shift_div_r; [exact Hn | lra].
Qed.

End RoundFacts.

Module DocumentLoaderFacts.
Import DocumentLoader StringFacts.

Lemma is_blank_empty (s : string) :
  bool_decide (String.length s = 0%nat) = bool_decide (s = EmptyString).
Proof.
  destruct s; [reflexivity |]. cbn.
  rewrite !bool_decide_eq_false_2 by discriminate. reflexivity.
Qed.

(** The loop of [preprocess_text] appends the kept lines to [cleaned]. *)
Lemma fold_kept_lines (lines cleaned : list string) (prev_blank : bool) :
  (foldl preprocess_line (cleaned, prev_blank) lines).1
  = cleaned ++ Shape.kept_lines prev_blank lines.
Proof.
  revert cleaned prev_blank.
  induction lines as [|line rest IH]; intros cleaned prev_blank; cbn [foldl].
  - cbn. rewrite app_nil_r. reflexivity.
  - unfold preprocess_line at 2. cbv zeta. rewrite is_blank_empty.
    cbn [Shape.kept_lines]. cbv zeta.
    destruct (bool_decide (Py.rstrip line = EmptyString) && prev_blank).
    + apply IH.
    + rewrite IH, <- app_assoc. reflexivity.
Qed.

Lemma kept_lines_fixed (prev_blank : bool) (lines : list string) :
  Forall (λ line, Py.rstrip line = line) (Shape.kept_lines prev_blank lines).
Proof.
  revert prev_blank. induction lines as [|line rest IH]; intros prev_blank;
    cbn [Shape.kept_lines]; [constructor |]. cbv zeta.
  destruct (bool_decide (Py.rstrip line = EmptyString) && prev_blank).
  - apply IH.
  - constructor; [apply rstrip_idemp | apply IH].
Qed.

Lemma kept_lines_no_blank_run (prev_blank : bool) (lines : list string) :
  Shape.no_blank_run prev_blank (Shape.kept_lines prev_blank lines).
Proof.
  revert prev_blank. induction lines as [|line rest IH]; intros prev_blank;
    cbn [Shape.kept_lines]; [exact I |]. cbv zeta.
  destruct (bool_decide (Py.rstrip line = EmptyString)) eqn:Hblank;
    destruct prev_blank; cbn [andb Shape.no_blank_run].
  - apply IH.
  - split; [intros [_ [=]] |]. rewrite Hblank. apply IH.
  - apply bool_decide_eq_false in Hblank.
    split; [intros [H _]; contradiction |].
    rewrite bool_decide_eq_false_2 by exact Hblank. apply IH.
  - apply bool_decide_eq_false in Hblank.
    split; [intros [H _]; contradiction |].
    rewrite bool_decide_eq_false_2 by exact Hblank. apply IH.
Qed.

(** On lines that are already clean the loop changes nothing. *)
Lemma kept_lines_id (prev_blank : bool) (lines : list string) :
  Forall (λ line, Py.rstrip line = line) lines →
  Shape.no_blank_run prev_blank lines →
  Shape.kept_lines prev_blank lines = lines.
Proof.
  revert prev_blank. induction lines as [|line rest IH];
    intros prev_blank Hfixed Hrun; [reflexivity |].
  apply Forall_cons in Hfixed as [Hline Hrest].
  destruct Hrun as [Hhere Hrun].
  cbn [Shape.kept_lines]. cbv zeta. rewrite Hline.
  destruct (bool_decide (line = EmptyString)) eqn:Hblank;
    destruct prev_blank; cbn [andb].
  - apply bool_decide_eq_true in Hblank. contradiction Hhere. auto.
  - f_equal. apply IH; assumption.
  - f_equal. apply IH; assumption.
  - f_equal. apply IH; assumption.
Qed.

Lemma kept_lines_nonempty (lines : list string) :
  lines ≠ [] → Shape.kept_lines false lines ≠ [].
Proof.
  destruct lines as [|line rest]; [congruence |]. intros _.
  cbn [Shape.kept_lines]. cbv zeta. rewrite andb_false_r. discriminate.
Qed.

Lemma rstrip_keeps_out (c : ascii) (line : string) :
  c ∉ Py.chars line → c ∉ Py.chars (Py.rstrip line).
Proof.
  intros Hc Hin. apply Hc. unfold Py.rstrip in Hin.
  rewrite chars_text in Hin. eapply elem_of_rstrip_by, Hin.
Qed.

Lemma kept_lines_one_line (prev_blank : bool) (lines : list string) :
  Forall (λ line, "010"%char ∉ Py.chars line) lines →
  Forall (λ line, "010"%char ∉ Py.chars line)
         (Shape.kept_lines prev_blank lines).
Proof.
  revert prev_blank. induction lines as [|line rest IH];
    intros prev_blank Hall; cbn [Shape.kept_lines]; [constructor |].
  apply Forall_cons in Hall as [Hline Hrest]. cbv zeta.
  destruct (bool_decide (Py.rstrip line = EmptyString) && prev_blank).
  - apply IH, Hrest.
  - constructor; [apply rstrip_keeps_out, Hline | apply IH, Hrest].
Qed.

(** The lines of the result are the lines that the loop kept. *)
Lemma preprocess_text_lines (text : string) :
  Py.split "010" (preprocess_text text)
  = Shape.kept_lines false (Py.split "010" text).
Proof.
  unfold preprocess_text. cbv zeta. rewrite fold_kept_lines. cbn [app].
  apply split_join.
  - apply kept_lines_nonempty, split_nonempty.
  - apply kept_lines_one_line, Forall_forall. intros line.
    apply split_pieces.
Qed.

Lemma no_blank_run_lookup (prev_blank : bool) (lines : list string) (i : nat) :
  Shape.no_blank_run prev_blank lines →
  lines !! i = Some EmptyString → lines !! S i ≠ Some EmptyString.
Proof.
  revert prev_blank i. induction lines as [|line rest IH];
    intros prev_blank i Hrun Hi; [discriminate |].
  destruct Hrun as [_ Hrun]. destruct i as [|i].
  - injection Hi as ->. destruct rest as [|next rest']; [discriminate |].
    destruct Hrun as [Hnext _]. cbn. intros [= ->].
    apply Hnext. split; reflexivity.
  - cbn in Hi. cbn. eapply IH; eassumption.
Qed.

(** X1. [preprocess_text] is idempotent, and in its result no line ends
    with white space and no two consecutive lines are empty. *)
Theorem preprocess_text_normal_form (text : string) :
  let cleaned := preprocess_text text in
  preprocess_text cleaned = cleaned
  ∧ (∀ line, line ∈ Py.split "010" cleaned → Py.rstrip line = line)
  ∧ (∀ i, Py.split "010" cleaned !! i = Some EmptyString →
          Py.split "010" cleaned !! S i ≠ Some EmptyString).
Proof.
  cbv zeta. split_and!.
  - unfold preprocess_text at 1. cbv zeta.
    rewrite fold_kept_lines, preprocess_text_lines. cbn [app].
    rewrite kept_lines_id.
    + unfold preprocess_text. cbv zeta.
      rewrite fold_kept_lines. reflexivity.
    + apply kept_lines_fixed.
    + apply kept_lines_no_blank_run.
  - intros line Hin. rewrite preprocess_text_lines in Hin.
    pose proof (kept_lines_fixed false (Py.split "010" text)) as H.
    rewrite Forall_forall in H. apply H, Hin.
  - intros i. rewrite preprocess_text_lines.
    apply (no_blank_run_lookup false), kept_lines_no_blank_run.
Qed.

End DocumentLoaderFacts.

Module SyncAgentFacts.
Import Orchestrator SyncAgent StringFacts.

Lemma prefixb_app (p l : list ascii) :
  Py.prefixb p l = true → ∃ post, l = p ++ post.
Proof.
  revert l. induction p as [|a p IH]; intros l; cbn.
  - intros _. exists l. reflexivity.
  - destruct l as [|b l]; [discriminate |].
    rewrite andb_true_iff, bool_decide_eq_true.
    intros [-> H]. destruct (IH _ H) as (post & ->). exists post. reflexivity.
Qed.

(** A line that starts with a tag ending in the separator has a second
    field. *)
Lemma tagged_line_field (sep : ascii) (tag : list ascii) (line : string) :
  sep ∉ tag →
  Py.prefixb (tag ++ [sep]) (Py.chars line) = true →
  ∃ field, Py.index (Py.split sep line) 1 = Some field
           ∧ ∀ c, c ∈ Py.chars field → c ∈ Py.chars line ∧ c ≠ sep.
Proof.
  intros Htag Hprefix. apply prefixb_app in Hprefix as (post & Hline).
  rewrite <- app_assoc in Hline. cbn [app] in Hline.
  unfold Py.split, Py.index. rewrite Hline, split_go_app by exact Htag.
  destruct (split_go_cur sep [] post) as (hd & tl & Hsplit & _).
  rewrite Hsplit. cbn. eexists. split; [reflexivity |].
  intros c Hc. rewrite chars_text in Hc.
  pose proof (split_go_pieces sep [] post (not_elem_of_nil _)) as Hpieces.
  rewrite Hsplit in Hpieces. apply Forall_cons in Hpieces as [Hhd _].
  split; [| intros ->; contradiction].
  assert (Hsub : ∀ cur l piece, piece ∈ Py.split_go sep cur l →
                                ∀ x, x ∈ piece → x ∈ cur ∨ x ∈ l).
  { clear. intros cur l. revert cur.
    induction l as [|c l IH]; intros cur piece Hpiece x Hx; cbn in Hpiece.
    - apply list_elem_of_singleton in Hpiece as ->. left.
      apply list_elem_of_In. apply in_rev, list_elem_of_In, Hx.
    - case_bool_decide.
      + apply elem_of_cons in Hpiece as [-> | Hpiece].
        * left. apply list_elem_of_In, in_rev, list_elem_of_In, Hx.
        * destruct (IH _ _ Hpiece x Hx) as [H' | H'];
            [inversion H' | right; right; exact H'].
      + destruct (IH _ _ Hpiece x Hx) as [H' | H'].
        * apply elem_of_cons in H' as [-> | H']; [right; left | left; exact H'].
        * right. right. exact H'. }
  assert (Hin : hd ∈ Py.split_go sep [] post) by (rewrite Hsplit; left).
  destruct (Hsub _ _ _ Hin c Hc) as [H' | H']; [inversion H' |].
  apply elem_of_app. right. right. exact H'.
Qed.

Lemma tagged_line_rest (sep : ascii) (tag : list ascii) (line : string) :
  sep ∉ tag →
  Py.prefixb (tag ++ [sep]) (Py.chars line) = true →
  is_Some (Py.index (Py.split_once sep line) 1).
Proof.
  intros Htag Hprefix. apply prefixb_app in Hprefix as (post & Hline).
  rewrite <- app_assoc in Hline. cbn [app] in Hline.
  unfold Py.split_once, Py.index. rewrite Hline.
  assert (Hgo : ∀ cur, Py.split_once_go sep cur (tag ++ sep :: post)
                       = [rev cur ++ tag; post]).
  { clear Hline. induction tag as [|c tag IH]; intros cur; cbn.
    - rewrite bool_decide_eq_true_2 by reflexivity. rewrite app_nil_r.
      reflexivity.
    - rewrite not_elem_of_cons in Htag. destruct Htag as [Hc Htag].
      rewrite bool_decide_eq_false_2 by congruence.
      rewrite IH by exact Htag. cbn. rewrite <- app_assoc. reflexivity. }
  rewrite Hgo. cbn. eauto.
Qed.

Lemma lstrip_rstrip_fixed (p : ascii → bool) (l : list ascii) :
  Py.lstrip_by p (Py.rstrip_by p (Py.lstrip_by p l))
  = Py.rstrip_by p (Py.lstrip_by p l).
Proof.
  apply lstrip_by_fixed.
  pose proof (lstrip_by_head p l) as Hhead.
  destruct (rstrip_by_prefix p (Py.lstrip_by p l)) as (post & Hl & _).
  destruct (Py.rstrip_by p (Py.lstrip_by p l)) as [|c m]; [exact I |].
  rewrite Hl in Hhead. exact Hhead.
Qed.

Lemma strip_idemp (s : string) : Py.strip (Py.strip s) = Py.strip s.
Proof.
  unfold Py.strip, Py.strip_by. rewrite chars_text.
  rewrite lstrip_rstrip_fixed, rstrip_by_idemp. reflexivity.
Qed.

Lemma elem_of_strip (s : string) (c : ascii) :
  c ∈ Py.chars (Py.strip s) → c ∈ Py.chars s.
Proof.
  unfold Py.strip, Py.strip_by. rewrite chars_text. intros Hc.
  eapply elem_of_lstrip_by, elem_of_rstrip_by, Hc.
Qed.

Lemma kpi_list_clean (field k : string) :
  ":"%char ∉ Py.chars field → "010"%char ∉ Py.chars field →
  k ∈ kpi_list field → Shape.clean_id k.
Proof.
  intros Hcolon Hline Hk. unfold kpi_list in Hk.
  apply list_elem_of_fmap in Hk as (x & -> & Hx).
  apply list_elem_of_filter in Hx as [Hne Hx].
  assert (Hsub : ∀ c, c ∈ Py.chars x → c ∈ Py.chars field).
  { intros c Hc. unfold Py.split in Hx.
    apply list_elem_of_fmap in Hx as (piece & -> & Hpiece).
    rewrite chars_text in Hc.
    assert (Hgo : ∀ cur l piece, piece ∈ Py.split_go "," cur l →
                                 ∀ y, y ∈ piece → y ∈ cur ∨ y ∈ l).
    { clear. intros cur l. revert cur.
      induction l as [|c l IH]; intros cur piece Hpiece y Hy; cbn in Hpiece.
      - apply list_elem_of_singleton in Hpiece as ->. left.
        apply list_elem_of_In, in_rev, list_elem_of_In, Hy.
      - case_bool_decide.
        + apply elem_of_cons in Hpiece as [-> | Hpiece].
          * left. apply list_elem_of_In, in_rev, list_elem_of_In, Hy.
          * destruct (IH _ _ Hpiece y Hy) as [H' | H'];
              [inversion H' | right; right; exact H'].
        + destruct (IH _ _ Hpiece y Hy) as [H' | H'].
          * apply elem_of_cons in H' as [-> | H'];
              [right; left | left; exact H'].
          * right. right. exact H'. }
    destruct (Hgo _ _ _ Hpiece c Hc) as [H' | H']; [inversion H' | exact H']. }
  split_and!.
  - exact Hne.
  - apply strip_idemp.
  - intros Hc. apply elem_of_strip in Hc. revert Hc.
    apply (split_pieces "," field x Hx).
  - intros Hc. apply Hcolon, Hsub, elem_of_strip, Hc.
  - intros Hc. apply Hline, Hsub, elem_of_strip, Hc.
Qed.

Section Parse.
Variable float : string → option Q.

(** One turn of the loop returns, and keeps the KPI lists clean. *)
Lemma parse_line_step (result : Assessment) (line : string) :
  "010"%char ∉ Py.chars line → Shape.clean_lists result →
  ∃ result', parse_line float result line = Some result'
             ∧ Shape.clean_lists result'.
Proof.
  intros Hline Hclean. unfold parse_line. cbv zeta.
  assert (Hstripped : "010"%char ∉ Py.chars (Py.strip line))
    by (intros Hc; apply Hline, elem_of_strip, Hc).
  set (stripped := Py.strip line) in *. clearbody stripped.
  unfold Py.startswith.
  repeat match goal with
  | |- context [if Py.prefixb ?p ?l then _ else _] =>
      let H := fresh "Htag" in destruct (Py.prefixb p l) eqn:H
  end.
  - destruct (_ ≫= _); eauto.
  - destruct (tagged_line_field ":" (Py.chars "ALIGNMENT_LEVEL") stripped)
      as (field & -> & _); [vm_compute; set_solver | exact Htag0 |].
    cbn [mbind option_bind]. eexists. split; [reflexivity |]. exact Hclean.
  - destruct (tagged_line_field ":" (Py.chars "COVERED_KPIS") stripped)
      as (field & -> & Hfield); [vm_compute; set_solver | exact Htag1 |].
    cbn [mbind option_bind]. eexists. split; [reflexivity |].
    intros k [Hk | Hk]; cbn in Hk; [| apply Hclean; right; exact Hk].
    apply (kpi_list_clean field); [| | exact Hk].
    + intros Hc. apply Hfield in Hc as [_ Hc]. congruence.
    + intros Hc. apply Hfield in Hc as [Hc _]. contradiction.
  - destruct (tagged_line_field ":" (Py.chars "UNCOVERED_KPIS") stripped)
      as (field & -> & Hfield); [vm_compute; set_solver | exact Htag2 |].
    cbn [mbind option_bind]. eexists. split; [reflexivity |].
    intros k [Hk | Hk]; cbn in Hk; [apply Hclean; left; exact Hk |].
    apply (kpi_list_clean field); [| | exact Hk].
    + intros Hc. apply Hfield in Hc as [_ Hc]. congruence.
    + intros Hc. apply Hfield in Hc as [Hc _]. contradiction.
  - destruct (tagged_line_rest ":" (Py.chars "JUSTIFICATION") stripped)
      as (field & ->); [vm_compute; set_solver | exact Htag3 |].
    cbn [mbind option_bind]. eexists. split; [reflexivity |]. exact Hclean.
  - destruct (_ ≫= _); eauto.
  - eauto.
Qed.

Lemma parse_lines (lines : list string) (result : Assessment) :
  Forall (λ line, "010"%char ∉ Py.chars line) lines → Shape.clean_lists result →
  ∃ result',
    foldl (λ result line, result ← result; parse_line float result line)
          (Some result) lines = Some result'
    ∧ Shape.clean_lists result'.
Proof.
  revert result. induction lines as [|line rest IH]; intros result Hall Hclean.
  - exists result. split; [reflexivity | exact Hclean].
  - apply Forall_cons in Hall as [Hline Hrest]. cbn [foldl mbind option_bind].
    destruct (parse_line_step result line Hline Hclean) as (r & -> & Hr).
    apply IH; assumption.
Qed.

(** X2. [_parse_agent_output] returns on every answer, whatever [float]
    accepts: the unguarded [line.split(":")[1]] cannot fail on a line that
    starts with its tag.  Every KPI id of the two lists it returns is not
    empty, has no white space at its ends, and holds no comma, colon or
    line break. *)
Theorem parse_agent_output_returns (output : string) :
  ∃ parsed,
    _parse_agent_output float output = Some parsed
    ∧ ∀ k, k ∈ a_covered_kpis parsed ∨ k ∈ a_uncovered_kpis parsed →
           k ≠ EmptyString ∧ Py.strip k = k
           ∧ (","%char ∉ Py.chars k) ∧ (":"%char ∉ Py.chars k)
           ∧ ("010"%char ∉ Py.chars k).
Proof.
  unfold _parse_agent_output.
  destruct (parse_lines (Py.split "010" (Py.strip output)) default_assessment)
    as (parsed & Hparsed & Hclean).
  - apply Forall_forall. intros line. apply split_pieces.
  - intros k [Hk | Hk]; inversion Hk.
  - exists parsed. split; [exact Hparsed | exact Hclean].
Qed.

End Parse.

(** X3. When the agent raises for an objective, [run_sync_assessment]
    answers with the score 0.5 and no KPI list, so the agent score of the
    objective is 0.5 and its combined score is 0.4 plus a fifth of the
    ontology score; with an ontology score in the unit interval the
    improvement agent is run and the level is Weak or Partial, never
    Missing and never Full. *)
Theorem sync_failure_scores
    (float : string → option Q) (invoke : string → option (list string))
    (ontology_alignment : gmap string Alignment.OntologyRecord)
    (obj_id : string)
    (Hfail : invoke obj_id = None)
    (Honto : 0 <= ontology_score ontology_alignment obj_id <= 1) :
  let answer := run_sync_assessment float invoke obj_id in
  let entry := assess_objective ontology_alignment obj_id answer in
  s_covered_kpis answer = None
  ∧ agent_score answer == 0.5
  ∧ e_combined_score entry
    == 0.4 + 0.2 * ontology_score ontology_alignment obj_id
  ∧ e_improvements entry = true
  ∧ (s_alignment_level (e_sync_assessment entry) = Some "Weak"%string
     ∨ s_alignment_level (e_sync_assessment entry) = Some "Partial"%string).
Proof.
  cbv zeta. unfold run_sync_assessment. rewrite Hfail.
  assert (Hagent : agent_score error_answer == 0.5) by reflexivity.
  assert (Hcombined :
            combined_score ontology_alignment obj_id error_answer
            == 0.4 + 0.2 * ontology_score ontology_alignment obj_id).
  { unfold combined_score. rewrite Hagent. lra. }
  split_and!.
  - reflexivity.
  - exact Hagent.
  - exact Hcombined.
  - cbn [assess_objective e_improvements].
    apply CompareFacts.lt_true. rewrite Hcombined. lra.
  - cbn [assess_objective e_sync_assessment s_alignment_level].
    unfold alignment_level.
    destruct (Py.ge _ 0.8) eqn:E1;
      [apply CompareFacts.ge_true in E1; rewrite Hcombined in E1; lra |].
    destruct (Py.ge _ 0.6) eqn:E2; [right; reflexivity |].
    destruct (Py.ge _ 0.4) eqn:E3; [left; reflexivity |].
    apply CompareFacts.ge_false in E3. rewrite Hcombined in E3. lra.
Qed.

Lemma sync_failure_scores_witness :
  e_improvements
    (assess_objective Examples.ontology_half "SO1"
       (run_sync_assessment (λ _, None) (λ _, None) "SO1")) = true.
Proof.
  refine (proj1 (proj2 (proj2 (proj2
            (sync_failure_scores (λ _, None) (λ _, None)
               Examples.ontology_half "SO1" eq_refl _))))).
  vm_compute. split; discriminate.
Defined.

End SyncAgentFacts.

Module RetrievalMetricsFacts.
Import Metrics RoundFacts.

Lemma ratio_unit (a b : Z) :
  (0 <= a <= b)%Z → (0 < b)%Z → 0 <= inject_Z a / inject_Z b <= 1.
Proof.
  intros [Ha Hab] Hb.
  assert (Hbq : 0 < inject_Z b)
    by (change 0 with (inject_Z 0); rewrite <- Zlt_Qlt; exact Hb).
  assert (Haq : 0 <= inject_Z a)
    by (change 0 with (inject_Z 0); rewrite <- Zle_Qle; exact Ha).
  rewrite Zle_Qle in Hab.
  split; [apply Qle_shift_div_l | apply Qle_shift_div_r]; lra.
Qed.

Lemma size_pos_of_non_empty (X : gset string) :
  X ≠ ∅ → (0 < Z.of_nat (size X))%Z.
Proof.
  intros HX. assert (size X ≠ 0%nat).
  { rewrite size_non_empty_iff. intros E. apply HX.
    apply leibniz_equiv, E. }
  lia.
Qed.

(** The harmonic mean of two numbers lies between them. *)
Lemma harmonic_between (p r : Q) :
  0 <= p → 0 <= r → 0 < p + r →
  Qmin p r <= 2 * p * r / (p + r) <= Qmax p r.
Proof.
  intros Hp Hr Hpr.
  destruct (Qlt_le_dec p r) as [H|H].
  - rewrite (Q.min_l p r), (Q.max_r p r) by lra. split.
    + apply Qle_shift_div_l; [exact Hpr |]. nra.
    + apply Qle_shift_div_r; [exact Hpr |]. nra.
  - rewrite (Q.min_r p r), (Q.max_l p r) by lra. split.
    + apply Qle_shift_div_l; [exact Hpr |]. nra.
    + apply Qle_shift_div_r; [exact Hpr |]. nra.
Qed.

(** X4. The three figures of [compute_retrieval_metrics] lie in the unit
    interval, and the F1 figure lies between precision and recall; an
    empty list of relevant items gives three zeros. *)
Theorem retrieval_metrics_bounds
    (retrieved_actions relevant_actions : list string) (k : Z) :
  let m := compute_retrieval_metrics retrieved_actions relevant_actions k in
  0 <= precision_at_k m <= 1
  ∧ 0 <= recall_at_k m <= 1
  ∧ 0 <= f1_at_k m <= 1
  ∧ Qmin (precision_at_k m) (recall_at_k m) <= f1_at_k m
  ∧ f1_at_k m <= Qmax (precision_at_k m) (recall_at_k m)
  ∧ (relevant_actions = [] →
     precision_at_k m = 0 ∧ recall_at_k m = 0 ∧ f1_at_k m = 0).
Proof.
  cbv zeta. unfold compute_retrieval_metrics. cbv zeta.
  set (retrieved_set := list_to_set (Py.slice_to k retrieved_actions)
                        : gset string).
  set (relevant_set := list_to_set relevant_actions : gset string).
  destruct (decide (relevant_set = ∅)) as [Hempty | Hrelevant].
  { rewrite (bool_decide_eq_true_2 _ Hempty).
    cbn [precision_at_k recall_at_k f1_at_k].
    change (Qmin 0 0) with 0. change (Qmax 0 0) with 0.
    repeat split; lra. }
  rewrite !(bool_decide_eq_false_2 _ Hrelevant).
  cbn [precision_at_k recall_at_k f1_at_k].
  set (tp := Z.of_nat (size (retrieved_set ∩ relevant_set))).
  assert (Htp0 : (0 <= tp)%Z) by (unfold tp; lia).
  assert (Htp1 : (tp <= Z.of_nat (size retrieved_set))%Z).
  { unfold tp. apply inj_le, subseteq_size. set_solver. }
  assert (Htp2 : (tp <= Z.of_nat (size relevant_set))%Z).
  { unfold tp. apply inj_le, subseteq_size. set_solver. }
  set (precision := if bool_decide (retrieved_set = ∅) then 0
                    else inject_Z tp / inject_Z (Z.of_nat (size retrieved_set))).
  set (recall := inject_Z tp / inject_Z (Z.of_nat (size relevant_set))).
  assert (Hp : 0 <= precision <= 1).
  { unfold precision. case_bool_decide as E; [lra |].
    apply ratio_unit; [lia | apply size_pos_of_non_empty, E]. }
  assert (Hr : 0 <= recall <= 1).
  { apply ratio_unit; [lia | apply size_pos_of_non_empty, Hrelevant]. }
  set (f1 := if Py.gt (precision + recall) 0
             then 2 * precision * recall / (precision + recall) else 0).
  assert (Hf : Qmin precision recall <= f1 <= Qmax precision recall).
  { unfold f1, Py.gt. destruct (Qle_bool (precision + recall) 0) eqn:E.
    - apply Qle_bool_iff in E. cbn [negb].
      assert (precision == 0) as Hp0 by lra.
      assert (recall == 0) as Hr0 by lra.
      rewrite Q.min_l, Q.max_l by lra. lra.
    - apply CompareFacts.qle_bool_false in E. cbn [negb].
      apply harmonic_between; lra. }
  assert (Hmin : 0 <= Qmin precision recall)
    by (apply Q.min_glb; lra).
  assert (Hmax : Qmax precision recall <= 1)
    by (apply Q.max_lub; lra).
  split; [apply PyFacts.round_unit, Hp |].
  split; [apply PyFacts.round_unit, Hr |].
  split; [apply PyFacts.round_unit; lra |].
  split; [rewrite round_min; apply round_mono; lra |].
  split; [rewrite round_max; apply round_mono; lra |].
  intros ->. contradiction Hrelevant. reflexivity.
Qed.

Lemma reciprocal_rank_unit (relevant_set : gset string) (i : nat)
    (retrieved : list string) :
  0 <= reciprocal_rank relevant_set i retrieved <= 1.
Proof.
  revert i. induction retrieved as [|item rest IH]; intros i; cbn.
  - lra.
  - case_bool_decide; [| apply IH].
    change 1 with (inject_Z 1) at 1.
    apply ratio_unit; lia.
Qed.

Lemma reciprocal_rank_first (relevant_set : gset string)
    (item : string) (rest : list string) :
  item ∈ relevant_set → reciprocal_rank relevant_set 0 (item :: rest) == 1.
Proof.
  intros Hin. cbn. rewrite bool_decide_eq_true_2 by exact Hin. reflexivity.
Qed.

Lemma reciprocal_rank_none (relevant_set : gset string) (i : nat)
    (retrieved : list string) :
  (∀ item, item ∈ retrieved → item ∉ relevant_set) →
  reciprocal_rank relevant_set i retrieved = 0.
Proof.
  revert i. induction retrieved as [|item rest IH]; intros i Hnone; cbn.
  - reflexivity.
  - rewrite bool_decide_eq_false_2 by (apply Hnone; left).
    apply IH. intros x Hx. apply Hnone. right. exact Hx.
Qed.

(** X5. The mean reciprocal rank lies in the unit interval; it is 0 when
    there is no query, the queries without a list of relevant items (and
    the lists without query) are left out, and it is 1 when the first
    item of every query is relevant. *)
Theorem mrr_bounds (ranked_results relevant_items : list (list string)) :
  0 <= compute_mrr ranked_results relevant_items <= 1
  ∧ compute_mrr [] relevant_items = 0
  ∧ compute_mrr ranked_results [] = 0
  ∧ (let n := min (length ranked_results) (length relevant_items) in
     compute_mrr ranked_results relevant_items
     = compute_mrr (take n ranked_results) (take n relevant_items))
  ∧ (ranked_results ≠ [] →
     length ranked_results = length relevant_items →
     (∀ i retrieved relevant,
        ranked_results !! i = Some retrieved →
        relevant_items !! i = Some relevant →
        ∃ item, head retrieved = Some item ∧ item ∈ relevant) →
     compute_mrr ranked_results relevant_items == 1).
Proof.
  split; [| split; [| split; [| split]]].
  - unfold compute_mrr. cbv zeta.
    destruct (zip_with _ _ _) as [|rr rrs] eqn:E; [lra |].
    apply PyFacts.round_unit, mean_bounds.
    rewrite <- E. clear E rr rrs.
    revert relevant_items.
    induction ranked_results as [|retrieved rest IH];
      intros [|relevant relevant_items]; cbn; try constructor.
    + apply reciprocal_rank_unit.
    + apply IH.
  - reflexivity.
  - unfold compute_mrr. cbv zeta. destruct ranked_results; reflexivity.
  - cbv zeta. unfold compute_mrr. cbv zeta.
    replace (zip_with _ (take _ ranked_results) (take _ relevant_items))
      with (zip_with (λ retrieved relevant,
                        reciprocal_rank (list_to_set relevant) 0 retrieved)
                     ranked_results relevant_items); [reflexivity |].
    revert relevant_items.
    induction ranked_results as [|retrieved rest IH];
      intros [|relevant relevant_items]; cbn; try reflexivity.
    f_equal. apply IH.
  - intros Hne Hlen Hfirst. unfold compute_mrr. cbv zeta.
    assert (Hones :
      Forall (λ rr, 1 <= rr <= 1)
        (zip_with (λ retrieved relevant,
                     reciprocal_rank (list_to_set relevant) 0 retrieved)
                  ranked_results relevant_items)).
    { clear Hne. revert relevant_items Hlen Hfirst.
      induction ranked_results as [|retrieved rest IH];
        intros [|relevant relevant_items] Hlen Hfirst; cbn;
        try constructor; try discriminate.
      - destruct (Hfirst 0%nat retrieved relevant eq_refl eq_refl)
          as (item & Hhead & Hin).
        destruct retrieved as [|item' retrieved']; [discriminate |].
        injection Hhead as ->.
        rewrite reciprocal_rank_first by (apply elem_of_list_to_set, Hin).
        lra.
      - apply IH; [cbn in Hlen; lia |].
        intros i. apply (Hfirst (S i)). }
    destruct (zip_with _ _ _) as [|rr rrs] eqn:E.
    { destruct ranked_results; [congruence |].
      destruct relevant_items; [discriminate | discriminate]. }
    pose proof (mean_bounds 1 1 rr rrs Hones) as Hmean.
    rewrite (CompareFacts.round_proper _ 1 4) by lra.
    reflexivity.
Qed.

Lemma mrr_bounds_witness :
  compute_mrr [["A1.3"; "A1.8"]; ["A2.1"]]%string
              [["A1.3"]; ["A2.1"; "A2.3"]]%string == 1.
Proof.
  refine (proj2 (proj2 (proj2 (proj2
            (mrr_bounds [["A1.3"; "A1.8"]; ["A2.1"]]%string
                        [["A1.3"]; ["A2.1"; "A2.3"]]%string)))) _ _ _).
  - discriminate.
  - reflexivity.
  - intros [|[|i]] retrieved relevant [= <-] [= <-];
      eexists; (split; [reflexivity | set_solver]).
Defined.

End RetrievalMetricsFacts.

Module ChunkingQualityFacts.
Import Metrics RoundFacts.

Lemma add_length_keys (strategy : Chunking.meta) (n : Z)
    (strategies : list (Chunking.meta * list Z)) (k : Chunking.meta) :
  k ∈ fst <$> add_length strategy n strategies
  ↔ k = strategy ∨ k ∈ fst <$> strategies.
Proof.
  induction strategies as [|[k' lens] rest IH]; cbn.
  - rewrite list_elem_of_singleton. set_solver.
  - case_bool_decide as E; cbn; rewrite !elem_of_cons.
    + subst k'. tauto.
    + rewrite IH. tauto.
Qed.

Lemma add_length_invariant (strategy : Chunking.meta) (n : Z)
    (strategies : list (Chunking.meta * list Z)) :
  NoDup (fst <$> strategies) →
  Forall (λ kv, kv.2 ≠ []) strategies →
  NoDup (fst <$> add_length strategy n strategies)
  ∧ Forall (λ kv, kv.2 ≠ []) (add_length strategy n strategies)
  ∧ Shape.entries (add_length strategy n strategies) = (Shape.entries strategies + 1)%Z.
Proof.
  unfold Shape.entries.
  induction strategies as [|[k lens] rest IH]; intros Hnodup Hne; cbn.
  - split_and!; [apply NoDup_singleton | repeat constructor; discriminate |].
    reflexivity.
  - apply NoDup_cons in Hnodup as [Hk Hnodup].
    apply Forall_cons in Hne as [Hlens Hne].
    case_bool_decide as E; cbn.
    + split_and!.
      * apply NoDup_cons. split; assumption.
      * constructor; [| exact Hne]. cbn. destruct lens; discriminate.
      * unfold Py.len. rewrite length_app. cbn [length]. lia.
    + destruct (IH Hnodup Hne) as (IH1 & IH2 & IH3). split_and!.
      * apply NoDup_cons. split; [| exact IH1].
        rewrite add_length_keys. intros [-> | H]; contradiction.
      * constructor; assumption.
      * rewrite IH3. lia.
Qed.

Lemma fold_add_length (chunks : list Chunking.Chunk)
    (strategies : list (Chunking.meta * list Z)) :
  NoDup (fst <$> strategies) →
  Forall (λ kv, kv.2 ≠ []) strategies →
  let result :=
    foldl (λ strategies c,
             add_length (chunk_strategy_of c) (chunk_length c) strategies)
          strategies chunks in
  NoDup (fst <$> result)
  ∧ Forall (λ kv, kv.2 ≠ []) result
  ∧ Shape.entries result = (Shape.entries strategies + Py.len chunks)%Z.
Proof.
  revert strategies. induction chunks as [|c rest IH];
    intros strategies Hnodup Hne; cbn [foldl]; cbv zeta.
  - split_and!; [assumption | assumption |]. unfold Py.len. cbn. lia.
  - destruct (add_length_invariant (chunk_strategy_of c) (chunk_length c)
                strategies Hnodup Hne) as (H1 & H2 & H3).
    destruct (IH _ H1 H2) as (IH1 & IH2 & IH3). cbv zeta in IH1, IH2, IH3.
    split_and!; [assumption | assumption |].
    rewrite IH3, H3. unfold Py.len. cbn [length]. lia.
Qed.

Lemma min_of_le (x : Z) (l : list Z) :
  (Py.min_of x l <= x)%Z ∧ Forall (λ y, (Py.min_of x l <= y)%Z) l.
Proof.
  unfold Py.min_of. revert x. induction l as [|y l IH]; intros x; cbn.
  - split; [lia | constructor].
  - destruct (IH (Z.min x y)) as [H1 H2]. split; [lia |].
    constructor; [lia | exact H2].
Qed.

Lemma max_of_ge (x : Z) (l : list Z) :
  (x <= Py.max_of x l)%Z ∧ Forall (λ y, (y <= Py.max_of x l)%Z) l.
Proof.
  unfold Py.max_of. revert x. induction l as [|y l IH]; intros x; cbn.
  - split; [lia | constructor].
  - destruct (IH (Z.max x y)) as [H1 H2]. split; [lia |].
    constructor; [lia | exact H2].
Qed.

(** X6. In the report of [compute_chunking_quality] the strategies are
    pairwise distinct, each counts at least one chunk and their counts add
    up to the number of chunks; when there is a chunk, the average length
    lies between the minimum and the maximum. *)
Theorem chunking_quality_counts
    (np_std : list Z → Q) (chunks : list Chunking.Chunk) :
  let quality := compute_chunking_quality np_std chunks in
  NoDup (fst <$> per_strategy quality)
  ∧ (∀ strategy sq, (strategy, sq) ∈ per_strategy quality →
                    (1 <= sq_count sq)%Z)
  ∧ foldr Z.add 0%Z ((λ kv, sq_count kv.2) <$> per_strategy quality)
    = total_chunks quality
  ∧ (min_length quality <= max_length quality)%Z
  ∧ (chunks ≠ [] →
     inject_Z (min_length quality) <= avg_length quality
     ∧ avg_length quality <= inject_Z (max_length quality)).
Proof.
  cbv zeta. unfold compute_chunking_quality. cbv zeta.
  cbn [per_strategy total_chunks min_length max_length avg_length].
  destruct (fold_add_length chunks [] (NoDup_nil_2) (Forall_nil_2 _))
    as (Hnodup & Hne & Hsum). cbv zeta in Hnodup, Hne, Hsum.
  set (strategies := foldl _ [] chunks) in *. clearbody strategies.
  split; [| split; [| split; [| split]]].
  - rewrite <- list_fmap_compose.
    erewrite list_fmap_ext; [exact Hnodup |].
    intros i [k lens] _. reflexivity.
  - intros strategy sq Hin.
    apply list_elem_of_fmap in Hin as ([k lens] & [= -> ->] & Hin).
    rewrite Forall_forall in Hne. specialize (Hne _ Hin). cbn in Hne.
    cbn. unfold Py.len. destruct lens; [congruence | cbn; lia].
  - rewrite <- list_fmap_compose.
    erewrite list_fmap_ext; [exact Hsum |].
    intros i [k lens] _. reflexivity.
  - destruct chunks as [|c rest]; cbn [fmap list_fmap]; [lia |].
    pose proof (min_of_le (chunk_length c) (chunk_length <$> rest)) as [H1 _].
    pose proof (max_of_ge (chunk_length c) (chunk_length <$> rest)) as [H2 _].
    lia.
  - intros Hchunks. destruct chunks as [|c rest]; [congruence |].
    cbn [fmap list_fmap].
    set (x := chunk_length c).
    destruct (min_of_le x (chunk_length <$> rest)) as [Hmin Hmins].
    destruct (max_of_ge x (chunk_length <$> rest)) as [Hmax Hmaxs].
    apply round_between.
    apply (mean_bounds _ _ (inject_Z x) (inject_Z <$> (chunk_length <$> rest))).
    constructor.
    + rewrite <- !Zle_Qle. lia.
    + apply Forall_fmap, Forall_forall. intros y Hy.
      rewrite Forall_forall in Hmins, Hmaxs.
      specialize (Hmins y Hy). specialize (Hmaxs y Hy). cbn.
      rewrite <- !Zle_Qle. lia.
Qed.

End ChunkingQualityFacts.

Module GroundTruthFacts.
Import GroundTruth StringFacts.

Lemma prefixb_prefix (p post : list ascii) : Py.prefixb p (p ++ post) = true.
Proof.
  induction p as [|a p IH]; cbn; [reflexivity |].
  rewrite bool_decide_eq_true_2 by reflexivity. exact IH.
Qed.

Lemma prefixb_split (p l : list ascii) :
  Py.prefixb p l = true → ∃ post, l = p ++ post.
Proof.
  revert l. induction p as [|a p IH]; intros l; cbn.
  - intros _. exists l. reflexivity.
  - destruct l as [|b l]; [discriminate |].
    rewrite andb_true_iff, bool_decide_eq_true.
    intros [-> H]. destruct (IH _ H) as (post & ->). exists post. reflexivity.
Qed.

(** The text before the first separator. *)
Lemma before_sep_app (sep : ascii) (l r : list ascii) :
  sep ∉ l → Py.before_sep [sep] (l ++ sep :: r) = l.
Proof.
  induction l as [|c l IH]; intros Hl; cbn.
  - rewrite bool_decide_eq_true_2 by reflexivity. reflexivity.
  - rewrite not_elem_of_cons in Hl. destruct Hl as [Hc Hl].
    rewrite bool_decide_eq_false_2 by congruence. cbn.
    f_equal. apply IH, Hl.
Qed.

Lemma first_sep (sep : ascii) (l : list ascii) :
  sep ∈ l → ∃ a b, l = a ++ sep :: b ∧ sep ∉ a.
Proof.
  induction l as [|c l IH]; intros Hin; [inversion Hin |].
  destruct (decide (c = sep)) as [-> | Hc].
  - exists [], l. split; [reflexivity | apply not_elem_of_nil].
  - apply elem_of_cons in Hin as [-> | Hin]; [congruence |].
    destruct (IH Hin) as (a & b & -> & Ha).
    exists (c :: a), b. split; [reflexivity |].
    rewrite not_elem_of_cons. split; [congruence | exact Ha].
Qed.

Lemma seps_app (sep : ascii) (l r : list ascii) :
  Shape.seps sep (l ++ r) = (Shape.seps sep l + Shape.seps sep r)%nat.
Proof. unfold Shape.seps. rewrite filter_app, length_app. reflexivity. Qed.

Lemma seps_cons (sep : ascii) (r : list ascii) :
  Shape.seps sep (sep :: r) = S (Shape.seps sep r).
Proof. unfold Shape.seps. rewrite filter_cons_True by reflexivity. reflexivity. Qed.

(** An id with a single separator starts with [objective_id + sep] only
    when [objective_id] is the text before the separator. *)
Lemma startswith_head (objective_id key : string) :
  Shape.seps "_" (Py.chars key) = 1%nat →
  Py.startswith key (objective_id +:+ "_") = true →
  objective_id = Py.split_head "_" key.
Proof.
  unfold Py.startswith, Py.split_head. intros Hone Hprefix.
  apply prefixb_split in Hprefix as (post & Hkey).
  rewrite chars_app in Hkey. cbn [Py.chars String.list_ascii_of_string] in Hkey.
  rewrite <- app_assoc in Hkey. cbn [app] in Hkey.
  destruct (decide ("_"%char ∈ Py.chars objective_id)) as [Hin | Hout].
  - exfalso. rewrite Hkey, seps_app, seps_cons in Hone.
    destruct (first_sep _ _ Hin) as (a & b & Hid & _).
    rewrite Hid, seps_app, seps_cons in Hone. lia.
  - rewrite Hkey. cbn [Py.chars String.list_ascii_of_string].
    rewrite before_sep_app by exact Hout. rewrite text_chars. reflexivity.
Qed.

Lemma head_startswith (key : string) :
  "_"%char ∈ Py.chars key →
  Py.startswith key (Py.split_head "_" key +:+ "_") = true.
Proof.
  unfold Py.startswith, Py.split_head. intros Hin.
  destruct (first_sep _ _ Hin) as (a & b & Hkey & Ha).
  rewrite chars_app, Hkey. cbn [Py.chars String.list_ascii_of_string].
  rewrite before_sep_app by exact Ha. rewrite chars_text.
  change (a ++ "_"%char :: b) with (a ++ ["_"%char] ++ b).
  rewrite app_assoc. apply prefixb_prefix.
Qed.

Lemma list_filter_none {A} (P : A → Prop) `{∀ x, Decision (P x)}
    (l : list A) :
  Forall (λ x, ¬ P x) l → filter P l = [].
Proof.
  induction l as [|x l IH]; intros Hall; [reflexivity |].
  apply Forall_cons in Hall as [Hx Hl].
  rewrite filter_cons_False by exact Hx. apply IH, Hl.
Qed.

(** The four labels count every KPI once. *)
Lemma count_coverage_total (kpis : list (string * GroundTruthEntry)) :
  Forall (λ kv, gt_coverage kv.2 ∈ ["Full"; "Partial"; "Weak"; "Missing"]%string)
         kpis →
  (count_coverage "Full" kpis + count_coverage "Partial" kpis
   + count_coverage "Weak" kpis + count_coverage "Missing" kpis
   = Py.len kpis)%Z.
Proof.
  unfold count_coverage, Py.len.
  induction kpis as [|kv rest IH]; intros Hall; [reflexivity |].
  apply Forall_cons in Hall as [Hkv Hrest]. specialize (IH Hrest).
  rewrite !filter_cons. cbn [length].
  set_unfold in Hkv. destruct Hkv as [E | [E | [E | [E | []]]]]; rewrite E;
    repeat case_decide; try congruence; cbn [length]; lia.
Qed.

Lemma count_coverage_nonneg (label : string)
    (kpis : list (string * GroundTruthEntry)) :
  (0 <= count_coverage label kpis)%Z.
Proof. unfold count_coverage, Py.len. lia. Qed.

Lemma ground_truth_labels :
  Forall (λ kv, gt_coverage kv.2 ∈ ["Full"; "Partial"; "Weak"; "Missing"]%string)
         GROUND_TRUTH.
Proof. unfold GROUND_TRUTH. repeat constructor. Qed.

Lemma ground_truth_keys :
  Forall (λ kv, Shape.seps "_" (Py.chars kv.1) = 1%nat) GROUND_TRUTH.
Proof. unfold GROUND_TRUTH. repeat constructor. Qed.

(** The KPIs selected for an objective id are those whose id has it before
    the underscore. *)
Lemma ground_truth_selection (objective_id : string) :
  filter (λ kv, Py.startswith kv.1 (objective_id +:+ "_") = true) GROUND_TRUTH
  = filter (λ kv, objective_id = Py.split_head "_" kv.1) GROUND_TRUTH.
Proof.
  pose proof ground_truth_keys as Hkeys.
  induction GROUND_TRUTH as [|kv rest IH]; [reflexivity |].
  apply Forall_cons in Hkeys as [Hkv Hrest].
  rewrite !filter_cons, (IH Hrest).
  destruct (decide (objective_id = Py.split_head "_" kv.1)) as [E | E].
  - rewrite decide_True; [reflexivity |].
    rewrite E. apply head_startswith.
    destruct (decide ("_"%char ∈ Py.chars kv.1)) as [Hin | Hout];
      [exact Hin | exfalso].
    unfold Shape.seps in Hkv.
    assert (Hnil : filter (λ c, c = "_"%char) (Py.chars kv.1) = []).
    { clear Hkv. induction (Py.chars kv.1) as [|c l IHl]; [reflexivity |].
      rewrite not_elem_of_cons in Hout. destruct Hout as [Hc Hl].
      rewrite filter_cons_False by congruence. apply IHl, Hl. }
    rewrite Hnil in Hkv. discriminate.
  - rewrite decide_False; [reflexivity |].
    intros H. apply E. apply startswith_head; assumption.
Qed.

Lemma kpi_coverage_counts_total
    (objective_id : string) (action_map : option (gmap string string)) :
  cov_total_kpis (get_objective_kpi_coverage objective_id action_map)
  = (if bool_decide (objective_id
                     ∈ ["SO1"; "SO2"; "SO3"; "SO4"; "SO5"; "SO6"]%string)
     then 6 else 0)%Z.
Proof.
  unfold get_objective_kpi_coverage, get_objective_kpi_coverage_on.
  cbv zeta. cbn [cov_total_kpis].
  rewrite ground_truth_selection. case_bool_decide as Hid.
  - set_unfold in Hid.
    destruct Hid as [-> | [-> | [-> | [-> | [-> | [-> | []]]]]]];
      vm_compute; reflexivity.
  - replace (filter _ GROUND_TRUTH) with (@nil (string * GroundTruthEntry));
      [reflexivity |].
    symmetry. apply list_filter_none.
    apply Forall_forall. intros kv Hin Hkv. apply Hid.
    unfold GROUND_TRUTH in Hin. rewrite Hkv. clear Hkv Hid.
    repeat (apply elem_of_cons in Hin as [-> | Hin];
            [vm_compute; set_solver |]).
    inversion Hin.
Qed.

(** X7. For every objective id, the four coverage counts of
    [get_objective_kpi_coverage] add up to the number of KPIs and the
    coverage fraction lies in the unit interval; the ids SO1 to SO6 have
    six KPIs each and any other id has none, with fraction 0; without an
    action map, or with an empty one, no detail is listed, and otherwise
    there is one detail for each KPI. *)
Theorem kpi_coverage_counts
    (objective_id : string) (action_map : option (gmap string string)) :
  let c := get_objective_kpi_coverage objective_id action_map in
  (cov_full c + cov_partial c + cov_weak c + cov_missing c
   = cov_total_kpis c)%Z
  ∧ 0 <= cov_coverage_pct c <= 1
  ∧ cov_total_kpis c
    = (if bool_decide (objective_id
                       ∈ ["SO1"; "SO2"; "SO3"; "SO4"; "SO5"; "SO6"]%string)
       then 6 else 0)%Z
  ∧ (cov_total_kpis c = 0%Z → cov_coverage_pct c = 0)
  ∧ Py.len (cov_kpi_details c)
    = match action_map with
      | Some m => if bool_decide (m = ∅) then 0%Z else cov_total_kpis c
      | None => 0%Z
      end.
Proof.
  cbv zeta. unfold get_objective_kpi_coverage, get_objective_kpi_coverage_on.
  cbv zeta.
  cbn [cov_full cov_partial cov_weak cov_missing cov_total_kpis
       cov_coverage_pct cov_kpi_details].
  assert (Hlabels :
    Forall (λ kv, gt_coverage kv.2
                  ∈ ["Full"; "Partial"; "Weak"; "Missing"]%string)
      (filter (λ kv, Py.startswith kv.1 (objective_id +:+ "_") = true)
              GROUND_TRUTH)).
  { apply Forall_forall. intros kv Hin.
    apply list_elem_of_filter in Hin as [_ Hin].
    pose proof ground_truth_labels as H. rewrite Forall_forall in H.
    apply H, Hin. }
  pose proof (count_coverage_total _ Hlabels) as Hsum.
  assert (Htotal :
    Py.len (filter (λ kv, Py.startswith kv.1 (objective_id +:+ "_") = true)
                   GROUND_TRUTH)
    = (if bool_decide (objective_id
                       ∈ ["SO1"; "SO2"; "SO3"; "SO4"; "SO5"; "SO6"]%string)
       then 6 else 0)%Z).
  { exact (kpi_coverage_counts_total objective_id action_map). }
  set (kpis := filter _ GROUND_TRUTH) in *. clearbody kpis.
  pose proof (count_coverage_nonneg "Full" kpis) as Hf.
  pose proof (count_coverage_nonneg "Partial" kpis) as Hp.
  pose proof (count_coverage_nonneg "Weak" kpis) as Hw.
  pose proof (count_coverage_nonneg "Missing" kpis) as Hm.
  set (full := count_coverage "Full" kpis) in *.
  set (partial := count_coverage "Partial" kpis) in *.
  set (weak := count_coverage "Weak" kpis) in *.
  set (missing := count_coverage "Missing" kpis) in *.
  split; [exact Hsum |].
  split.
  { destruct (0 <? Py.len kpis)%Z eqn:Hpos; [| lra].
    apply Z.ltb_lt in Hpos.
    assert (Hn : 0 < inject_Z (Py.len kpis))
      by (change 0 with (inject_Z 0); rewrite <- Zlt_Qlt; exact Hpos).
    rewrite <- Hsum in *. rewrite !inject_Z_plus in *.
    rewrite Zle_Qle in Hf, Hp, Hw, Hm. change (inject_Z 0) with 0 in *.
    split; [apply Qle_shift_div_l | apply Qle_shift_div_r]; lra. }
  split; [exact Htotal |].
  split.
  { intros ->. reflexivity. }
  destruct action_map as [m|]; [| reflexivity].
  destruct (bool_decide (m = ∅)); [reflexivity |].
  unfold Py.len. rewrite length_fmap. reflexivity.
Qed.

End GroundTruthFacts.

Module OntologyToolFacts.
Import Schema Alignment GraphFacts AlignmentFacts.

Lemma mapM_Some_omap {A B} (f : A → option B) (l : list A) (k : list B) :
  mapM f l = Some k → k = omap f l.
Proof.
  revert k. induction l as [|x l IH]; intros k H; cbn in *.
  - injection H as <-. reflexivity.
  - destruct (f x) as [y|]; cbn in H; [| discriminate].
    destruct (mapM f l) as [k'|]; cbn in H; [| discriminate].
    injection H as <-. f_equal. apply IH. reflexivity.
Qed.

Lemma elem_of_mapM_node_int (l : list node) (values : list Z) (z : Z) :
  mapM node_int l = Some values → z ∈ values ↔ IntLiteral z ∈ l.
Proof.
  intros H. apply mapM_Some_omap in H as ->.
  rewrite list_elem_of_omap. split.
  - intros (n & Hn & Hz). apply node_int_Some in Hz as ->. exact Hn.
  - intros Hn. exists (IntLiteral z). split; [exact Hn | reflexivity].
Qed.

Lemma elem_of_concat_mapM {A B} (f : A → option (list B)) (l : list A)
    (k : list (list B)) (x : B) :
  mapM f l = Some k →
  x ∈ concat k ↔ ∃ a items, a ∈ l ∧ f a = Some items ∧ x ∈ items.
Proof.
  revert k. induction l as [|a l IH]; intros k H; cbn in H.
  - injection H as <-. cbn. split; [intros Hx; inversion Hx |].
    intros (a & items & Ha & _). inversion Ha.
  - destruct (f a) as [items|] eqn:Ea; cbn in H; [| discriminate].
    destruct (mapM f l) as [k'|]; cbn in H; [| discriminate].
    injection H as <-. cbn. rewrite elem_of_app, (IH k' eq_refl). split.
    + intros [Hx | (a' & items' & Ha' & Hf & Hx)].
      * exists a, items. split; [left | split; [exact Ea | exact Hx]].
      * exists a', items'. split; [right; exact Ha' | split; assumption].
    + intros (a' & items' & Ha' & Hf & Hx).
      apply elem_of_cons in Ha' as [-> | Ha'].
      * left. rewrite Ea in Hf. injection Hf as <-. exact Hx.
      * right. exists a', items'. split; [exact Ha' | split; assumption].
Qed.

(** The unguarded [int(prog)] of a loop over the supporting actions does
    not raise exactly when every progress value is an integer. *)
Lemma progress_loop_returns {B : Type} (g : Graph) (obj_id : string)
    (body : node → list Z → B) :
  is_Some (mapM (λ action,
                   values ← mapM node_int
                               (objects g action (ISPS "hasProgress"));
                   Some (body action values))
                (subjects g (ISPS "supportsObjective") (ISPS obj_id)))
  ↔ Spec.integer_progress g obj_id.
Proof.
  rewrite mapM_is_Some, Forall_forall. unfold Spec.integer_progress. split.
  - intros H a p Ha Hp.
    apply elem_of_A, elem_of_subjects in Ha. specialize (H a Ha).
    unfold compose in H. destruct H as [y Hy]. apply bind_Some in Hy as (values & E & _).
    assert (Hall : is_Some (mapM node_int (objects g a (ISPS "hasProgress"))))
      by (rewrite E; eauto).
    rewrite mapM_is_Some, Forall_forall in Hall.
    apply Hall, elem_of_objects, Hp.
  - intros H a Ha.
    assert (Hall : is_Some (mapM node_int (objects g a (ISPS "hasProgress")))).
    { rewrite mapM_is_Some, Forall_forall. intros p Hp.
      apply (H a p); [apply elem_of_A, elem_of_subjects, Ha |].
      apply elem_of_objects, Hp. }
    destruct Hall as [values E]. unfold compose. rewrite E. cbn. eauto.
Qed.

Lemma identify_gaps_returns (g : Graph) (obj_id : string) :
  is_Some (identify_gaps g obj_id) ↔ Spec.integer_progress g obj_id.
Proof.
  rewrite <- (progress_loop_returns g obj_id
    (λ action values,
       values ≫=
         (λ progress,
            if (progress <? 25)%Z
            then [LowProgress (local_name action) (Shape.title_of g action)
                              progress]
            else []))).
  unfold identify_gaps. cbv zeta. unfold Shape.title_of.
  destruct (mapM _ _) as [low|]; cbn; split; intros [? H]; eauto;
    discriminate H.
Qed.

Lemma get_ontology_mapping_returns (g : Graph) (obj_id : string) :
  is_Some (get_ontology_mapping g obj_id) ↔ Spec.integer_progress g obj_id.
Proof.
  rewrite <- (progress_loop_returns g obj_id
    (λ action_uri progress,
       {| ai_id := local_name action_uri;
          ai_title :=
            last (node_str <$> objects g action_uri (ISPS "hasTitle"));
          ai_progress := last progress;
          ai_status :=
            last (node_str <$> objects g action_uri (ISPS "hasStatus"));
          ai_owner :=
            last (objects g action_uri (ISPS "ownedBy") ≫=
                    (λ owner,
                       node_str <$> objects g owner (ISPS "hasTitle"))) |})).
  unfold get_ontology_mapping. cbv zeta.
  destruct (mapM _ _) as [actions|]; cbn; split; intros [? H]; eauto;
    discriminate H.
Qed.

Lemma score_objective_returns (g : Graph) (obj_id title : string) :
  is_Some (score_objective g obj_id title) ↔ Spec.integer_progress g obj_id.
Proof.
  rewrite <- (progress_loop_returns g obj_id
    (λ action_uri progress,
       {| det_id := local_name action_uri;
          det_title :=
            last (node_str <$> objects g action_uri (ISPS "hasTitle"));
          det_progress := last progress |})).
  unfold score_objective, _get_action_details, supporting_actions.
  destruct (mapM _ _) as [details|]; cbn; split; intros [? H]; eauto;
    discriminate H.
Qed.

(** X8. The scorer of an objective, [identify_gaps] and
    [get_ontology_mapping] raise on the same graphs: each returns exactly
    when every progress value of an action supporting the objective is an
    integer.  So when [compute_ontology_alignment] has returned, the two
    tools return for every configured objective. *)
Theorem ontology_tools_return_together (g : Graph) :
  (∀ obj_id title,
     (is_Some (score_objective g obj_id title)
      ↔ Spec.integer_progress g obj_id)
     ∧ (is_Some (identify_gaps g obj_id) ↔ Spec.integer_progress g obj_id)
     ∧ (is_Some (get_ontology_mapping g obj_id)
        ↔ Spec.integer_progress g obj_id))
  ∧ (is_Some (compute_ontology_alignment g) →
     ∀ obj_id title, (obj_id, title) ∈ Config.STRATEGIC_OBJECTIVES →
       is_Some (identify_gaps g obj_id)
       ∧ is_Some (get_ontology_mapping g obj_id)).
Proof.
  split.
  - intros obj_id title. split_and!.
    + apply score_objective_returns.
    + apply identify_gaps_returns.
    + apply get_ontology_mapping_returns.
  - intros Hsome obj_id title Hin.
    rewrite identify_gaps_returns, get_ontology_mapping_returns.
    rewrite <- (score_objective_returns g obj_id title).
    unfold compute_ontology_alignment in Hsome.
    assert (Hgen : ∀ l (acc : option (gmap string OntologyRecord)),
      is_Some (foldl (λ results '(obj_id, obj_title),
                        results ← results;
                        record ← score_objective g obj_id obj_title;
                        Some (<[obj_id := record]> results)) acc l) →
      ∀ id t, (id, t) ∈ l → is_Some (score_objective g id t)).
    { clear. induction l as [|[id0 t0] l IH]; intros acc Hfold id t Hin;
        [inversion Hin |].
      cbn [foldl] in Hfold.
      apply elem_of_cons in Hin as [[= -> ->] | Hin].
      - destruct (score_objective g id0 t0) as [r|] eqn:E; [eauto |].
        exfalso. destruct acc as [acc|]; cbn in Hfold;
          rewrite BoundsClaims.fold_None in Hfold;
          try (destruct Hfold as [? Hfold]; discriminate Hfold);
          intros [? ?]; reflexivity.
      - eapply IH; eassumption. }
    assert (H : is_Some (score_objective g obj_id title))
      by (eapply Hgen; eassumption).
    split; exact H.
Qed.

Lemma ontology_tools_return_together_witness :
  is_Some (identify_gaps Examples.graph_two_kpis "SO1").
Proof.
  refine (proj1 (proj2 (ontology_tools_return_together
                          Examples.graph_two_kpis) _ "SO1"
                       "Digital Learning Transformation" _)).
  - vm_compute. eauto.
  - left.
Defined.

(** X9. When [identify_gaps] returns, its list holds a "No supporting
    actions" entry exactly for the KPIs of the objective that no supporting
    action supports, and a "Low progress" entry exactly for the integer
    progress values below 25 of the supporting actions; it is empty
    exactly when every KPI is supported and no such value is below 25. *)
Theorem identify_gaps_complete
    (g : Graph) (obj_id : string) (gaps : list GapEntry)
    (Hgaps : identify_gaps g obj_id = Some gaps) :
  (∀ kpi_id kpi_title,
     NoSupportingActions kpi_id kpi_title ∈ gaps
     ↔ ∃ k, (ISPS obj_id, ISPS "hasKPI", k) ∈ g
            ∧ (node_str k ∉ Spec.Kc g obj_id)
            ∧ kpi_id = local_name k ∧ kpi_title = Shape.title_of g k)
  ∧ (∀ action_id action_title progress,
       LowProgress action_id action_title progress ∈ gaps
       ↔ ∃ a, (a, ISPS "supportsObjective", ISPS obj_id) ∈ g
              ∧ (a, ISPS "hasProgress", IntLiteral progress) ∈ g
              ∧ (progress < 25)%Z
              ∧ action_id = local_name a
              ∧ action_title = Shape.title_of g a)
  ∧ (gaps = []
     ↔ (∀ k, (ISPS obj_id, ISPS "hasKPI", k) ∈ g →
             node_str k ∈ Spec.Kc g obj_id)
       ∧ (∀ a progress,
            (a, ISPS "supportsObjective", ISPS obj_id) ∈ g →
            (a, ISPS "hasProgress", IntLiteral progress) ∈ g →
            (25 <= progress)%Z)).
Proof.
  unfold identify_gaps in Hgaps. cbv zeta in Hgaps.
  change (foldl _ ∅ (subjects g (ISPS "supportsObjective") (ISPS obj_id)))
    with (kpis_with_actions g obj_id) in Hgaps.
  rewrite kpis_with_actions_Kc in Hgaps.
  apply bind_Some in Hgaps as (low & Hlow & [= <-]).
  assert (Hkpi : ∀ x,
     x ∈ objects g (ISPS obj_id) (ISPS "hasKPI") ≫=
           (λ kpi_uri,
              if bool_decide (node_str kpi_uri ∉ Spec.Kc g obj_id)
              then [NoSupportingActions (local_name kpi_uri)
                      (Py.get (last (node_str
                                       <$> objects g kpi_uri
                                             (ISPS "hasTitle")))
                              EmptyString)]
              else [])
     ↔ ∃ k, (ISPS obj_id, ISPS "hasKPI", k) ∈ g
            ∧ (node_str k ∉ Spec.Kc g obj_id)
            ∧ x = NoSupportingActions (local_name k) (Shape.title_of g k)).
  { intros x. rewrite list_elem_of_bind. split.
    - intros (k & Hin & Hk). apply elem_of_objects in Hk.
      case_bool_decide as Hsup; [| inversion Hin].
      apply list_elem_of_singleton in Hin.
      exists k. split_and!; [exact Hk | exact Hsup | exact Hin].
    - intros (k & Hk & Hsup & ->). exists k.
      split; [| apply elem_of_objects, Hk].
      rewrite bool_decide_eq_true_2 by exact Hsup. left. }
  assert (Hprog : ∀ x,
     x ∈ concat low
     ↔ ∃ a progress,
         (a, ISPS "supportsObjective", ISPS obj_id) ∈ g
         ∧ (a, ISPS "hasProgress", IntLiteral progress) ∈ g
         ∧ (progress < 25)%Z
         ∧ x = LowProgress (local_name a) (Shape.title_of g a) progress).
  { intros x. rewrite (elem_of_concat_mapM _ _ _ _ Hlow). split.
    - intros (a & items & Ha & Hitems & Hin).
      apply elem_of_subjects in Ha.
      apply bind_Some in Hitems as (values & Hvalues & [= <-]).
      apply list_elem_of_bind in Hin as (p & Hin & Hp).
      destruct (Z.ltb_spec p 25) as [Hlt | Hge]; [| inversion Hin].
      apply list_elem_of_singleton in Hin.
      exists a, p. split_and!; try assumption.
      apply elem_of_objects.
      apply (elem_of_mapM_node_int _ _ _ Hvalues), Hp.
    - intros (a & progress & Ha & Hp & Hlt & ->).
      assert (Hall : Forall (λ action,
                 is_Some (mapM node_int
                            (objects g action (ISPS "hasProgress"))))
                (subjects g (ISPS "supportsObjective") (ISPS obj_id))).
      { assert (Hsome : is_Some (Some low)) by eauto.
        rewrite <- Hlow, mapM_is_Some in Hsome.
        eapply Forall_impl; [exact Hsome |].
        intros action [y Hy]. unfold compose in Hy.
        apply bind_Some in Hy as (values & E & _). rewrite E. eauto. }
      rewrite Forall_forall in Hall.
      destruct (Hall a (proj2 (elem_of_subjects _ _ _ _) Ha))
        as [values Hvalues].
      eexists a, _. split; [apply elem_of_subjects, Ha |].
      split; [rewrite Hvalues; reflexivity |].
      apply list_elem_of_bind. exists progress. split.
      + rewrite (proj2 (Z.ltb_lt _ _) Hlt). left.
      + apply (elem_of_mapM_node_int _ _ _ Hvalues), elem_of_objects, Hp. }
  set (kpi_gaps := objects g (ISPS obj_id) (ISPS "hasKPI") ≫= _) in *.
  clearbody kpi_gaps. clear Hlow.
  split; [| split].
  - intros kpi_id kpi_title. rewrite elem_of_app, Hkpi, Hprog. split.
    + intros [(k & Hk & Hsup & [= -> ->]) | (a & p & _ & _ & _ & [=])].
      exists k. auto.
    + intros (k & Hk & Hsup & -> & ->). left. exists k. auto.
  - intros action_id action_title progress.
    rewrite elem_of_app, Hkpi, Hprog. split.
    + intros [(k & _ & _ & [=]) | (a & p & Ha & Hp & Hlt & [= -> -> ->])].
      exists a. auto.
    + intros (a & Ha & Hp & Hlt & -> & ->). right. exists a, progress. auto.
  - split.
    + intros Hnil. apply app_eq_nil in Hnil as [Hk Hl]. split.
      * intros k Hin.
        destruct (decide (node_str k ∈ Spec.Kc g obj_id)) as [H | H];
          [exact H | exfalso].
        assert (Hgap : NoSupportingActions (local_name k)
                         (Shape.title_of g k) ∈ kpi_gaps)
          by (apply Hkpi; exists k; auto).
        rewrite Hk in Hgap. inversion Hgap.
      * intros a progress Ha Hp.
        destruct (Z.le_gt_cases 25 progress) as [H | H];
          [exact H | exfalso].
        assert (Hgap : LowProgress (local_name a) (Shape.title_of g a)
                         progress ∈ concat low)
          by (apply Hprog; exists a, progress; split_and!; auto; lia).
        rewrite Hl in Hgap. inversion Hgap.
    + intros [Hk Hp].
      destruct (kpi_gaps ++ concat low) as [|x rest] eqn:E; [reflexivity |].
      exfalso.
      assert (Hx : x ∈ kpi_gaps ++ concat low) by (rewrite E; left).
      apply elem_of_app in Hx as [Hx | Hx].
      * apply Hkpi in Hx as (k & Hin & Hsup & _). apply Hsup, Hk, Hin.
      * apply Hprog in Hx as (a & p & Ha & Hpr & Hlt & _).
        specialize (Hp a p Ha Hpr). lia.
Qed.

Lemma identify_gaps_complete_witness :
  identify_gaps Examples.graph_two_kpis "SO1" = Some []
  ∧ ∀ a progress,
      (a, ISPS "supportsObjective", ISPS "SO1") ∈ Examples.graph_two_kpis →
      (a, ISPS "hasProgress", IntLiteral progress)
        ∈ Examples.graph_two_kpis →
      (25 <= progress)%Z.
Proof.
  assert (H : identify_gaps Examples.graph_two_kpis "SO1" = Some [])
    by (vm_compute; reflexivity).
  split; [exact H |].
  exact (proj2 (proj1 (proj2 (proj2 (identify_gaps_complete _ _ _ H)))
                      eq_refl)).
Defined.

Lemma mapM_agree {A B C D} (f1 : A → option B) (f2 : A → option C)
    (p1 : B → D) (p2 : C → D) (l : list A) (bs : list B) (cs : list C) :
  (∀ x b c, f1 x = Some b → f2 x = Some c → p1 b = p2 c) →
  mapM f1 l = Some bs → mapM f2 l = Some cs → p1 <$> bs = p2 <$> cs.
Proof.
  intros Hagree. revert bs cs.
  induction l as [|x l IH]; intros bs cs H1 H2; cbn in H1, H2.
  - injection H1 as <-. injection H2 as <-. reflexivity.
  - destruct (f1 x) as [b|] eqn:E1; cbn in H1; [| discriminate].
    destruct (f2 x) as [c|] eqn:E2; cbn in H2; [| discriminate].
    destruct (mapM f1 l) as [bs'|]; cbn in H1; [| discriminate].
    destruct (mapM f2 l) as [cs'|]; cbn in H2; [| discriminate].
    injection H1 as <-. injection H2 as <-. cbn. f_equal.
    + eapply Hagree; eassumption.
    + apply IH; reflexivity.
Qed.

(** X10. The mapping that the sync agent reads through its ontology tool
    and the record that the scorer stores for the same objective agree:
    the same number of actions and of KPIs, and the same actions in the
    same order with the same id, title and progress. *)
Theorem mapping_agrees_with_scorer
    (g : Graph) (obj_id title : string) (m : Mapping) (rec : OntologyRecord)
    (Hmap : get_ontology_mapping g obj_id = Some m)
    (Hrec : score_objective g obj_id title = Some rec) :
  m_action_count m = r_total_actions rec
  ∧ m_kpi_count m = r_total_kpis rec
  ∧ (λ a, (ai_id a, ai_title a, ai_progress a)) <$> m_actions m
    = (λ d, (det_id d, det_title d, det_progress d)) <$> r_action_details rec
  ∧ ki_id <$> m_kpis m = local_name <$> kpis g obj_id.
Proof.
  unfold get_ontology_mapping in Hmap. cbv zeta in Hmap.
  apply bind_Some in Hmap as (actions & Hactions & [= <-]).
  unfold score_objective in Hrec.
  apply bind_Some in Hrec as (details & Hdetails & [= <-]).
  unfold _get_action_details, supporting_actions in Hdetails.
  cbn [m_action_count m_kpi_count m_actions m_kpis r_total_actions
       r_total_kpis r_action_details].
  split_and!.
  - unfold action_count, supporting_actions, Py.len.
    apply length_mapM in Hactions. rewrite Hactions. reflexivity.
  - unfold total_kpis, kpis, Py.len. rewrite length_fmap. reflexivity.
  - eapply mapM_agree; [| exact Hactions | exact Hdetails].
    intros x a d Ha Hd. cbv beta in Ha, Hd.
    apply bind_Some in Ha as (p1 & E1 & [= <-]).
    apply bind_Some in Hd as (p2 & E2 & [= <-]).
    rewrite E1 in E2. injection E2 as <-. reflexivity.
  - unfold kpis. rewrite <- list_fmap_compose. reflexivity.
Qed.

Lemma mapping_agrees_with_scorer_witness :
  ∃ m rec,
    get_ontology_mapping Examples.graph_two_kpis "SO1" = Some m
    ∧ score_objective Examples.graph_two_kpis "SO1" "Digital" = Some rec
    ∧ m_action_count m = r_total_actions rec.
Proof.
  destruct (get_ontology_mapping Examples.graph_two_kpis "SO1")
    as [m|] eqn:Hm; [| vm_compute in Hm; discriminate Hm].
  destruct (score_objective Examples.graph_two_kpis "SO1" "Digital")
    as [rec|] eqn:Hrec; [| vm_compute in Hrec; discriminate Hrec].
  exists m, rec. split; [reflexivity |]. split; [reflexivity |].
  exact (proj1 (mapping_agrees_with_scorer _ _ _ _ _ Hm Hrec)).
Defined.

End OntologyToolFacts.

Module VectorStoreFacts.
Import Chunking VectorStore StringFacts.













Lemma ingest_chunks_count
    (collection_add : string → AddCall → option unit)
    (chunks : list Chunk) (collection_name : string) (n : Z) :
  ingest_chunks collection_add chunks collection_name = Some n →
  n = Py.len chunks.
Proof.
  intros Hingest. unfold ingest_chunks in Hingest.
  apply bind_Some in Hingest as (done & _ & [= <-]).
  unfold Py.len, ids. rewrite length_imap. reflexivity.
Qed.

(** X12. When [ingest_all_chunks] returns, the three counts are the sizes
    of the two chunk lists and their sum: the combined collection receives
    every chunk of both documents. *)
Theorem ingest_all_counts
    (collection_add : string → AddCall → option unit)
    (strategic_chunks action_chunks : list Chunk) (counts : Counts)
    (Hall : ingest_all_chunks collection_add strategic_chunks action_chunks
            = Some counts) :
  count_strategic_plan counts = Py.len strategic_chunks
  ∧ count_action_plan counts = Py.len action_chunks
  ∧ count_combined counts
    = (count_strategic_plan counts + count_action_plan counts)%Z.
Proof.
  unfold ingest_all_chunks in Hall. cbv zeta in Hall.
  apply bind_Some in Hall as (strategic & Hs & Hall).
  apply bind_Some in Hall as (action & Ha & Hall).
  apply bind_Some in Hall as (combined & Hc & [= <-]).
  apply ingest_chunks_count in Hs, Ha, Hc. subst.
  cbn [count_strategic_plan count_action_plan count_combined].
  split_and!; [reflexivity | reflexivity |].
  unfold Py.len. rewrite length_app. lia.
Qed.

Lemma ingest_all_counts_witness :
  count_combined
    {| count_strategic_plan := 1; count_action_plan := 0;
       count_combined := 1 |} = 1%Z.
Proof.
  exact (proj2 (proj2
    (ingest_all_counts (λ _ _, Some ())
       [ {| chunk_text := "Vision"; chunk_metadata := [] |} ] []
       {| count_strategic_plan := 1; count_action_plan := 0;
          count_combined := 1 |} eq_refl))).
Defined.

End VectorStoreFacts.

Module ChunkingFacts.
Import Chunking StringFacts.

Lemma search_digit_after_digit (lit l : list ascii) (d : ascii) :
  search_digit_after lit l = Some d → is_digit d = true.
Proof.
  induction l as [|c l IH]; cbn [search_digit_after]; [discriminate |].
  destruct (if Py.prefixb lit (c :: l) then _ else _) as [d'|];
    [destruct (is_digit d') eqn:E |]; try exact IH.
  intros [= <-]. exact E.
Qed.

Lemma search_digit_on_line_digit (lit l : list ascii) (d : ascii) :
  search_digit_on_line lit l = Some d → is_digit d = true.
Proof.
  induction l as [|c l IH]; cbn [search_digit_on_line]; [discriminate |].
  destruct (if Py.prefixb lit (c :: l) then _ else _) as [d'|];
    [destruct (is_digit d') eqn:E |]; try case_bool_decide;
    try exact IH; try discriminate.
  intros [= <-]. exact E.
Qed.

Lemma search_digit_between_digit (first lit l : list ascii) (d : ascii) :
  search_digit_between first lit l = Some d → is_digit d = true.
Proof.
  induction l as [|c l IH]; cbn [search_digit_between]; [discriminate |].
  destruct (Py.prefixb first (c :: l)); [| exact IH].
  destruct (search_digit_on_line lit _) as [d'|] eqn:E; [| exact IH].
  intros [= <-]. eapply search_digit_on_line_digit, E.
Qed.

Lemma search_digit_after_any_digit (set l : list ascii) (d : ascii) :
  search_digit_after_any set l = Some d → is_digit d = true.
Proof.
  induction l as [|c l IH]; cbn [search_digit_after_any]; [discriminate |].
  destruct (if bool_decide (c ∈ set) then _ else _) as [d'|];
    [destruct (is_digit d') eqn:E |]; try exact IH.
  intros [= <-]. exact E.
Qed.

Lemma re_search_digit (p : pattern) (text : string) (d : ascii) :
  re_search p text = Some d → is_digit d = true.
Proof.
  destruct p; cbn [re_search].
  - apply search_digit_after_digit.
  - apply search_digit_between_digit.
  - apply search_digit_after_any_digit.
Qed.

Lemma head_omap_Some {A B} (f : A → option B) (l : list A) (y : B) :
  head (omap f l) = Some y → ∃ x, x ∈ l ∧ f x = Some y.
Proof.
  induction l as [|x l IH]; cbn; [discriminate |].
  destruct (f x) as [y'|] eqn:E; cbn.
  - intros [= <-]. exists x. split; [left | exact E].
  - intros H. destruct (IH H) as (x' & Hin & Hx').
    exists x'. split; [right; exact Hin | exact Hx'].
Qed.

Lemma one_to_six (d : ascii) :
  Py.contains "123456" (String d EmptyString) = true →
  SO d ∈ ["SO1"; "SO2"; "SO3"; "SO4"; "SO5"; "SO6"]%string.
Proof.
  unfold Py.contains. cbn. rewrite !andb_true_r, !orb_false_r.
  rewrite !orb_true_iff, !bool_decide_eq_true.
  intros [<- | [<- | [<- | [<- | [<- | <-]]]]]; vm_compute; set_solver.
Qed.

(** X13. The agentic chunker tags a chunk with GENERAL or with one of SO1
    to SO6 only.  The fixed and the semantic chunker tag it with GENERAL
    or with SO followed by whatever digit the first matching pattern
    captured: a text that names SO9 is tagged SO9 by them and GENERAL by
    the agentic chunker. *)
Theorem objective_id_range (text : string) :
  _extract_objective_id_agentic text
    ∈ ["GENERAL"; "SO1"; "SO2"; "SO3"; "SO4"; "SO5"; "SO6"]%string
  ∧ (_extract_objective_id text = "GENERAL"%string
     ∨ ∃ d, is_digit d = true ∧ _extract_objective_id text = SO d)
  ∧ _extract_objective_id "SO9 Campus estate" = "SO9"%string
  ∧ _extract_objective_id_agentic "SO9 Campus estate" = "GENERAL"%string.
Proof.
  split_and!.
  - unfold _extract_objective_id_agentic. cbv zeta.
    destruct (head (omap _ _)) as [id|] eqn:E; cbn [Py.get]; [| left].
    right. apply head_omap_Some in E as (p & _ & Hp).
    destruct (re_search p text) as [d|]; [| discriminate].
    destruct (Py.contains "123456" (String d EmptyString)) eqn:Hd;
      [| discriminate].
    injection Hp as <-. apply one_to_six, Hd.
  - unfold _extract_objective_id. cbv zeta.
    destruct (head (omap _ _)) as [d|] eqn:E; cbn [Py.get mbind option_bind];
      [| left; reflexivity].
    right. exists d. split; [| reflexivity].
    apply head_omap_Some in E as (p & _ & Hp).
    eapply re_search_digit, Hp.
  - vm_compute. reflexivity.
  - vm_compute. reflexivity.
Qed.

Lemma lower_char_idemp (c : ascii) :
  Py.lower_char (Py.lower_char c) = Py.lower_char c.
Proof. destruct c as [[] [] [] [] [] [] [] []]; vm_compute; reflexivity. Qed.

Lemma lower_char_bar (c : ascii) :
  bool_decide ("|"%char = Py.lower_char c) = bool_decide ("|"%char = c).
Proof. destruct c as [[] [] [] [] [] [] [] []]; vm_compute; reflexivity. Qed.

Lemma lower_idemp (s : string) : Py.lower (Py.lower s) = Py.lower s.
Proof.
  unfold Py.lower. rewrite chars_text, <- list_fmap_compose.
  f_equal. apply list_fmap_ext. intros i c _. apply lower_char_idemp.
Qed.

Lemma contains_bar_lower (s : string) :
  Py.contains (Py.lower s) "|" = Py.contains s "|".
Proof.
  unfold Py.contains, Py.lower. rewrite chars_text.
  induction (Py.chars s) as [|c l IH]; [reflexivity |].
  cbn [fmap list_fmap Py.infixb]. cbn [fmap list_fmap] in IH. rewrite IH.
  f_equal. cbn. rewrite lower_char_bar. reflexivity.
Qed.

(** X14. The section type of a chunk is one of ten labels and does not
    depend on the case of its letters. *)
Theorem section_type_case_insensitive (text : string) :
  _extract_section_type (Py.lower text) = _extract_section_type text
  ∧ _extract_section_type text
      ∈ ["kpi_table"; "timeline"; "action_table"; "risk_table"; "budget";
         "alignment"; "executive_summary"; "governance"; "description";
         "general"]%string.
Proof.
  split.
  - unfold _extract_section_type. cbv zeta.
    rewrite lower_idemp, contains_bar_lower. reflexivity.
  - unfold _extract_section_type. cbv zeta.
    repeat match goal with
    | |- context [if ?b then _ else _] => destruct b
    end; set_solver.
Qed.

End ChunkingFacts.

Module RunFacts.
Import Schema Orchestrator.

(** The entries and the total after the loop over the five objectives. *)
Lemma run_unfold (g : Graph) (sync : string → SyncResult) (res : Results) :
  run_full_analysis g sync = Some res →
  ∃ oa, Alignment.compute_ontology_alignment g = Some oa
    ∧ let entry := λ obj_id, assess_objective oa obj_id (sync obj_id) in
      objectives res
      = <["SO5"%string := entry "SO5"%string]>
          (<["SO4"%string := entry "SO4"%string]>
             (<["SO3"%string := entry "SO3"%string]>
                (<["SO2"%string := entry "SO2"%string]>
                   (<["SO1"%string := entry "SO1"%string]> ∅))))
      ∧ overall_score res
        = Py.round ((0 + e_combined_score (entry "SO1"%string)
                     + e_combined_score (entry "SO2"%string)
                     + e_combined_score (entry "SO3"%string)
                     + e_combined_score (entry "SO4"%string)
                     + e_combined_score (entry "SO5"%string))
                    / inject_Z 5) 3
      ∧ overall_level res = overall_level_of (overall_score res).
Proof.
  unfold run_full_analysis. intros Hrun.
  destruct (Alignment.compute_ontology_alignment g) as [oa|];
    cbn [mbind option_bind] in Hrun; [| discriminate].
  exists oa. split; [reflexivity |].
  unfold Config.STRATEGIC_OBJECTIVES in Hrun. cbn [foldl] in Hrun.
  injection Hrun as <-. cbn [objectives overall_score overall_level].
  split_and!; reflexivity.
Qed.

Lemma run_lookup (g : Graph) (sync : string → SyncResult) (res : Results) :
  run_full_analysis g sync = Some res →
  ∃ oa, Alignment.compute_ontology_alignment g = Some oa
    ∧ ∀ obj_id,
        objectives res !! obj_id
        = if bool_decide (obj_id ∈ ["SO1"; "SO2"; "SO3"; "SO4"; "SO5"]%string)
          then Some (assess_objective oa obj_id (sync obj_id))
          else None.
Proof.
  intros Hrun. destruct (run_unfold g sync res Hrun) as (oa & Hoa & H).
  cbv zeta in H. destruct H as (Hobjs & _ & _).
  exists oa. split; [exact Hoa |]. clear Hrun Hoa.
  intros obj_id. rewrite Hobjs. clear Hobjs.
  case_bool_decide as Hid.
  - set_unfold in Hid.
    destruct Hid as [-> | [-> | [-> | [-> | [-> | []]]]]];
      repeat (rewrite lookup_insert_ne by discriminate);
      rewrite lookup_insert; reflexivity.
  - set_unfold in Hid.
    repeat (rewrite lookup_insert_ne by (intros <-; apply Hid; tauto)).
    apply lookup_empty.
Qed.

(** X15. A run stores an entry for each of the five configured objectives
    and for no other id; its overall score is the mean of the five
    combined scores, not rounded, rounded to three decimals, and its
    overall level classifies that rounded score.  In every entry the level
    classifies the combined score that is not rounded, the score stored in
    the assessment is the rounded one, and the improvement agent has been
    run exactly when the combined score is below 0.7. *)
Theorem overall_is_rounded_mean
    (g : Graph) (sync : string → SyncResult) (res : Results)
    (Hrun : run_full_analysis g sync = Some res) :
  let combined := λ obj_id,
    Py.get (e_combined_score <$> objectives res !! obj_id) 0 in
  (∀ obj_id, is_Some (objectives res !! obj_id)
             ↔ obj_id ∈ ["SO1"; "SO2"; "SO3"; "SO4"; "SO5"]%string)
  ∧ overall_score res
    == Py.round ((combined "SO1"%string + combined "SO2"%string
                  + combined "SO3"%string + combined "SO4"%string
                  + combined "SO5"%string) / 5) 3
  ∧ overall_level res = overall_level_of (overall_score res)
  ∧ ∀ obj_id entry,
      objectives res !! obj_id = Some entry →
      s_alignment_level (e_sync_assessment entry)
      = Some (alignment_level (e_combined_score entry))
      ∧ s_combined_score (e_sync_assessment entry)
        = Some (Py.round (e_combined_score entry) 3)
      ∧ (e_improvements entry = true ↔ e_combined_score entry < 0.7).
Proof.
  cbv zeta.
  destruct (run_lookup g sync res Hrun) as (oa & Hoa & Hlook).
  destruct (run_unfold g sync res Hrun) as (oa' & Hoa' & H).
  rewrite Hoa in Hoa'. injection Hoa' as <-.
  cbv zeta in H. destruct H as (_ & Hoverall & Hlevel).
  clear Hrun Hoa.
  split_and!.
  - intros obj_id. rewrite Hlook. case_bool_decide as Hid.
    + split; [intros _; exact Hid | eauto].
    + split; [intros [? [=]] | intros H; contradiction].
  - rewrite Hoverall, !Hlook. cbn [bool_decide].
    repeat (rewrite bool_decide_eq_true_2 by set_solver).
    cbn [fmap option_fmap option_map Py.get].
    match goal with
    | |- Py.round ?x 3 == Py.round ?y 3 =>
        rewrite (CompareFacts.round_proper x y 3)
          by (change (inject_Z 5) with 5; field)
    end.
    reflexivity.
  - exact Hlevel.
  - intros obj_id entry Hentry. rewrite Hlook in Hentry.
    case_bool_decide; [| discriminate]. injection Hentry as <-.
    cbn [assess_objective e_sync_assessment s_alignment_level
         s_combined_score e_improvements e_combined_score].
    split_and!; [reflexivity | reflexivity |].
    apply CompareFacts.lt_true.
Qed.

Lemma overall_is_rounded_mean_witness :
  ∃ res,
    run_full_analysis Examples.graph_two_kpis (λ _, Examples.judged_3_of_4)
    = Some res
    ∧ overall_level res = overall_level_of (overall_score res).
Proof.
  destruct (run_full_analysis Examples.graph_two_kpis
              (λ _, Examples.judged_3_of_4)) as [res|] eqn:Hrun;
    [| vm_compute in Hrun; discriminate Hrun].
  exists res. split; [reflexivity |].
  exact (proj1 (proj2 (proj2 (overall_is_rounded_mean _ _ _ Hrun)))).
Defined.

End RunFacts.

Module AccuracyFacts.
Import Orchestrator GroundTruth Metrics RoundFacts.

Lemma round_nonneg (x : Q) (n : nat) : 0 <= x → 0 <= Py.round x n.
Proof.
  intros Hx. change 0 with (inject_Z 0) at 1.
  rewrite <- (round_Z 0 n). apply round_mono. exact Hx.
Qed.

(** The report of [evaluate_alignment_accuracy], turn by turn. *)
Lemma accuracy_unfold (system_results : gmap string ObjectiveEntry) :
  let metrics := evaluate_alignment_accuracy system_results in
  let hit := λ obj_id expected,
    if bool_decide (system_level_of system_results obj_id = expected)
    then 1%Z else 0%Z in
  let err := λ obj_id expected,
    Qabs (system_score_of system_results obj_id - expected) in
  fst <$> per_objective metrics
  = ["SO1"; "SO2"; "SO3"; "SO4"; "SO5"; "SO6"]%string
  ∧ total_objectives (overall metrics) = 6%Z
  ∧ correct_levels (overall metrics)
    = (hit "SO1" "Full" + hit "SO2" "Full" + hit "SO3" "Full"
       + hit "SO4" "Partial" + hit "SO5" "Partial" + hit "SO6" "Full")%Z
  ∧ level_accuracy (overall metrics)
    = Py.round (inject_Z (correct_levels (overall metrics)) / inject_Z 6) 3
  ∧ mean_absolute_error (overall metrics)
    = Py.round ((0 + err "SO1" 0.85 + err "SO2" 0.80 + err "SO3" 0.80
                 + err "SO4" 0.60 + err "SO5" 0.50 + err "SO6" 0.80)
                / inject_Z 6) 3
  ∧ last (per_objective metrics)
    = Some ("SO6"%string,
            {| system_score := Py.round (system_score_of system_results "SO6") 3;
               expected_min_score := 0.80;
               system_level := system_level_of system_results "SO6";
               expected_level := "Full";
               level_match :=
                 bool_decide (system_level_of system_results "SO6"
                              = "Full"%string);
               score_error := Py.round (err "SO6" 0.80) 3 |}).
Proof.
  cbv zeta. unfold evaluate_alignment_accuracy, evaluate_alignment_accuracy_on.
  unfold EXPECTED_ALIGNMENT. cbn [foldl level min_score].
  cbn [per_objective overall total_objectives correct_levels level_accuracy
       mean_absolute_error].
  split_and!; try reflexivity.
  repeat match goal with
  | |- context [bool_decide ?P] => destruct (bool_decide P)
  end; reflexivity.
Qed.

(** X16. [evaluate_alignment_accuracy] reports on the six objectives of
    its table, in their order: between 0 and 6 correct levels, an accuracy
    in the unit interval and a mean error that is not negative.  An
    objective absent from the results is read as score 0.5 and level
    Partial; the results of a run never hold SO6, so a run is reported
    with at most 5 correct levels, an accuracy of at most 0.833, and for
    SO6 a level mismatch with score error 0.3. *)
Theorem accuracy_over_six (system_results : gmap string ObjectiveEntry) :
  let metrics := evaluate_alignment_accuracy system_results in
  fst <$> per_objective metrics
  = ["SO1"; "SO2"; "SO3"; "SO4"; "SO5"; "SO6"]%string
  ∧ total_objectives (overall metrics) = 6%Z
  ∧ (0 <= correct_levels (overall metrics) <= 6)%Z
  ∧ 0 <= level_accuracy (overall metrics) <= 1
  ∧ 0 <= mean_absolute_error (overall metrics)
  ∧ (∀ obj_id, system_results !! obj_id = None →
       system_score_of system_results obj_id = 0.5
       ∧ system_level_of system_results obj_id = "Partial"%string)
  ∧ (system_results !! "SO6"%string = None →
     (correct_levels (overall metrics) <= 5)%Z
     ∧ level_accuracy (overall metrics) <= 0.833
     ∧ ∃ entry,
         last (per_objective metrics) = Some ("SO6"%string, entry)
         ∧ system_score entry == 0.5
         ∧ system_level entry = "Partial"%string
         ∧ expected_level entry = "Full"%string
         ∧ level_match entry = false
         ∧ score_error entry == 0.3)
  ∧ (∀ g sync res,
       run_full_analysis g sync = Some res →
       objectives res !! "SO6"%string = None).
Proof.
  cbv zeta.
  destruct (accuracy_unfold system_results)
    as (Hkeys & Htotal & Hcorrect & Hacc & Hmae & Hlast).
  cbv zeta in Hcorrect, Hmae, Hlast.
  set (metrics := evaluate_alignment_accuracy system_results) in *.
  clearbody metrics.
  assert (Hrange : (0 <= correct_levels (overall metrics) <= 6)%Z).
  { rewrite Hcorrect.
    repeat match goal with
    | |- context [bool_decide ?P] => destruct (bool_decide P)
    end; lia. }
  assert (Hdefault : ∀ obj_id, system_results !! obj_id = None →
            system_score_of system_results obj_id = 0.5
            ∧ system_level_of system_results obj_id = "Partial"%string).
  { intros obj_id H. unfold system_score_of, system_level_of. rewrite H.
    split; reflexivity. }
  split; [exact Hkeys |]. split; [exact Htotal |]. split; [exact Hrange |].
  split.
  { rewrite Hacc. apply PyFacts.round_unit.
    apply RetrievalMetricsFacts.ratio_unit; lia. }
  split.
  { rewrite Hmae. apply round_nonneg.
    apply Qle_shift_div_l; [reflexivity |].
    repeat match goal with
    | |- context [Qabs ?x] =>
        let H := fresh "Habs" in
        pose proof (Qabs_nonneg x) as H; generalize dependent (Qabs x); intros
    end.
    lra. }
  split; [exact Hdefault |].
  split.
  - intros Habsent. destruct (Hdefault _ Habsent) as [Hscore Hlevel].
    assert (Hfive : (correct_levels (overall metrics) <= 5)%Z).
    { rewrite Hcorrect, Hlevel.
      rewrite (bool_decide_eq_false_2 ("Partial"%string = "Full"%string))
        by discriminate.
      repeat match goal with
      | |- context [bool_decide ?P] => destruct (bool_decide P)
      end; lia. }
    split; [exact Hfive |]. split.
    + rewrite Hacc.
      assert (E : Py.round (inject_Z 5 / inject_Z 6) 3 == 0.833)
        by (vm_compute; reflexivity).
      rewrite <- E. apply round_mono.
      apply Qmult_le_compat_r; [rewrite <- Zle_Qle; exact Hfive |].
      vm_compute. discriminate.
    + eexists. split; [exact Hlast |].
      cbn [system_score system_level expected_level level_match score_error].
      rewrite Hscore, Hlevel. split_and!; try reflexivity.
  - intros g sync res Hrun.
    destruct (RunFacts.run_lookup g sync res Hrun) as (oa & _ & Hlook).
    rewrite Hlook. reflexivity.
Qed.

End AccuracyFacts.

Module GapCountFacts.
Import Orchestrator GroundTruth Metrics RoundFacts.

Lemma split_by_answer {A} (f : A → option bool) (l : list A) :
  Forall (λ x, is_Some (f x)) l →
  filter (λ x, f x = Some true) l ++ filter (λ x, f x = Some false) l ≡ₚ l.
Proof.
  induction l as [|x l IH]; intros Hall; [reflexivity |].
  apply Forall_cons in Hall as [[b Hx] Hl]. specialize (IH Hl).
  rewrite !filter_cons, Hx. destruct b.
  - rewrite decide_True by reflexivity.
    rewrite decide_False by discriminate. cbn. constructor. exact IH.
  - rewrite decide_False by discriminate.
    rewrite decide_True by reflexivity.
    rewrite <- Permutation_middle. constructor. exact IH.
Qed.

(** X17. [evaluate_gap_detection] returns on every result: the detected
    and the missed gaps together are the five expected gaps, each once,
    the two counts are the lengths of the two lists and add up to 5, the
    detection rate is the detected count over 5 rounded to three
    decimals, in the unit interval; results without uncovered KPI detect
    nothing. *)
Theorem gap_detection_counts (system_results : gmap string ObjectiveEntry) :
  ∃ report,
    evaluate_gap_detection system_results = Some report
    ∧ detected_gaps report ++ missed_gaps report ≡ₚ EXPECTED_GAPS
    ∧ total_expected_gaps report = 5%Z
    ∧ detected report = Py.len (detected_gaps report)
    ∧ missed report = Py.len (missed_gaps report)
    ∧ (detected report + missed report = 5)%Z
    ∧ detection_rate report
      = Py.round (inject_Z (detected report) / inject_Z 5) 3
    ∧ 0 <= detection_rate report <= 1
    ∧ ((∀ obj_id, Spec.uncovered_of system_results obj_id = []) →
       detected report = 0%Z ∧ detection_rate report == 0).
Proof.
  assert (Hall : Forall (λ gap, is_Some (gap_detected system_results (kpi gap)))
                        EXPECTED_GAPS).
  { apply Forall_forall. intros gap Hin.
    destruct (GapFacts.expected_gaps_suffix gap Hin) as (suffix & Hs & _).
    destruct (GapFacts.gap_detected_spec system_results (kpi gap) suffix Hs)
      as (d & Hd & _).
    rewrite Hd. eauto. }
  unfold evaluate_gap_detection, evaluate_gap_detection_on.
  rewrite (GapFacts.fold_gaps system_results EXPECTED_GAPS [] [])
    by (rewrite Forall_forall in Hall; exact Hall).
  cbn [mbind option_bind app]. eexists. split; [reflexivity |].
  cbn [detected_gaps missed_gaps total_expected_gaps detected missed
       detection_rate].
  pose proof (split_by_answer
                (λ gap, gap_detected system_results (kpi gap))
                EXPECTED_GAPS Hall) as Hperm.
  set (found := filter (λ gap, gap_detected system_results (kpi gap)
                               = Some true) EXPECTED_GAPS) in *.
  set (lost := filter (λ gap, gap_detected system_results (kpi gap)
                              = Some false) EXPECTED_GAPS) in *.
  assert (Hlen : (Py.len found + Py.len lost = 5)%Z).
  { unfold Py.len. apply Permutation_length in Hperm.
    rewrite length_app in Hperm.
    change (length EXPECTED_GAPS) with 5%nat in Hperm. lia. }
  assert (Hfound : (0 <= Py.len found)%Z) by (unfold Py.len; lia).
  assert (Hlost : (0 <= Py.len lost)%Z) by (unfold Py.len; lia).
  split; [exact Hperm |]. split; [reflexivity |].
  split; [reflexivity |]. split; [reflexivity |].
  split; [exact Hlen |]. split; [reflexivity |].
  split.
  { change (Py.len EXPECTED_GAPS) with 5%Z. cbn [Z.ltb Z.compare].
    apply PyFacts.round_unit.
    apply RetrievalMetricsFacts.ratio_unit; lia. }
  intros Hnone.
  assert (Hnil : found = []).
  { unfold found. apply GroundTruthFacts.list_filter_none.
    apply Forall_forall. intros gap _.
    unfold gap_detected. cbv zeta.
    change (Py.get (system_results !! Py.split_head "_" (kpi gap) ≫=
                      (λ e, s_uncovered_kpis (e_sync_assessment e))) [])
      with (Spec.uncovered_of system_results (Py.split_head "_" (kpi gap))).
    rewrite Hnone. destruct (Py.index _ 1); cbn; congruence. }
  rewrite Hnil. split; reflexivity.
Qed.

End GapCountFacts.

Module EvaluatorFacts.
Import Schema Orchestrator GroundTruth Metrics Evaluator.

Lemma build_action_map_fold (details : list Alignment.ActionDetail)
    (acc : option (gmap string string)) :
  is_Some (foldl (λ action_map action,
                    action_map ← action_map;
                    let normalized_id :=
                      Py.replace_char "_" "." (Alignment.det_id action) in
                    title ← Alignment.det_title action;
                    Some (<[normalized_id := title]> action_map))
                 acc details)
  ↔ is_Some acc
    ∧ Forall (λ action, is_Some (Alignment.det_title action)) details.
Proof.
  revert acc. induction details as [|d details IH]; intros acc; cbn [foldl].
  - split; [intros H; split; [exact H | constructor] | intros [H _]; exact H].
  - rewrite IH, Forall_cons. cbv zeta. split.
    + intros [[m Hm] Hall]. apply bind_Some in Hm as (m0 & -> & Hm).
      apply bind_Some in Hm as (t & Ht & _).
      split; [eauto |]. split; [rewrite Ht; eauto | exact Hall].
    + intros [[m0 ->] [[t Ht] Hall]]. split; [| exact Hall].
      cbn. rewrite Ht. cbn. eauto.
Qed.

Lemma build_action_map_returns (details : list Alignment.ActionDetail) :
  is_Some (build_action_map details)
  ↔ Forall (λ action, is_Some (Alignment.det_title action)) details.
Proof.
  unfold build_action_map. rewrite build_action_map_fold.
  split; [intros [_ H]; exact H | intros H; split; [eauto | exact H]].
Qed.

Lemma compare_objective_returns
    (objectives_data : gmap string ObjectiveEntry) (obj_id objective : string) :
  is_Some (compare_objective objectives_data obj_id objective)
  ↔ ∀ entry record,
      objectives_data !! obj_id = Some entry →
      e_ontology_data entry = Some record →
      Forall (λ action, is_Some (Alignment.det_title action))
             (Alignment.r_action_details record).
Proof.
  unfold compare_objective. cbv zeta.
  destruct (objectives_data !! obj_id) as [entry|]; cbn [mbind option_bind].
  - destruct (e_ontology_data entry) as [record|] eqn:E.
    + split.
      * intros [row Hrow] e r [= <-] Hr. rewrite E in Hr. injection Hr as <-.
        apply build_action_map_returns.
        apply bind_Some in Hrow as (m & -> & _). eauto.
      * intros H. specialize (H entry record eq_refl E).
        apply build_action_map_returns in H as [m ->].
        cbn. eauto.
    + split; [| intros _; cbn; eauto].
      intros _ e r [= <-] Hr. rewrite E in Hr. discriminate Hr.
  - split; [intros _ e r [=] | intros _; cbn; eauto].
Qed.

Lemma evaluate_gap_detection_returns
    (system_results : gmap string ObjectiveEntry) :
  is_Some (evaluate_gap_detection system_results).
Proof.
  assert (Hall : ∀ gap, gap ∈ EXPECTED_GAPS →
                   is_Some (gap_detected system_results (kpi gap))).
  { intros gap Hin.
    destruct (GapFacts.expected_gaps_suffix gap Hin) as (suffix & Hs & _).
    destruct (GapFacts.gap_detected_spec system_results (kpi gap) suffix Hs)
      as (d & Hd & _).
    rewrite Hd. eauto. }
  unfold evaluate_gap_detection, evaluate_gap_detection_on.
  rewrite (GapFacts.fold_gaps system_results EXPECTED_GAPS [] [] Hall).
  cbn. eauto.
Qed.

(** The rows of the comparison table, one per configured objective. *)
Lemma run_evaluation_returns (np_std : list Z → Q) (system_results : Results)
    (chunks : option (list (string * list Chunking.Chunk))) :
  is_Some (run_evaluation np_std system_results chunks)
  ↔ ∀ obj_id objective,
      (obj_id, objective) ∈ Config.STRATEGIC_OBJECTIVES →
      is_Some (compare_objective (objectives system_results) obj_id objective).
Proof.
  unfold run_evaluation. cbv zeta.
  destruct (evaluate_gap_detection_returns (objectives system_results))
    as [gaps ->].
  cbn [mbind option_bind].
  set (row := λ '(obj_id, objective),
        row ← compare_objective (objectives system_results) obj_id objective;
        Some (obj_id, row)).
  assert (Hrows : is_Some (mapM row Config.STRATEGIC_OBJECTIVES)
                  ↔ ∀ obj_id objective,
                      (obj_id, objective) ∈ Config.STRATEGIC_OBJECTIVES →
                      is_Some (compare_objective (objectives system_results)
                                                 obj_id objective)).
  { rewrite mapM_is_Some, Forall_forall. split.
    - intros H obj_id objective Hin. specialize (H _ Hin).
      unfold compose, row in H. destruct H as [r Hr].
      apply bind_Some in Hr as (c & -> & _). eauto.
    - intros H [obj_id objective] Hin. unfold compose, row.
      destruct (H _ _ Hin) as [c ->]. cbn. eauto. }
  rewrite <- Hrows.
  destruct (mapM row Config.STRATEGIC_OBJECTIVES) as [rows|]; cbn.
  - split; eauto.
  - split; intros [? [=]].
Qed.

Lemma compute_lookup (g : Graph) (oa : gmap string Alignment.OntologyRecord) :
  Alignment.compute_ontology_alignment g = Some oa →
  ∀ obj_id, obj_id ∈ ["SO1"; "SO2"; "SO3"; "SO4"; "SO5"]%string →
    ∃ record title, oa !! obj_id = Some record
                    ∧ Alignment.score_objective g obj_id title = Some record.
Proof.
  unfold Alignment.compute_ontology_alignment, Config.STRATEGIC_OBJECTIVES.
  cbn [foldl mbind option_bind].
  repeat match goal with
  | |- context [Alignment.score_objective g ?id ?t] =>
      lazymatch goal with
      | H : Alignment.score_objective g id t = _ |- _ => fail
      | _ => idtac
      end;
      let E := fresh "E" in
      destruct (Alignment.score_objective g id t) eqn:E;
      cbn [foldl mbind option_bind]; [| discriminate]
  end.
  intros [= <-] obj_id Hid. set_unfold in Hid.
  destruct Hid as [-> | [-> | [-> | [-> | [-> | []]]]]];
    repeat (rewrite lookup_insert_ne by discriminate);
    rewrite lookup_insert; eauto.
Qed.

Lemma details_titles (g : Graph) (actions : list node)
    (details : list Alignment.ActionDetail) :
  Alignment._get_action_details g actions = Some details →
  Forall (λ action, is_Some (Alignment.det_title action)) details
  ↔ ∀ a, a ∈ actions → ∃ t, (a, ISPS "hasTitle", t) ∈ g.
Proof.
  unfold Alignment._get_action_details.
  revert details. induction actions as [|a actions IH]; intros details H;
    cbn in H.
  - injection H as <-. split; [intros _ a Ha; inversion Ha | constructor].
  - apply bind_Some in H as (d & Hd & H).
    apply bind_Some in H as (ds & Hds & [= <-]).
    apply bind_Some in Hd as (p & _ & [= <-]).
    rewrite Forall_cons, (IH ds Hds). cbn [Alignment.det_title].
    assert (Htitle :
      is_Some (last (node_str <$> objects g a (ISPS "hasTitle")))
      ↔ ∃ t, (a, ISPS "hasTitle", t) ∈ g).
    { rewrite fmap_last, fmap_is_Some, last_is_Some. split.
      - intros Hne. destruct (objects g a (ISPS "hasTitle")) as [|t ts] eqn:E;
          [congruence |].
        exists t. apply GraphFacts.elem_of_objects. rewrite E. left.
      - intros [t Ht] E. apply GraphFacts.elem_of_objects in Ht.
        rewrite E in Ht. inversion Ht. }
    rewrite Htitle. split.
    + intros [Ha Hrest] a' Ha'.
      apply elem_of_cons in Ha' as [-> | Ha']; [exact Ha | apply Hrest, Ha'].
    + intros H. split; [apply H; left |].
      intros a' Ha'. apply H. right. exact Ha'.
Qed.

(** X18. On the results of a run, [run_evaluation] returns exactly when
    every action that supports a configured objective has a title in the
    graph: the loop that fills [action_map] reads [action["title"]], a key
    that [_get_action_details] sets only for an action with a title. *)
Theorem evaluation_needs_titles
    (np_std : list Z → Q) (g : Graph) (sync : string → SyncResult)
    (res : Results) (chunks : option (list (string * list Chunking.Chunk)))
    (Hrun : run_full_analysis g sync = Some res) :
  is_Some (run_evaluation np_std res chunks)
  ↔ ∀ obj_id a,
      obj_id ∈ ["SO1"; "SO2"; "SO3"; "SO4"; "SO5"]%string →
      (a, ISPS "supportsObjective", ISPS obj_id) ∈ g →
      ∃ t, (a, ISPS "hasTitle", t) ∈ g.
Proof.
  destruct (RunFacts.run_lookup g sync res Hrun) as (oa & Hoa & Hlook).
  clear Hrun.
  assert (Hrecord : ∀ obj_id,
            obj_id ∈ ["SO1"; "SO2"; "SO3"; "SO4"; "SO5"]%string →
            ∃ entry record details,
              objectives res !! obj_id = Some entry
              ∧ e_ontology_data entry = Some record
              ∧ Alignment.r_action_details record = details
              ∧ Alignment._get_action_details g
                  (Alignment.supporting_actions g obj_id) = Some details).
  { intros obj_id Hid.
    destruct (compute_lookup g oa Hoa obj_id Hid)
      as (record & title & Hrec & Hscore).
    eexists _, record, _. rewrite Hlook.
    rewrite bool_decide_eq_true_2 by exact Hid.
    split; [reflexivity |]. cbn [assess_objective e_ontology_data].
    split; [exact Hrec |]. split; [reflexivity |].
    unfold Alignment.score_objective in Hscore.
    apply bind_Some in Hscore as (details & Hd & [= <-]). exact Hd. }
  rewrite run_evaluation_returns. split.
  - intros H obj_id a Hid Ha.
    assert (Hin : ∃ title, (obj_id, title) ∈ Config.STRATEGIC_OBJECTIVES).
    { change ["SO1"; "SO2"; "SO3"; "SO4"; "SO5"]%string
        with (fst <$> Config.STRATEGIC_OBJECTIVES) in Hid.
      apply list_elem_of_fmap in Hid as ([id title] & -> & Hin).
      exists title. exact Hin. }
    destruct Hin as [title Hin].
    destruct (Hrecord obj_id Hid)
      as (entry & record & details & He & Hr & <- & Hd).
    pose proof (proj1 (compare_objective_returns _ _ _) (H _ _ Hin)
                      entry record He Hr) as Hall.
    apply (proj1 (details_titles g _ _ Hd) Hall).
    apply GraphFacts.elem_of_subjects, Ha.
  - intros H obj_id objective Hin.
    assert (Hid : obj_id ∈ ["SO1"; "SO2"; "SO3"; "SO4"; "SO5"]%string).
    { apply (list_elem_of_fmap_2 fst) in Hin. exact Hin. }
    destruct (Hrecord obj_id Hid)
      as (entry & record & details & He & Hr & <- & Hd).
    apply compare_objective_returns. intros e r He' Hr'.
    rewrite He in He'. injection He' as <-.
    rewrite Hr in Hr'. injection Hr' as <-.
    apply (proj2 (details_titles g _ _ Hd)). intros a Ha.
    apply (H obj_id a Hid). apply GraphFacts.elem_of_subjects, Ha.
Qed.

Lemma evaluation_needs_titles_witness :
  ∃ res,
    run_full_analysis Examples.graph_two_kpis (λ _, Examples.judged_3_of_4)
    = Some res
    ∧ run_evaluation (λ _, 0) res None = None.
Proof.
  assert (Hid : "SO1"%string ∈ ["SO1"; "SO2"; "SO3"; "SO4"; "SO5"]%string)
    by left.
  assert (Hsup : (ISPS "A1_1", ISPS "supportsObjective", ISPS "SO1")
                 ∈ Examples.graph_two_kpis)
    by (unfold Examples.graph_two_kpis, add; set_solver).
  assert (Hno : ∀ t, (ISPS "A1_1", ISPS "hasTitle", t)
                     ∉ Examples.graph_two_kpis).
  { intros t Ht. unfold Examples.graph_two_kpis, add in Ht.
    set_unfold in Ht. unfold ISPS in Ht. destruct_or!;
      try contradiction; vm_compute in Ht; simplify_eq. }
  destruct (run_full_analysis Examples.graph_two_kpis
              (λ _, Examples.judged_3_of_4)) as [res|] eqn:Hrun;
    [| vm_compute in Hrun; discriminate Hrun].
  exists res. split; [reflexivity |].
  destruct (run_evaluation (λ _, 0) res None) as [ev|] eqn:E;
    [exfalso | reflexivity].
  assert (Hsome : is_Some (run_evaluation (λ _, 0) res None))
    by (rewrite E; exists ev; reflexivity).
  destruct (proj1 (evaluation_needs_titles (λ _, 0) _ _ res None Hrun) Hsome
                  "SO1"%string (ISPS "A1_1") Hid Hsup) as [t Ht].
  exact (Hno t Ht).
Defined.

Lemma mapM_rows {A B} (f : string → A → option B)
    (l : list (string * A)) (rows : list (string * B)) :
  mapM (λ '(k, x), row ← f k x; Some (k, row)) l = Some rows →
  fst <$> rows = fst <$> l
  ∧ ∀ k row, (k, row) ∈ rows → ∃ x, (k, x) ∈ l ∧ f k x = Some row.
Proof.
  revert rows. induction l as [|[k x] l IH]; intros rows H; cbn in H.
  - injection H as <-. split; [reflexivity |]. intros k row Hin. inversion Hin.
  - apply bind_Some in H as ([k' r] & Hr & H).
    apply bind_Some in Hr as (r' & Hf & [= <- <-]).
    apply bind_Some in H as (rest & Hrest & [= <-]).
    destruct (IH rest Hrest) as [Hkeys Hrows]. split.
    + cbn. f_equal. exact Hkeys.
    + intros k0 row Hin. apply elem_of_cons in Hin as [[= -> ->] | Hin].
      * exists x. split; [left | exact Hf].
      * destruct (Hrows _ _ Hin) as (x0 & Hx0 & Hf0).
        exists x0. split; [right; exact Hx0 | exact Hf0].
Qed.

(** X19. When [run_evaluation] returns, its comparison table has one row
    for each of the five configured objectives, each with the six KPIs of
    the ground truth, while its accuracy section is the report of
    [evaluate_alignment_accuracy] over six objectives.  For an objective
    absent from the results the table shows the score 0 and the level
    Unknown, where the accuracy section reads 0.5 and Partial.  The
    chunking section has one entry per chunk list given, none when the
    argument is left out. *)
Theorem evaluation_rows
    (np_std : list Z → Q) (system_results : Results)
    (chunks : option (list (string * list Chunking.Chunk)))
    (ev : EvalResults)
    (Hev : run_evaluation np_std system_results chunks = Some ev) :
  fst <$> ground_truth_comparison ev
  = ["SO1"; "SO2"; "SO3"; "SO4"; "SO5"]%string
  ∧ alignment_accuracy ev
    = evaluate_alignment_accuracy (objectives system_results)
  ∧ total_objectives (overall (alignment_accuracy ev)) = 6%Z
  ∧ evaluate_gap_detection (objectives system_results)
    = Some (gap_detection ev)
  ∧ (∀ obj_id row,
       (obj_id, row) ∈ ground_truth_comparison ev →
       cov_total_kpis (cmp_ground_truth row) = 6%Z
       ∧ Config.lookup obj_id Config.STRATEGIC_OBJECTIVES
         = Some (cmp_objective row)
       ∧ (∀ entry, objectives system_results !! obj_id = Some entry →
                   cmp_system_score row = e_combined_score entry)
       ∧ (objectives system_results !! obj_id = None →
          cmp_system_score row = 0
          ∧ cmp_system_level row = "Unknown"%string
          ∧ cmp_covered_kpis row = []
          ∧ system_score_of (objectives system_results) obj_id = 0.5
          ∧ system_level_of (objectives system_results) obj_id
            = "Partial"%string))
  ∧ fst <$> chunking_quality ev = fst <$> Py.get chunks [].
Proof.
  unfold run_evaluation in Hev. cbv zeta in Hev.
  apply bind_Some in Hev as (gaps & Hgaps & Hev).
  apply bind_Some in Hev as (rows & Hrows & [= <-]).
  cbn [ground_truth_comparison alignment_accuracy gap_detection
       chunking_quality].
  apply mapM_rows in Hrows as [Hkeys Hrows].
  split; [exact Hkeys |]. split; [reflexivity |].
  split; [apply AccuracyFacts.accuracy_unfold |].
  split; [exact Hgaps |]. split.
  - intros obj_id row Hin.
    destruct (Hrows _ _ Hin) as (objective & Hobj & Hrow).
    unfold compare_objective in Hrow. cbv zeta in Hrow.
    apply bind_Some in Hrow as (action_map & _ & [= <-]).
    cbn [cmp_ground_truth cmp_objective cmp_system_score cmp_system_level
         cmp_covered_kpis].
    assert (Hid : obj_id ∈ ["SO1"; "SO2"; "SO3"; "SO4"; "SO5"]%string)
      by (apply (list_elem_of_fmap_2 fst) in Hobj; exact Hobj).
    split_and!.
    + rewrite GroundTruthFacts.kpi_coverage_counts_total.
      rewrite bool_decide_eq_true_2 by set_solver. reflexivity.
    + clear Hin Hrows. unfold Config.STRATEGIC_OBJECTIVES in *.
      set_unfold in Hobj.
      destruct Hobj as [[= -> ->] | [[= -> ->] | [[= -> ->] | [[= -> ->]
                        | [[= -> ->] | []]]]]]; reflexivity.
    + intros entry ->. reflexivity.
    + intros Hnone. unfold system_score_of, system_level_of. rewrite Hnone.
      split_and!; reflexivity.
  - destruct chunks as [chunks|]; [| reflexivity]. cbn [Py.get].
    rewrite <- list_fmap_compose. apply list_fmap_ext.
    intros i [doc_type chunk_list] _. reflexivity.
Qed.

Lemma evaluation_rows_witness :
  ∃ ev,
    run_evaluation (λ _, 0)
      {| objectives := ∅; overall_score := 0; overall_level := "Missing" |}
      None = Some ev
    ∧ total_objectives (overall (alignment_accuracy ev)) = 6%Z.
Proof.
  destruct (run_evaluation (λ _, 0)
              {| objectives := ∅; overall_score := 0;
                 overall_level := "Missing" |} None) as [ev|] eqn:Hev.
  - exists ev. split; [reflexivity |].
    exact (proj1 (proj2 (proj2 (evaluation_rows _ _ _ _ Hev)))).
  - exfalso.
    assert (Hsome : is_Some (run_evaluation (λ _, 0)
              {| objectives := ∅; overall_score := 0;
                 overall_level := "Missing" |} None)).
    { apply run_evaluation_returns. intros obj_id objective _.
      apply compare_objective_returns. intros entry record H.
      cbn in H. rewrite lookup_empty in H. discriminate H. }
    rewrite Hev in Hsome. destruct Hsome as [? [=]].
Defined.

End EvaluatorFacts.
